(** * LiteLLM / Lakera demo client: guardrail-violation parsing, chat session
      and proxy supervisor

    A shallow embedding of [src/client.py], [src/chat.py] and
    [src/proxy_manager.py].

    - Python values that [json.loads], [response.json()] and
      [ast.literal_eval] hand to the code are the inductive [pyval];
      a [dict] is an association list in insertion order (its keys are
      pairwise distinct in every value Python builds).
    - A Python computation that may raise is a [result]; [try]/[except]
      is [try_except], matching on the class hierarchy [bases].
    - Text is [string], read as the UTF-8 bytes of the Python [str];
      case mapping, white space and [repr] escaping follow the tables
      of Unicode 14.0, which CPython 3.11 has.
    - Library functions the modules call but do not define ([json.loads],
      [ast.literal_eval], [requests.post] and [requests.get]) are
      parameters.
    - The supervisor's [start] talks to the operating system; it is a
      tree of [event]s ([prog]) that an environment answers. *)

From Stdlib Require Import ZArith List String Ascii Bool Lia DecimalString QArith.
From Stdlib Require Import Floats.SpecFloat.
Import ListNotations.
Open Scope string_scope.
Open Scope Z_scope.

Set Implicit Arguments.

(* ================================================================== *)
(** * Text *)
(* ================================================================== *)

Module Text.

(** The double quote character, and a text wrapped in double quotes. *)
Definition dq : string := String (ascii_of_nat 34) EmptyString.
Definition quoted (s : string) : string := dq ++ s ++ dq.

Definition nl : string := String (ascii_of_nat 10) EmptyString.

(** [str(n)] for an [int]. *)
Definition str_of_Z (z : Z) : string := NilZero.string_of_int (Z.to_int z).

(** [sub in s] for two [str]. *)
Fixpoint is_infix (sub s : string) : bool :=
  prefix sub s ||
  match s with
  | EmptyString => false
  | String _ rest => is_infix sub rest
  end.

(** [s.replace(old, new)] where [old] is a single ASCII character. *)
Fixpoint replace_char (old : ascii) (new : string) (s : string) : string :=
  match s with
  | EmptyString => EmptyString
  | String c rest =>
      if Ascii.eqb c old then new ++ replace_char old new rest
      else String c (replace_char old new rest)
  end.

(** ** The characters of a text

    A character of a [str] is a code point; the text holds it as its
    UTF-8 bytes (a lone surrogate, which a [str] can hold, as the three
    bytes the same scheme gives it). A byte that belongs to no such
    sequence is in no [str]; it is kept apart as [Stray] and every
    operation passes it on unchanged. *)
Inductive uchar : Type :=
| Cp (n : Z)
| Stray (b : ascii).

Definition byte (c : ascii) : Z := Z.of_nat (nat_of_ascii c).
Definition of_byte (z : Z) : ascii := ascii_of_nat (Z.to_nat z).

Definition continuation (c : ascii) : bool :=
  ((128 <=? byte c) && (byte c <? 192))%bool.

(** The number of bytes the sequence that starts with [c] has, [0]
    when no sequence starts with it. *)
Definition sequence_length (c : ascii) : nat :=
  let b := byte c in
  if b <? 128 then 1
  else if b <? 192 then 0
  else if b <? 224 then 2
  else if b <? 240 then 3
  else if b <? 248 then 4
  else 0.

Definition two_bytes (c0 c1 : ascii) : Z :=
  (byte c0 - 192) * 64 + (byte c1 - 128).
Definition three_bytes (c0 c1 c2 : ascii) : Z :=
  (byte c0 - 224) * 4096 + (byte c1 - 128) * 64 + (byte c2 - 128).
Definition four_bytes (c0 c1 c2 c3 : ascii) : Z :=
  (byte c0 - 240) * 262144 + (byte c1 - 128) * 4096
  + (byte c2 - 128) * 64 + (byte c3 - 128).

Fixpoint decode (s : string) : list uchar :=
  match s with
  | EmptyString => []
  | String c0 s1 =>
      let stray := Stray c0 :: decode s1 in
      match sequence_length c0, s1 with
      | 1%nat, _ => Cp (byte c0) :: decode s1
      | 2%nat, String c1 s2 =>
          if (continuation c1 && (128 <=? two_bytes c0 c1))%bool
          then Cp (two_bytes c0 c1) :: decode s2
          else stray
      | 3%nat, String c1 (String c2 s3) =>
          if (continuation c1 && continuation c2
              && (2048 <=? three_bytes c0 c1 c2))%bool
          then Cp (three_bytes c0 c1 c2) :: decode s3
          else stray
      | 4%nat, String c1 (String c2 (String c3 s4)) =>
          if (continuation c1 && continuation c2 && continuation c3
              && (65536 <=? four_bytes c0 c1 c2 c3)
              && (four_bytes c0 c1 c2 c3 <=? 1114111))%bool
          then Cp (four_bytes c0 c1 c2 c3) :: decode s4
          else stray
      | _, _ => stray
      end
  end.

Definition encode_cp (n : Z) : string :=
  if n <? 128 then String (of_byte n) ""
  else if n <? 2048 then
    String (of_byte (192 + n / 64)) (String (of_byte (128 + n mod 64)) "")
  else if n <? 65536 then
    String (of_byte (224 + n / 4096))
      (String (of_byte (128 + (n / 64) mod 64))
         (String (of_byte (128 + n mod 64)) ""))
  else
    String (of_byte (240 + (n / 262144) mod 8))
      (String (of_byte (128 + (n / 4096) mod 64))
         (String (of_byte (128 + (n / 64) mod 64))
            (String (of_byte (128 + n mod 64)) ""))).

Definition encode_char (u : uchar) : string :=
  match u with
  | Cp n => encode_cp n
  | Stray b => String b ""
  end.

Definition encode (l : list uchar) : string :=
  String.concat "" (map encode_char l).

(** ** The character properties and case mappings of Unicode 14.0, the
    version of CPython 3.11 *)

(** The code points with the property [Cased]. *)
Definition CASED : list (Z * Z) :=
  [ (65, 90); (97, 122); (170, 170); (181, 181); (186, 186); (192, 214);
    (216, 246); (248, 442); (444, 447); (452, 659); (661, 696); (704, 705);
    (736, 740); (837, 837); (880, 883); (886, 887); (890, 893); (895, 895);
    (902, 902); (904, 906); (908, 908); (910, 929); (931, 1013);
    (1015, 1153); (1162, 1327); (1329, 1366); (1376, 1416); (4256, 4293);
    (4295, 4295); (4301, 4301); (4304, 4346); (4349, 4351); (5024, 5109);
    (5112, 5117); (7296, 7304); (7312, 7354); (7357, 7359); (7424, 7615);
    (7680, 7957); (7960, 7965); (7968, 8005); (8008, 8013); (8016, 8023);
    (8025, 8025); (8027, 8027); (8029, 8029); (8031, 8061); (8064, 8116);
    (8118, 8124); (8126, 8126); (8130, 8132); (8134, 8140); (8144, 8147);
    (8150, 8155); (8160, 8172); (8178, 8180); (8182, 8188); (8305, 8305);
    (8319, 8319); (8336, 8348); (8450, 8450); (8455, 8455); (8458, 8467);
    (8469, 8469); (8473, 8477); (8484, 8484); (8486, 8486); (8488, 8488);
    (8490, 8493); (8495, 8500); (8505, 8505); (8508, 8511); (8517, 8521);
    (8526, 8526); (8544, 8575); (8579, 8580); (9398, 9449); (11264, 11492);
    (11499, 11502); (11506, 11507); (11520, 11557); (11559, 11559);
    (11565, 11565); (42560, 42605); (42624, 42653); (42786, 42887);
    (42891, 42894); (42896, 42954); (42960, 42961); (42963, 42963);
    (42965, 42969); (42997, 42998); (43000, 43002); (43824, 43866);
    (43868, 43880); (43888, 43967); (64256, 64262); (64275, 64279);
    (65313, 65338); (65345, 65370); (66560, 66639); (66736, 66771);
    (66776, 66811); (66928, 66938); (66940, 66954); (66956, 66962);
    (66964, 66965); (66967, 66977); (66979, 66993); (66995, 67001);
    (67003, 67004); (67456, 67456); (67459, 67461); (67463, 67504);
    (67506, 67514); (68736, 68786); (68800, 68850); (71840, 71903);
    (93760, 93823); (119808, 119892); (119894, 119964); (119966, 119967);
    (119970, 119970); (119973, 119974); (119977, 119980); (119982, 119993);
    (119995, 119995); (119997, 120003); (120005, 120069); (120071, 120074);
    (120077, 120084); (120086, 120092); (120094, 120121); (120123, 120126);
    (120128, 120132); (120134, 120134); (120138, 120144); (120146, 120485);
    (120488, 120512); (120514, 120538); (120540, 120570); (120572, 120596);
    (120598, 120628); (120630, 120654); (120656, 120686); (120688, 120712);
    (120714, 120744); (120746, 120770); (120772, 120779); (122624, 122633);
    (122635, 122654); (125184, 125251); (127280, 127305); (127312, 127337);
    (127344, 127369) ].

(** The code points with the property [Case_Ignorable]. *)
Definition CASE_IGNORABLE : list (Z * Z) :=
  [ (39, 39); (46, 46); (58, 58); (94, 94); (96, 96); (168, 168);
    (173, 173); (175, 175); (180, 180); (183, 184); (688, 879); (884, 885);
    (890, 890); (900, 901); (903, 903); (1155, 1161); (1369, 1369);
    (1375, 1375); (1425, 1469); (1471, 1471); (1473, 1474); (1476, 1477);
    (1479, 1479); (1524, 1524); (1536, 1541); (1552, 1562); (1564, 1564);
    (1600, 1600); (1611, 1631); (1648, 1648); (1750, 1757); (1759, 1768);
    (1770, 1773); (1807, 1807); (1809, 1809); (1840, 1866); (1958, 1968);
    (2027, 2037); (2042, 2042); (2045, 2045); (2070, 2093); (2137, 2139);
    (2184, 2184); (2192, 2193); (2200, 2207); (2249, 2306); (2362, 2362);
    (2364, 2364); (2369, 2376); (2381, 2381); (2385, 2391); (2402, 2403);
    (2417, 2417); (2433, 2433); (2492, 2492); (2497, 2500); (2509, 2509);
    (2530, 2531); (2558, 2558); (2561, 2562); (2620, 2620); (2625, 2626);
    (2631, 2632); (2635, 2637); (2641, 2641); (2672, 2673); (2677, 2677);
    (2689, 2690); (2748, 2748); (2753, 2757); (2759, 2760); (2765, 2765);
    (2786, 2787); (2810, 2815); (2817, 2817); (2876, 2876); (2879, 2879);
    (2881, 2884); (2893, 2893); (2901, 2902); (2914, 2915); (2946, 2946);
    (3008, 3008); (3021, 3021); (3072, 3072); (3076, 3076); (3132, 3132);
    (3134, 3136); (3142, 3144); (3146, 3149); (3157, 3158); (3170, 3171);
    (3201, 3201); (3260, 3260); (3263, 3263); (3270, 3270); (3276, 3277);
    (3298, 3299); (3328, 3329); (3387, 3388); (3393, 3396); (3405, 3405);
    (3426, 3427); (3457, 3457); (3530, 3530); (3538, 3540); (3542, 3542);
    (3633, 3633); (3636, 3642); (3654, 3662); (3761, 3761); (3764, 3772);
    (3782, 3782); (3784, 3789); (3864, 3865); (3893, 3893); (3895, 3895);
    (3897, 3897); (3953, 3966); (3968, 3972); (3974, 3975); (3981, 3991);
    (3993, 4028); (4038, 4038); (4141, 4144); (4146, 4151); (4153, 4154);
    (4157, 4158); (4184, 4185); (4190, 4192); (4209, 4212); (4226, 4226);
    (4229, 4230); (4237, 4237); (4253, 4253); (4348, 4348); (4957, 4959);
    (5906, 5908); (5938, 5939); (5970, 5971); (6002, 6003); (6068, 6069);
    (6071, 6077); (6086, 6086); (6089, 6099); (6103, 6103); (6109, 6109);
    (6155, 6159); (6211, 6211); (6277, 6278); (6313, 6313); (6432, 6434);
    (6439, 6440); (6450, 6450); (6457, 6459); (6679, 6680); (6683, 6683);
    (6742, 6742); (6744, 6750); (6752, 6752); (6754, 6754); (6757, 6764);
    (6771, 6780); (6783, 6783); (6823, 6823); (6832, 6862); (6912, 6915);
    (6964, 6964); (6966, 6970); (6972, 6972); (6978, 6978); (7019, 7027);
    (7040, 7041); (7074, 7077); (7080, 7081); (7083, 7085); (7142, 7142);
    (7144, 7145); (7149, 7149); (7151, 7153); (7212, 7219); (7222, 7223);
    (7288, 7293); (7376, 7378); (7380, 7392); (7394, 7400); (7405, 7405);
    (7412, 7412); (7416, 7417); (7468, 7530); (7544, 7544); (7579, 7679);
    (8125, 8125); (8127, 8129); (8141, 8143); (8157, 8159); (8173, 8175);
    (8189, 8190); (8203, 8207); (8216, 8217); (8228, 8228); (8231, 8231);
    (8234, 8238); (8288, 8292); (8294, 8303); (8305, 8305); (8319, 8319);
    (8336, 8348); (8400, 8432); (11388, 11389); (11503, 11505);
    (11631, 11631); (11647, 11647); (11744, 11775); (11823, 11823);
    (12293, 12293); (12330, 12333); (12337, 12341); (12347, 12347);
    (12441, 12446); (12540, 12542); (40981, 40981); (42232, 42237);
    (42508, 42508); (42607, 42610); (42612, 42621); (42623, 42623);
    (42652, 42655); (42736, 42737); (42752, 42785); (42864, 42864);
    (42888, 42890); (42994, 42996); (43000, 43001); (43010, 43010);
    (43014, 43014); (43019, 43019); (43045, 43046); (43052, 43052);
    (43204, 43205); (43232, 43249); (43263, 43263); (43302, 43309);
    (43335, 43345); (43392, 43394); (43443, 43443); (43446, 43449);
    (43452, 43453); (43471, 43471); (43493, 43494); (43561, 43566);
    (43569, 43570); (43573, 43574); (43587, 43587); (43596, 43596);
    (43632, 43632); (43644, 43644); (43696, 43696); (43698, 43700);
    (43703, 43704); (43710, 43711); (43713, 43713); (43741, 43741);
    (43756, 43757); (43763, 43764); (43766, 43766); (43867, 43871);
    (43881, 43883); (44005, 44005); (44008, 44008); (44013, 44013);
    (64286, 64286); (64434, 64450); (65024, 65039); (65043, 65043);
    (65056, 65071); (65106, 65106); (65109, 65109); (65279, 65279);
    (65287, 65287); (65294, 65294); (65306, 65306); (65342, 65342);
    (65344, 65344); (65392, 65392); (65438, 65439); (65507, 65507);
    (65529, 65531); (66045, 66045); (66272, 66272); (66422, 66426);
    (67456, 67461); (67463, 67504); (67506, 67514); (68097, 68099);
    (68101, 68102); (68108, 68111); (68152, 68154); (68159, 68159);
    (68325, 68326); (68900, 68903); (69291, 69292); (69446, 69456);
    (69506, 69509); (69633, 69633); (69688, 69702); (69744, 69744);
    (69747, 69748); (69759, 69761); (69811, 69814); (69817, 69818);
    (69821, 69821); (69826, 69826); (69837, 69837); (69888, 69890);
    (69927, 69931); (69933, 69940); (70003, 70003); (70016, 70017);
    (70070, 70078); (70089, 70092); (70095, 70095); (70191, 70193);
    (70196, 70196); (70198, 70199); (70206, 70206); (70367, 70367);
    (70371, 70378); (70400, 70401); (70459, 70460); (70464, 70464);
    (70502, 70508); (70512, 70516); (70712, 70719); (70722, 70724);
    (70726, 70726); (70750, 70750); (70835, 70840); (70842, 70842);
    (70847, 70848); (70850, 70851); (71090, 71093); (71100, 71101);
    (71103, 71104); (71132, 71133); (71219, 71226); (71229, 71229);
    (71231, 71232); (71339, 71339); (71341, 71341); (71344, 71349);
    (71351, 71351); (71453, 71455); (71458, 71461); (71463, 71467);
    (71727, 71735); (71737, 71738); (71995, 71996); (71998, 71998);
    (72003, 72003); (72148, 72151); (72154, 72155); (72160, 72160);
    (72193, 72202); (72243, 72248); (72251, 72254); (72263, 72263);
    (72273, 72278); (72281, 72283); (72330, 72342); (72344, 72345);
    (72752, 72758); (72760, 72765); (72767, 72767); (72850, 72871);
    (72874, 72880); (72882, 72883); (72885, 72886); (73009, 73014);
    (73018, 73018); (73020, 73021); (73023, 73029); (73031, 73031);
    (73104, 73105); (73109, 73109); (73111, 73111); (73459, 73460);
    (78896, 78904); (92912, 92916); (92976, 92982); (92992, 92995);
    (94031, 94031); (94095, 94111); (94176, 94177); (94179, 94180);
    (110576, 110579); (110581, 110587); (110589, 110590); (113821, 113822);
    (113824, 113827); (118528, 118573); (118576, 118598); (119143, 119145);
    (119155, 119170); (119173, 119179); (119210, 119213); (119362, 119364);
    (121344, 121398); (121403, 121452); (121461, 121461); (121476, 121476);
    (121499, 121503); (121505, 121519); (122880, 122886); (122888, 122904);
    (122907, 122913); (122915, 122916); (122918, 122922); (123184, 123197);
    (123566, 123566); (123628, 123631); (125136, 125142); (125252, 125259);
    (127995, 127999); (917505, 917505); (917536, 917631); (917760, 917999) ].

(** The code points [str.isspace] accepts. *)
Definition SPACE : list (Z * Z) :=
  [ (9, 13); (28, 32); (133, 133); (160, 160); (5760, 5760); (8192, 8202);
    (8232, 8233); (8239, 8239); (8287, 8287); (12288, 12288) ].

(** The code points from 128 on that [str.isprintable] refuses. *)
Definition NONPRINTABLE : list (Z * Z) :=
  [ (128, 160); (173, 173); (888, 889); (896, 899); (907, 907); (909, 909);
    (930, 930); (1328, 1328); (1367, 1368); (1419, 1420); (1424, 1424);
    (1480, 1487); (1515, 1518); (1525, 1541); (1564, 1564); (1757, 1757);
    (1806, 1807); (1867, 1868); (1970, 1983); (2043, 2044); (2094, 2095);
    (2111, 2111); (2140, 2141); (2143, 2143); (2155, 2159); (2191, 2199);
    (2274, 2274); (2436, 2436); (2445, 2446); (2449, 2450); (2473, 2473);
    (2481, 2481); (2483, 2485); (2490, 2491); (2501, 2502); (2505, 2506);
    (2511, 2518); (2520, 2523); (2526, 2526); (2532, 2533); (2559, 2560);
    (2564, 2564); (2571, 2574); (2577, 2578); (2601, 2601); (2609, 2609);
    (2612, 2612); (2615, 2615); (2618, 2619); (2621, 2621); (2627, 2630);
    (2633, 2634); (2638, 2640); (2642, 2648); (2653, 2653); (2655, 2661);
    (2679, 2688); (2692, 2692); (2702, 2702); (2706, 2706); (2729, 2729);
    (2737, 2737); (2740, 2740); (2746, 2747); (2758, 2758); (2762, 2762);
    (2766, 2767); (2769, 2783); (2788, 2789); (2802, 2808); (2816, 2816);
    (2820, 2820); (2829, 2830); (2833, 2834); (2857, 2857); (2865, 2865);
    (2868, 2868); (2874, 2875); (2885, 2886); (2889, 2890); (2894, 2900);
    (2904, 2907); (2910, 2910); (2916, 2917); (2936, 2945); (2948, 2948);
    (2955, 2957); (2961, 2961); (2966, 2968); (2971, 2971); (2973, 2973);
    (2976, 2978); (2981, 2983); (2987, 2989); (3002, 3005); (3011, 3013);
    (3017, 3017); (3022, 3023); (3025, 3030); (3032, 3045); (3067, 3071);
    (3085, 3085); (3089, 3089); (3113, 3113); (3130, 3131); (3141, 3141);
    (3145, 3145); (3150, 3156); (3159, 3159); (3163, 3164); (3166, 3167);
    (3172, 3173); (3184, 3190); (3213, 3213); (3217, 3217); (3241, 3241);
    (3252, 3252); (3258, 3259); (3269, 3269); (3273, 3273); (3278, 3284);
    (3287, 3292); (3295, 3295); (3300, 3301); (3312, 3312); (3315, 3327);
    (3341, 3341); (3345, 3345); (3397, 3397); (3401, 3401); (3408, 3411);
    (3428, 3429); (3456, 3456); (3460, 3460); (3479, 3481); (3506, 3506);
    (3516, 3516); (3518, 3519); (3527, 3529); (3531, 3534); (3541, 3541);
    (3543, 3543); (3552, 3557); (3568, 3569); (3573, 3584); (3643, 3646);
    (3676, 3712); (3715, 3715); (3717, 3717); (3723, 3723); (3748, 3748);
    (3750, 3750); (3774, 3775); (3781, 3781); (3783, 3783); (3790, 3791);
    (3802, 3803); (3808, 3839); (3912, 3912); (3949, 3952); (3992, 3992);
    (4029, 4029); (4045, 4045); (4059, 4095); (4294, 4294); (4296, 4300);
    (4302, 4303); (4681, 4681); (4686, 4687); (4695, 4695); (4697, 4697);
    (4702, 4703); (4745, 4745); (4750, 4751); (4785, 4785); (4790, 4791);
    (4799, 4799); (4801, 4801); (4806, 4807); (4823, 4823); (4881, 4881);
    (4886, 4887); (4955, 4956); (4989, 4991); (5018, 5023); (5110, 5111);
    (5118, 5119); (5760, 5760); (5789, 5791); (5881, 5887); (5910, 5918);
    (5943, 5951); (5972, 5983); (5997, 5997); (6001, 6001); (6004, 6015);
    (6110, 6111); (6122, 6127); (6138, 6143); (6158, 6158); (6170, 6175);
    (6265, 6271); (6315, 6319); (6390, 6399); (6431, 6431); (6444, 6447);
    (6460, 6463); (6465, 6467); (6510, 6511); (6517, 6527); (6572, 6575);
    (6602, 6607); (6619, 6621); (6684, 6685); (6751, 6751); (6781, 6782);
    (6794, 6799); (6810, 6815); (6830, 6831); (6863, 6911); (6989, 6991);
    (7039, 7039); (7156, 7163); (7224, 7226); (7242, 7244); (7305, 7311);
    (7355, 7356); (7368, 7375); (7419, 7423); (7958, 7959); (7966, 7967);
    (8006, 8007); (8014, 8015); (8024, 8024); (8026, 8026); (8028, 8028);
    (8030, 8030); (8062, 8063); (8117, 8117); (8133, 8133); (8148, 8149);
    (8156, 8156); (8176, 8177); (8181, 8181); (8191, 8207); (8232, 8239);
    (8287, 8303); (8306, 8307); (8335, 8335); (8349, 8351); (8385, 8399);
    (8433, 8447); (8588, 8591); (9255, 9279); (9291, 9311); (11124, 11125);
    (11158, 11158); (11508, 11512); (11558, 11558); (11560, 11564);
    (11566, 11567); (11624, 11630); (11633, 11646); (11671, 11679);
    (11687, 11687); (11695, 11695); (11703, 11703); (11711, 11711);
    (11719, 11719); (11727, 11727); (11735, 11735); (11743, 11743);
    (11870, 11903); (11930, 11930); (12020, 12031); (12246, 12271);
    (12284, 12288); (12352, 12352); (12439, 12440); (12544, 12548);
    (12592, 12592); (12687, 12687); (12772, 12783); (12831, 12831);
    (42125, 42127); (42183, 42191); (42540, 42559); (42744, 42751);
    (42955, 42959); (42962, 42962); (42964, 42964); (42970, 42993);
    (43053, 43055); (43066, 43071); (43128, 43135); (43206, 43213);
    (43226, 43231); (43348, 43358); (43389, 43391); (43470, 43470);
    (43482, 43485); (43519, 43519); (43575, 43583); (43598, 43599);
    (43610, 43611); (43715, 43738); (43767, 43776); (43783, 43784);
    (43791, 43792); (43799, 43807); (43815, 43815); (43823, 43823);
    (43884, 43887); (44014, 44015); (44026, 44031); (55204, 55215);
    (55239, 55242); (55292, 63743); (64110, 64111); (64218, 64255);
    (64263, 64274); (64280, 64284); (64311, 64311); (64317, 64317);
    (64319, 64319); (64322, 64322); (64325, 64325); (64451, 64466);
    (64912, 64913); (64968, 64974); (64976, 65007); (65050, 65055);
    (65107, 65107); (65127, 65127); (65132, 65135); (65141, 65141);
    (65277, 65280); (65471, 65473); (65480, 65481); (65488, 65489);
    (65496, 65497); (65501, 65503); (65511, 65511); (65519, 65531);
    (65534, 65535); (65548, 65548); (65575, 65575); (65595, 65595);
    (65598, 65598); (65614, 65615); (65630, 65663); (65787, 65791);
    (65795, 65798); (65844, 65846); (65935, 65935); (65949, 65951);
    (65953, 65999); (66046, 66175); (66205, 66207); (66257, 66271);
    (66300, 66303); (66340, 66348); (66379, 66383); (66427, 66431);
    (66462, 66462); (66500, 66503); (66518, 66559); (66718, 66719);
    (66730, 66735); (66772, 66775); (66812, 66815); (66856, 66863);
    (66916, 66926); (66939, 66939); (66955, 66955); (66963, 66963);
    (66966, 66966); (66978, 66978); (66994, 66994); (67002, 67002);
    (67005, 67071); (67383, 67391); (67414, 67423); (67432, 67455);
    (67462, 67462); (67505, 67505); (67515, 67583); (67590, 67591);
    (67593, 67593); (67638, 67638); (67641, 67643); (67645, 67646);
    (67670, 67670); (67743, 67750); (67760, 67807); (67827, 67827);
    (67830, 67834); (67868, 67870); (67898, 67902); (67904, 67967);
    (68024, 68027); (68048, 68049); (68100, 68100); (68103, 68107);
    (68116, 68116); (68120, 68120); (68150, 68151); (68155, 68158);
    (68169, 68175); (68185, 68191); (68256, 68287); (68327, 68330);
    (68343, 68351); (68406, 68408); (68438, 68439); (68467, 68471);
    (68498, 68504); (68509, 68520); (68528, 68607); (68681, 68735);
    (68787, 68799); (68851, 68857); (68904, 68911); (68922, 69215);
    (69247, 69247); (69290, 69290); (69294, 69295); (69298, 69375);
    (69416, 69423); (69466, 69487); (69514, 69551); (69580, 69599);
    (69623, 69631); (69710, 69713); (69750, 69758); (69821, 69821);
    (69827, 69839); (69865, 69871); (69882, 69887); (69941, 69941);
    (69960, 69967); (70007, 70015); (70112, 70112); (70133, 70143);
    (70162, 70162); (70207, 70271); (70279, 70279); (70281, 70281);
    (70286, 70286); (70302, 70302); (70314, 70319); (70379, 70383);
    (70394, 70399); (70404, 70404); (70413, 70414); (70417, 70418);
    (70441, 70441); (70449, 70449); (70452, 70452); (70458, 70458);
    (70469, 70470); (70473, 70474); (70478, 70479); (70481, 70486);
    (70488, 70492); (70500, 70501); (70509, 70511); (70517, 70655);
    (70748, 70748); (70754, 70783); (70856, 70863); (70874, 71039);
    (71094, 71095); (71134, 71167); (71237, 71247); (71258, 71263);
    (71277, 71295); (71354, 71359); (71370, 71423); (71451, 71452);
    (71468, 71471); (71495, 71679); (71740, 71839); (71923, 71934);
    (71943, 71944); (71946, 71947); (71956, 71956); (71959, 71959);
    (71990, 71990); (71993, 71994); (72007, 72015); (72026, 72095);
    (72104, 72105); (72152, 72153); (72165, 72191); (72264, 72271);
    (72355, 72367); (72441, 72703); (72713, 72713); (72759, 72759);
    (72774, 72783); (72813, 72815); (72848, 72849); (72872, 72872);
    (72887, 72959); (72967, 72967); (72970, 72970); (73015, 73017);
    (73019, 73019); (73022, 73022); (73032, 73039); (73050, 73055);
    (73062, 73062); (73065, 73065); (73103, 73103); (73106, 73106);
    (73113, 73119); (73130, 73439); (73465, 73647); (73649, 73663);
    (73714, 73726); (74650, 74751); (74863, 74863); (74869, 74879);
    (75076, 77711); (77811, 77823); (78895, 82943); (83527, 92159);
    (92729, 92735); (92767, 92767); (92778, 92781); (92863, 92863);
    (92874, 92879); (92910, 92911); (92918, 92927); (92998, 93007);
    (93018, 93018); (93026, 93026); (93048, 93052); (93072, 93759);
    (93851, 93951); (94027, 94030); (94088, 94094); (94112, 94175);
    (94181, 94191); (94194, 94207); (100344, 100351); (101590, 101631);
    (101641, 110575); (110580, 110580); (110588, 110588); (110591, 110591);
    (110883, 110927); (110931, 110947); (110952, 110959); (111356, 113663);
    (113771, 113775); (113789, 113791); (113801, 113807); (113818, 113819);
    (113824, 118527); (118574, 118575); (118599, 118607); (118724, 118783);
    (119030, 119039); (119079, 119080); (119155, 119162); (119275, 119295);
    (119366, 119519); (119540, 119551); (119639, 119647); (119673, 119807);
    (119893, 119893); (119965, 119965); (119968, 119969); (119971, 119972);
    (119975, 119976); (119981, 119981); (119994, 119994); (119996, 119996);
    (120004, 120004); (120070, 120070); (120075, 120076); (120085, 120085);
    (120093, 120093); (120122, 120122); (120127, 120127); (120133, 120133);
    (120135, 120137); (120145, 120145); (120486, 120487); (120780, 120781);
    (121484, 121498); (121504, 121504); (121520, 122623); (122655, 122879);
    (122887, 122887); (122905, 122906); (122914, 122914); (122917, 122917);
    (122923, 123135); (123181, 123183); (123198, 123199); (123210, 123213);
    (123216, 123535); (123567, 123583); (123642, 123646); (123648, 124895);
    (124903, 124903); (124908, 124908); (124911, 124911); (124927, 124927);
    (125125, 125126); (125143, 125183); (125260, 125263); (125274, 125277);
    (125280, 126064); (126133, 126208); (126270, 126463); (126468, 126468);
    (126496, 126496); (126499, 126499); (126501, 126502); (126504, 126504);
    (126515, 126515); (126520, 126520); (126522, 126522); (126524, 126529);
    (126531, 126534); (126536, 126536); (126538, 126538); (126540, 126540);
    (126544, 126544); (126547, 126547); (126549, 126550); (126552, 126552);
    (126554, 126554); (126556, 126556); (126558, 126558); (126560, 126560);
    (126563, 126563); (126565, 126566); (126571, 126571); (126579, 126579);
    (126584, 126584); (126589, 126589); (126591, 126591); (126602, 126602);
    (126620, 126624); (126628, 126628); (126634, 126634); (126652, 126703);
    (126706, 126975); (127020, 127023); (127124, 127135); (127151, 127152);
    (127168, 127168); (127184, 127184); (127222, 127231); (127406, 127461);
    (127491, 127503); (127548, 127551); (127561, 127567); (127570, 127583);
    (127590, 127743); (128728, 128732); (128749, 128751); (128765, 128767);
    (128884, 128895); (128985, 128991); (129004, 129007); (129009, 129023);
    (129036, 129039); (129096, 129103); (129114, 129119); (129160, 129167);
    (129198, 129199); (129202, 129279); (129620, 129631); (129646, 129647);
    (129653, 129655); (129661, 129663); (129671, 129679); (129709, 129711);
    (129723, 129727); (129734, 129743); (129754, 129759); (129768, 129775);
    (129783, 129791); (129939, 129939); (129995, 130031); (130042, 131071);
    (173792, 173823); (177977, 177983); (178206, 178207); (183970, 183983);
    (191457, 194559); (195102, 196607); (201547, 917759);
    (918000, 1114111) ].

(** Lower case: [(first, last, step, delta)] sends every [step]-th code
    point from [first] to [last] to itself plus [delta]. *)
Definition LOWER_RUNS : list (Z * Z * Z * Z) :=
  [ (65, 90, 1, 32); (192, 214, 1, 32); (216, 222, 1, 32);
    (256, 302, 2, 1); (306, 310, 2, 1); (313, 327, 2, 1); (330, 374, 2, 1);
    (376, 376, 1, -121); (377, 381, 2, 1); (385, 385, 1, 210);
    (386, 388, 2, 1); (390, 390, 1, 206); (391, 391, 1, 1);
    (393, 394, 1, 205); (395, 395, 1, 1); (398, 398, 1, 79);
    (399, 399, 1, 202); (400, 400, 1, 203); (401, 401, 1, 1);
    (403, 403, 1, 205); (404, 404, 1, 207); (406, 406, 1, 211);
    (407, 407, 1, 209); (408, 408, 1, 1); (412, 412, 1, 211);
    (413, 413, 1, 213); (415, 415, 1, 214); (416, 420, 2, 1);
    (422, 422, 1, 218); (423, 423, 1, 1); (425, 425, 1, 218);
    (428, 428, 1, 1); (430, 430, 1, 218); (431, 431, 1, 1);
    (433, 434, 1, 217); (435, 437, 2, 1); (439, 439, 1, 219);
    (440, 440, 1, 1); (444, 444, 1, 1); (452, 452, 1, 2); (453, 453, 1, 1);
    (455, 455, 1, 2); (456, 456, 1, 1); (458, 458, 1, 2); (459, 475, 2, 1);
    (478, 494, 2, 1); (497, 497, 1, 2); (498, 500, 2, 1);
    (502, 502, 1, -97); (503, 503, 1, -56); (504, 542, 2, 1);
    (544, 544, 1, -130); (546, 562, 2, 1); (570, 570, 1, 10795);
    (571, 571, 1, 1); (573, 573, 1, -163); (574, 574, 1, 10792);
    (577, 577, 1, 1); (579, 579, 1, -195); (580, 580, 1, 69);
    (581, 581, 1, 71); (582, 590, 2, 1); (880, 882, 2, 1);
    (886, 886, 1, 1); (895, 895, 1, 116); (902, 902, 1, 38);
    (904, 906, 1, 37); (908, 908, 1, 64); (910, 911, 1, 63);
    (913, 929, 1, 32); (931, 939, 1, 32); (975, 975, 1, 8);
    (984, 1006, 2, 1); (1012, 1012, 1, -60); (1015, 1015, 1, 1);
    (1017, 1017, 1, -7); (1018, 1018, 1, 1); (1021, 1023, 1, -130);
    (1024, 1039, 1, 80); (1040, 1071, 1, 32); (1120, 1152, 2, 1);
    (1162, 1214, 2, 1); (1216, 1216, 1, 15); (1217, 1229, 2, 1);
    (1232, 1326, 2, 1); (1329, 1366, 1, 48); (4256, 4293, 1, 7264);
    (4295, 4295, 1, 7264); (4301, 4301, 1, 7264); (5024, 5103, 1, 38864);
    (5104, 5109, 1, 8); (7312, 7354, 1, -3008); (7357, 7359, 1, -3008);
    (7680, 7828, 2, 1); (7838, 7838, 1, -7615); (7840, 7934, 2, 1);
    (7944, 7951, 1, -8); (7960, 7965, 1, -8); (7976, 7983, 1, -8);
    (7992, 7999, 1, -8); (8008, 8013, 1, -8); (8025, 8031, 2, -8);
    (8040, 8047, 1, -8); (8072, 8079, 1, -8); (8088, 8095, 1, -8);
    (8104, 8111, 1, -8); (8120, 8121, 1, -8); (8122, 8123, 1, -74);
    (8124, 8124, 1, -9); (8136, 8139, 1, -86); (8140, 8140, 1, -9);
    (8152, 8153, 1, -8); (8154, 8155, 1, -100); (8168, 8169, 1, -8);
    (8170, 8171, 1, -112); (8172, 8172, 1, -7); (8184, 8185, 1, -128);
    (8186, 8187, 1, -126); (8188, 8188, 1, -9); (8486, 8486, 1, -7517);
    (8490, 8490, 1, -8383); (8491, 8491, 1, -8262); (8498, 8498, 1, 28);
    (8544, 8559, 1, 16); (8579, 8579, 1, 1); (9398, 9423, 1, 26);
    (11264, 11311, 1, 48); (11360, 11360, 1, 1); (11362, 11362, 1, -10743);
    (11363, 11363, 1, -3814); (11364, 11364, 1, -10727);
    (11367, 11371, 2, 1); (11373, 11373, 1, -10780);
    (11374, 11374, 1, -10749); (11375, 11375, 1, -10783);
    (11376, 11376, 1, -10782); (11378, 11378, 1, 1); (11381, 11381, 1, 1);
    (11390, 11391, 1, -10815); (11392, 11490, 2, 1); (11499, 11501, 2, 1);
    (11506, 11506, 1, 1); (42560, 42604, 2, 1); (42624, 42650, 2, 1);
    (42786, 42798, 2, 1); (42802, 42862, 2, 1); (42873, 42875, 2, 1);
    (42877, 42877, 1, -35332); (42878, 42886, 2, 1); (42891, 42891, 1, 1);
    (42893, 42893, 1, -42280); (42896, 42898, 2, 1); (42902, 42920, 2, 1);
    (42922, 42922, 1, -42308); (42923, 42923, 1, -42319);
    (42924, 42924, 1, -42315); (42925, 42925, 1, -42305);
    (42926, 42926, 1, -42308); (42928, 42928, 1, -42258);
    (42929, 42929, 1, -42282); (42930, 42930, 1, -42261);
    (42931, 42931, 1, 928); (42932, 42946, 2, 1); (42948, 42948, 1, -48);
    (42949, 42949, 1, -42307); (42950, 42950, 1, -35384);
    (42951, 42953, 2, 1); (42960, 42960, 1, 1); (42966, 42968, 2, 1);
    (42997, 42997, 1, 1); (65313, 65338, 1, 32); (66560, 66599, 1, 40);
    (66736, 66771, 1, 40); (66928, 66938, 1, 39); (66940, 66954, 1, 39);
    (66956, 66962, 1, 39); (66964, 66965, 1, 39); (68736, 68786, 1, 64);
    (71840, 71871, 1, 32); (93760, 93791, 1, 32); (125184, 125217, 1, 34) ].

(** Lower case that takes more than one code point. *)
Definition LOWER_SPECIAL : list (Z * list Z) :=
  [ (304, [105; 775]) ].

(** Title case, in the same form. *)
Definition TITLE_RUNS : list (Z * Z * Z * Z) :=
  [ (97, 122, 1, -32); (181, 181, 1, 743); (224, 246, 1, -32);
    (248, 254, 1, -32); (255, 255, 1, 121); (257, 303, 2, -1);
    (305, 305, 1, -232); (307, 311, 2, -1); (314, 328, 2, -1);
    (331, 375, 2, -1); (378, 382, 2, -1); (383, 383, 1, -300);
    (384, 384, 1, 195); (387, 389, 2, -1); (392, 392, 1, -1);
    (396, 396, 1, -1); (402, 402, 1, -1); (405, 405, 1, 97);
    (409, 409, 1, -1); (410, 410, 1, 163); (414, 414, 1, 130);
    (417, 421, 2, -1); (424, 424, 1, -1); (429, 429, 1, -1);
    (432, 432, 1, -1); (436, 438, 2, -1); (441, 441, 1, -1);
    (445, 445, 1, -1); (447, 447, 1, 56); (452, 452, 1, 1);
    (454, 454, 1, -1); (455, 455, 1, 1); (457, 457, 1, -1);
    (458, 458, 1, 1); (460, 476, 2, -1); (477, 477, 1, -79);
    (479, 495, 2, -1); (497, 497, 1, 1); (499, 501, 2, -1);
    (505, 543, 2, -1); (547, 563, 2, -1); (572, 572, 1, -1);
    (575, 576, 1, 10815); (578, 578, 1, -1); (583, 591, 2, -1);
    (592, 592, 1, 10783); (593, 593, 1, 10780); (594, 594, 1, 10782);
    (595, 595, 1, -210); (596, 596, 1, -206); (598, 599, 1, -205);
    (601, 601, 1, -202); (603, 603, 1, -203); (604, 604, 1, 42319);
    (608, 608, 1, -205); (609, 609, 1, 42315); (611, 611, 1, -207);
    (613, 613, 1, 42280); (614, 614, 1, 42308); (616, 616, 1, -209);
    (617, 617, 1, -211); (618, 618, 1, 42308); (619, 619, 1, 10743);
    (620, 620, 1, 42305); (623, 623, 1, -211); (625, 625, 1, 10749);
    (626, 626, 1, -213); (629, 629, 1, -214); (637, 637, 1, 10727);
    (640, 640, 1, -218); (642, 642, 1, 42307); (643, 643, 1, -218);
    (647, 647, 1, 42282); (648, 648, 1, -218); (649, 649, 1, -69);
    (650, 651, 1, -217); (652, 652, 1, -71); (658, 658, 1, -219);
    (669, 669, 1, 42261); (670, 670, 1, 42258); (837, 837, 1, 84);
    (881, 883, 2, -1); (887, 887, 1, -1); (891, 893, 1, 130);
    (940, 940, 1, -38); (941, 943, 1, -37); (945, 961, 1, -32);
    (962, 962, 1, -31); (963, 971, 1, -32); (972, 972, 1, -64);
    (973, 974, 1, -63); (976, 976, 1, -62); (977, 977, 1, -57);
    (981, 981, 1, -47); (982, 982, 1, -54); (983, 983, 1, -8);
    (985, 1007, 2, -1); (1008, 1008, 1, -86); (1009, 1009, 1, -80);
    (1010, 1010, 1, 7); (1011, 1011, 1, -116); (1013, 1013, 1, -96);
    (1016, 1016, 1, -1); (1019, 1019, 1, -1); (1072, 1103, 1, -32);
    (1104, 1119, 1, -80); (1121, 1153, 2, -1); (1163, 1215, 2, -1);
    (1218, 1230, 2, -1); (1231, 1231, 1, -15); (1233, 1327, 2, -1);
    (1377, 1414, 1, -48); (5112, 5117, 1, -8); (7296, 7296, 1, -6254);
    (7297, 7297, 1, -6253); (7298, 7298, 1, -6244); (7299, 7300, 1, -6242);
    (7301, 7301, 1, -6243); (7302, 7302, 1, -6236); (7303, 7303, 1, -6181);
    (7304, 7304, 1, 35266); (7545, 7545, 1, 35332); (7549, 7549, 1, 3814);
    (7566, 7566, 1, 35384); (7681, 7829, 2, -1); (7835, 7835, 1, -59);
    (7841, 7935, 2, -1); (7936, 7943, 1, 8); (7952, 7957, 1, 8);
    (7968, 7975, 1, 8); (7984, 7991, 1, 8); (8000, 8005, 1, 8);
    (8017, 8023, 2, 8); (8032, 8039, 1, 8); (8048, 8049, 1, 74);
    (8050, 8053, 1, 86); (8054, 8055, 1, 100); (8056, 8057, 1, 128);
    (8058, 8059, 1, 112); (8060, 8061, 1, 126); (8064, 8071, 1, 8);
    (8080, 8087, 1, 8); (8096, 8103, 1, 8); (8112, 8113, 1, 8);
    (8115, 8115, 1, 9); (8126, 8126, 1, -7205); (8131, 8131, 1, 9);
    (8144, 8145, 1, 8); (8160, 8161, 1, 8); (8165, 8165, 1, 7);
    (8179, 8179, 1, 9); (8526, 8526, 1, -28); (8560, 8575, 1, -16);
    (8580, 8580, 1, -1); (9424, 9449, 1, -26); (11312, 11359, 1, -48);
    (11361, 11361, 1, -1); (11365, 11365, 1, -10795);
    (11366, 11366, 1, -10792); (11368, 11372, 2, -1);
    (11379, 11379, 1, -1); (11382, 11382, 1, -1); (11393, 11491, 2, -1);
    (11500, 11502, 2, -1); (11507, 11507, 1, -1); (11520, 11557, 1, -7264);
    (11559, 11559, 1, -7264); (11565, 11565, 1, -7264);
    (42561, 42605, 2, -1); (42625, 42651, 2, -1); (42787, 42799, 2, -1);
    (42803, 42863, 2, -1); (42874, 42876, 2, -1); (42879, 42887, 2, -1);
    (42892, 42892, 1, -1); (42897, 42899, 2, -1); (42900, 42900, 1, 48);
    (42903, 42921, 2, -1); (42933, 42947, 2, -1); (42952, 42954, 2, -1);
    (42961, 42961, 1, -1); (42967, 42969, 2, -1); (42998, 42998, 1, -1);
    (43859, 43859, 1, -928); (43888, 43967, 1, -38864);
    (65345, 65370, 1, -32); (66600, 66639, 1, -40); (66776, 66811, 1, -40);
    (66967, 66977, 1, -39); (66979, 66993, 1, -39); (66995, 67001, 1, -39);
    (67003, 67004, 1, -39); (68800, 68850, 1, -64); (71872, 71903, 1, -32);
    (93792, 93823, 1, -32); (125218, 125251, 1, -34) ].

(** Title case that takes more than one code point. *)
Definition TITLE_SPECIAL : list (Z * list Z) :=
  [ (223, [83; 115]); (329, [700; 78]); (496, [74; 780]);
    (912, [921; 776; 769]); (944, [933; 776; 769]); (1415, [1333; 1410]);
    (7830, [72; 817]); (7831, [84; 776]); (7832, [87; 778]);
    (7833, [89; 778]); (7834, [65; 702]); (8016, [933; 787]);
    (8018, [933; 787; 768]); (8020, [933; 787; 769]);
    (8022, [933; 787; 834]); (8114, [8122; 837]); (8116, [902; 837]);
    (8118, [913; 834]); (8119, [913; 834; 837]); (8130, [8138; 837]);
    (8132, [905; 837]); (8134, [919; 834]); (8135, [919; 834; 837]);
    (8146, [921; 776; 768]); (8147, [921; 776; 769]); (8150, [921; 834]);
    (8151, [921; 776; 834]); (8162, [933; 776; 768]);
    (8163, [933; 776; 769]); (8164, [929; 787]); (8166, [933; 834]);
    (8167, [933; 776; 834]); (8178, [8186; 837]); (8180, [911; 837]);
    (8182, [937; 834]); (8183, [937; 834; 837]); (64256, [70; 102]);
    (64257, [70; 105]); (64258, [70; 108]); (64259, [70; 102; 105]);
    (64260, [70; 102; 108]); (64261, [83; 116]); (64262, [83; 116]);
    (64275, [1348; 1398]); (64276, [1348; 1381]); (64277, [1348; 1387]);
    (64278, [1358; 1398]); (64279, [1348; 1389]) ].

Definition in_ranges (ranges : list (Z * Z)) (n : Z) : bool :=
  existsb (fun r => ((fst r <=? n) && (n <=? snd r))%bool) ranges.

Definition in_run (n : Z) (run : Z * Z * Z * Z) : bool :=
  match run with
  | (first, last, step, _) =>
      ((first <=? n) && (n <=? last) && ((n - first) mod step =? 0))%bool
  end.

Definition mapped (runs : list (Z * Z * Z * Z)) (special : list (Z * list Z))
    (n : Z) : list Z :=
  match find (fun e => fst e =? n) special with
  | Some e => snd e
  | None =>
      match find (in_run n) runs with
      | Some (_, _, _, delta) => [n + delta]
      | None => [n]
      end
  end.

Definition lower_full (n : Z) : list Z := mapped LOWER_RUNS LOWER_SPECIAL n.
Definition title_full (n : Z) : list Z := mapped TITLE_RUNS TITLE_SPECIAL n.

Definition is_cased (u : uchar) : bool :=
  match u with
  | Cp n => in_ranges CASED n
  | Stray _ => false
  end.

Definition is_case_ignorable (u : uchar) : bool :=
  match u with
  | Cp n => in_ranges CASE_IGNORABLE n
  | Stray _ => false
  end.

(** White space as [str.strip()] sees it. *)
Definition is_space (u : uchar) : bool :=
  match u with
  | Cp n => in_ranges SPACE n
  | Stray _ => false
  end.

Fixpoint skip_ignorable (l : list uchar) : list uchar :=
  match l with
  | [] => []
  | u :: rest => if is_case_ignorable u then skip_ignorable rest else l
  end.

(** A capital sigma is lowered to the final form when a cased
    character comes before it and none after it, characters that case
    mapping ignores apart. *)
Definition final_sigma (before_reversed after : list uchar) : bool :=
  match skip_ignorable before_reversed with
  | u :: _ =>
      (is_cased u &&
       match skip_ignorable after with
       | [] => true
       | v :: _ => negb (is_cased v)
       end)%bool
  | [] => false
  end.

Definition lower_char (before_reversed after : list uchar) (u : uchar)
  : list uchar :=
  match u with
  | Cp n =>
      if n =? 931
      then [Cp (if final_sigma before_reversed after then 962 else 963)]
      else map Cp (lower_full n)
  | Stray _ => [u]
  end.

Definition title_char (u : uchar) : list uchar :=
  match u with
  | Cp n => map Cp (title_full n)
  | Stray _ => [u]
  end.

Fixpoint lower_from (before_reversed l : list uchar) : list uchar :=
  match l with
  | [] => []
  | u :: rest =>
      lower_char before_reversed rest u
      ++ lower_from (u :: before_reversed) rest
  end.

(** [s.lower()]. *)
Definition lower (s : string) : string := encode (lower_from [] (decode s)).

(** [s.title()]: a character that follows a cased one is lowered, any
    other is put in title case. *)
Fixpoint title_from (previous_is_cased : bool)
    (before_reversed l : list uchar) : list uchar :=
  match l with
  | [] => []
  | u :: rest =>
      (if previous_is_cased then lower_char before_reversed rest u
       else title_char u)
      ++ title_from (is_cased u) (u :: before_reversed) rest
  end.
Definition title (s : string) : string :=
  encode (title_from false [] (decode s)).

Fixpoint lstrip_chars (l : list uchar) : list uchar :=
  match l with
  | [] => []
  | u :: rest => if is_space u then lstrip_chars rest else l
  end.

(** [s.strip()]. *)
Definition strip (s : string) : string :=
  encode (rev (lstrip_chars (rev (lstrip_chars (decode s))))).

Fixpoint rstrip_by (p : ascii -> bool) (s : string) : string :=
  match s with
  | EmptyString => EmptyString
  | String c rest =>
      match rstrip_by p rest with
      | EmptyString => if p c then EmptyString else String c EmptyString
      | kept => String c kept
      end
  end.

(** [s.rstrip(c)] for a one-character ASCII argument. *)
Definition rstrip_char (c : ascii) (s : string) : string :=
  rstrip_by (Ascii.eqb c) s.

(** [sep.join(parts)]. *)
Definition join (sep : string) (parts : list string) : string :=
  String.concat sep parts.

(** The one-character strings a [str] yields when iterated. *)
Definition chars (s : string) : list string := map encode_char (decode s).

(** [sub] occurs in [s]; [s] ends with [suffix]. *)
Definition contains (s sub : string) : Prop :=
  exists before after, s = before ++ sub ++ after.
Definition ends_with (s suffix : string) : Prop :=
  exists before, s = before ++ suffix.

End Text.

(* ================================================================== *)
(** * Python values *)
(* ================================================================== *)

(** A Python [float] is an IEEE 754 binary64 number. *)
Definition pyfloat := spec_float.
Definition prec64 : Z := 53.
Definition emax64 : Z := 1024.

#[warnings="-register-all"]
Inductive pyval : Type :=
| PNone
| PBool (b : bool)
| PInt (z : Z)
| PFloat (f : pyfloat)
| PStr (s : string)
| PList (items : list pyval)
| PTuple (items : list pyval)
| PDict (entries : list (pyval * pyval)).

(** A [dict] literal with [str] keys. *)
Definition obj (fields : list (string * pyval)) : pyval :=
  PDict (map (fun kv => (PStr (fst kv), snd kv)) fields).

(* ================================================================== *)
(** * Exceptions *)
(* ================================================================== *)

(** The exception classes that can reach the code: Python's built-in
    ones, those of [json] and [requests], and the two of [client.py]. *)
Inductive exc_class : Type :=
| BaseException | KeyboardInterrupt | Exception_
| TypeError | AttributeError | SyntaxError | MemoryError
| ValueError | JSONDecodeError
| LookupError | KeyError | IndexError
| ArithmeticError | OverflowError
| RuntimeError | RecursionError
| OSError
| RequestException | InvalidJSONError | RequestsJSONDecodeError
| HTTPError | ConnectionError | ProxyError | SSLError
| Timeout | ConnectTimeout | ReadTimeout
| TooManyRedirects | MissingSchema | InvalidURL | ChunkedEncodingError
| APIError | GuardrailViolationError.

Definition exc_class_eq_dec (a b : exc_class) : {a = b} + {a <> b}.
Proof. decide equality. Defined.

(** The direct base classes ([class C(B1, B2)]). *)
Definition bases (c : exc_class) : list exc_class :=
  match c with
  | BaseException => []
  | KeyboardInterrupt => [BaseException]
  | Exception_ => [BaseException]
  | TypeError | AttributeError | SyntaxError | MemoryError
  | ValueError | LookupError | ArithmeticError | RuntimeError
  | OSError => [Exception_]
  | JSONDecodeError => [ValueError]
  | KeyError | IndexError => [LookupError]
  | OverflowError => [ArithmeticError]
  | RecursionError => [RuntimeError]
  | RequestException => [OSError]
  | InvalidJSONError => [RequestException]
  | RequestsJSONDecodeError => [InvalidJSONError; JSONDecodeError]
  | HTTPError | ConnectionError | Timeout | TooManyRedirects
  | ChunkedEncodingError => [RequestException]
  | ProxyError | SSLError => [ConnectionError]
  | ConnectTimeout => [ConnectionError; Timeout]
  | ReadTimeout => [Timeout]
  | MissingSchema | InvalidURL => [RequestException; ValueError]
  | APIError => [Exception_]
  | GuardrailViolationError => [APIError]
  end.

Fixpoint issubclass_upto (depth : nat) (c d : exc_class) : bool :=
  (if exc_class_eq_dec c d then true else false) ||
  match depth with
  | O => false
  | S depth' => existsb (fun b => issubclass_upto depth' b d) (bases c)
  end.

(** [issubclass(c, d)]; no chain of [bases] is longer than six. *)
Definition issubclass (c d : exc_class) : bool := issubclass_upto 6 c d.

(** The state of a [GuardrailViolationError] instance. *)
Record guardrail_violation : Type := {
  args0 : string;
  violations : list pyval;
  categories : list (pyval * pyval);
  category_scores : list (pyval * pyval);
  lakera_response : pyval
}.

(** A raised exception: an [APIError] with its message, a
    [GuardrailViolationError] with its state, or an instance of a
    built-in or library class. *)
Inductive exc : Type :=
| Exc (c : exc_class)
| ExcAPIError (message : string)
| ExcGuardrailViolation (g : guardrail_violation).

Definition class_of (e : exc) : exc_class :=
  match e with
  | Exc c => c
  | ExcAPIError _ => APIError
  | ExcGuardrailViolation _ => GuardrailViolationError
  end.

(** Whether [except (c1, ..., cn)] catches [e]. *)
Definition caught_by (classes : list exc_class) (e : exc) : bool :=
  existsb (issubclass (class_of e)) classes.

(** The outcome of a Python computation. *)
Inductive result (A : Type) : Type :=
| Return (a : A)
| Raise (e : exc).
Arguments Return {A} a.
Arguments Raise {A} e.

Definition bind {A B : Type} (r : result A) (k : A -> result B) : result B :=
  match r with
  | Return a => k a
  | Raise e => Raise e
  end.

Declare Scope py_scope.
Delimit Scope py_scope with py.
Notation "x <- c ;; k" := (bind c (fun x => k))
  (at level 61, c at next level, right associativity) : py_scope.
Notation "' pat <- c ;; k" := (bind c (fun x => match x with pat => k end))
  (at level 61, pat pattern, c at next level, right associativity) : py_scope.
Open Scope py_scope.

(** [try: body  except (classes): handler], one clause after another;
    an exception no clause catches propagates. *)
Fixpoint handle {A : Type} (e : exc)
    (clauses : list (list exc_class * (exc -> result A))) : result A :=
  match clauses with
  | [] => Raise e
  | (classes, handler) :: rest =>
      if caught_by classes e then handler e else handle e rest
  end.

Definition try_except {A : Type} (body : result A)
    (clauses : list (list exc_class * (exc -> result A))) : result A :=
  match body with
  | Return a => Return a
  | Raise e => handle e clauses
  end.

(* ================================================================== *)
(** * The operations of Python the code applies to decoded values *)
(* ================================================================== *)

Module Py.

(** [bool(v)]. *)
Definition truthy (v : pyval) : bool :=
  match v with
  | PNone => false
  | PBool b => b
  | PInt z => negb (z =? 0)
  | PFloat f =>
      match f with
      | S754_zero _ => false
      | _ => true
      end
  | PStr s => negb (String.eqb s "")
  | PList l | PTuple l => negb (Nat.eqb (List.length l) 0)
  | PDict kvs => negb (Nat.eqb (List.length kvs) 0)
  end.

Definition isinstance_dict (v : pyval) : bool :=
  match v with PDict _ => true | _ => false end.

Definition isinstance_str (v : pyval) : bool :=
  match v with PStr _ => true | _ => false end.

(** [v == key] for a [str] [key]: only an equal [str] compares equal. *)
Definition eq_str (v : pyval) (key : string) : bool :=
  match v with
  | PStr s => String.eqb s key
  | _ => false
  end.

(** The value a [dict] holds under a [str] key. *)
Definition lookup (entries : list (pyval * pyval)) (key : string)
  : option pyval :=
  match find (fun kv => eq_str (fst kv) key) entries with
  | Some kv => Some (snd kv)
  | None => None
  end.

(** [v.get(key, default)]: only a [dict] has the method. *)
Definition get (v : pyval) (key : string) (default : pyval)
  : result pyval :=
  match v with
  | PDict entries =>
      match lookup entries key with
      | Some x => Return x
      | None => Return default
      end
  | _ => Raise (Exc AttributeError)
  end.

(** [key in v] for a [str] [key]: a key of a [dict], an element of a
    [list] or [tuple], a substring of a [str]; the other values are not
    containers. *)
Definition contains (key : string) (v : pyval) : result bool :=
  match v with
  | PDict entries => Return (existsb (fun kv => eq_str (fst kv) key) entries)
  | PList l | PTuple l => Return (existsb (fun x => eq_str x key) l)
  | PStr s => Return (Text.is_infix key s)
  | PNone | PBool _ | PInt _ | PFloat _ => Raise (Exc TypeError)
  end.

(** The values [for x in v] runs through: the elements of a [list] or
    [tuple], the keys of a [dict], the characters of a [str]. *)
Definition iter (v : pyval) : result (list pyval) :=
  match v with
  | PList l | PTuple l => Return l
  | PDict entries => Return (map fst entries)
  | PStr s => Return (map PStr (Text.chars s))
  | PNone | PBool _ | PInt _ | PFloat _ => Raise (Exc TypeError)
  end.

(** [v[0]]. *)
Definition getitem0 (v : pyval) : result pyval :=
  match v with
  | PList (x :: _) | PTuple (x :: _) => Return x
  | PList [] | PTuple [] => Raise (Exc IndexError)
  | PStr s =>
      match Text.chars s with
      | c :: _ => Return (PStr c)
      | [] => Raise (Exc IndexError)
      end
  | PDict entries =>
      match find (fun kv => match fst kv with
                            | PInt z => z =? 0
                            | PBool b => negb b
                            | PFloat (S754_zero _) => true
                            | _ => false
                            end) entries with
      | Some kv => Return (snd kv)
      | None => Raise (Exc KeyError)
      end
  | PNone | PBool _ | PInt _ | PFloat _ => Raise (Exc TypeError)
  end.

(** [v.items()]: only a [dict] has the method. *)
Definition items (v : pyval) : result (list (pyval * pyval)) :=
  match v with
  | PDict entries => Return entries
  | _ => Raise (Exc AttributeError)
  end.

(** [d[key] = value] on the entries of a [dict]: the value under an
    existing key is replaced in place, a new key goes last. *)
Fixpoint setitem (entries : list (pyval * pyval)) (key : string)
    (value : pyval) : list (pyval * pyval) :=
  match entries with
  | [] => [(PStr key, value)]
  | (k, x) :: rest =>
      if eq_str k key then (k, value) :: rest
      else (k, x) :: setitem rest key value
  end.

(** Whether [hash(v)] succeeds. *)
Fixpoint hashable (v : pyval) : bool :=
  match v with
  | PList _ | PDict _ => false
  | PTuple l => forallb hashable l
  | _ => true
  end.

End Py.

(* ================================================================== *)
(** * Formatting numbers *)
(* ================================================================== *)

Module Fmt.

(** The integer nearest to [m * 10 / 2^k], ties to the even one. *)
Definition round_half_even_shift (m : Z) (k : Z) : Z :=
  let d := 2 ^ k in
  let q := m / d in
  let r := m mod d in
  match (2 * r ?= d) with
  | Lt => q
  | Gt => q + 1
  | Eq => if Z.even q then q else q + 1
  end.

(** The tenths of [mantissa * 2^exponent], correctly rounded. *)
Definition tenths (mantissa : positive) (exponent : Z) : Z :=
  if 0 <=? exponent then Zpos mantissa * 10 * 2 ^ exponent
  else round_half_even_shift (Zpos mantissa * 10) (- exponent).

Definition sign_text (negative : bool) : string :=
  if negative then "-" else "".

(** The shortest digits that read back as the same [float]
    (free-format printing after Steele and White, in the order of
    tests of David Gay's [dtoa], which CPython runs: the bounds of the
    rounding interval are included when the mantissa is even, and of
    two shortest candidates equally near the one with the even last
    digit is taken). *)
Record scaled : Type := { num : Z; den : Z; above : Z; below : Z }.

Definition initial (m e : Z) : scaled :=
  let boundary := ((m =? 2 ^ (prec64 - 1)) && (-1074 <? e))%bool in
  if 0 <=? e then
    if boundary
    then {| num := m * 2 ^ (e + 2); den := 4; above := 2 ^ (e + 1); below := 2 ^ e |}
    else {| num := m * 2 ^ (e + 1); den := 2; above := 2 ^ e; below := 2 ^ e |}
  else
    if boundary
    then {| num := m * 4; den := 2 ^ (2 - e); above := 2; below := 1 |}
    else {| num := m * 2; den := 2 ^ (1 - e); above := 1; below := 1 |}.

Definition at_power (x : scaled) (k : Z) : scaled :=
  if 0 <=? k
  then {| num := num x; den := den x * 10 ^ k; above := above x; below := below x |}
  else {| num := num x * 10 ^ (- k); den := den x;
          above := above x * 10 ^ (- k); below := below x * 10 ^ (- k) |}.

Definition too_low (inclusive : bool) (x : scaled) : bool :=
  if inclusive then den x <=? num x + above x else den x <? num x + above x.

Fixpoint find_power (fuel : nat) (inclusive : bool) (x : scaled) (k : Z) : Z :=
  match fuel with
  | O => k
  | S fuel' =>
      if too_low inclusive (at_power x k)
      then find_power fuel' inclusive x (k + 1) else k
  end.

Definition times10 (x : scaled) : scaled :=
  {| num := num x * 10; den := den x; above := above x * 10; below := below x * 10 |}.

Fixpoint generate (fuel : nat) (inclusive : bool) (x : scaled) : list Z :=
  match fuel with
  | O => []
  | S fuel' =>
      let d := num x / den x in
      let r := num x mod den x in
      let low := r ?= below x in
      let high := r + above x ?= den x in
      let low_ok := match low with
                    | Lt => true
                    | Eq => inclusive
                    | Gt => false
                    end in
      match high, inclusive with
      | Eq, true => [match low with Gt => d + 1 | _ => d end]
      | _, _ =>
          if low_ok then
            match high with
            | Gt =>
                match 2 * r ?= den x with
                | Lt => [d]
                | Eq => [if Z.even d then d else d + 1]
                | Gt => [d + 1]
                end
            | _ => [d]
            end
          else
            match high with
            | Gt => [d + 1]
            | _ =>
                d :: generate fuel' inclusive
                       (times10 {| num := r; den := den x;
                                   above := above x; below := below x |})
            end
      end
  end.

(** The digits [d1 ... dn] and the position of the point: the value is
    [0.d1...dn * 10^decpt]. *)
Definition shortest (m : positive) (e : Z) : list Z * Z :=
  let f := Zpos m in
  let inclusive := Z.even f in
  let x := initial f e in
  let estimate := ((Z.log2 f + e) * 30103) / 100000 - 1 in
  let k := find_power 4 inclusive x estimate in
  (generate 20 inclusive (times10 (at_power x k)), k).

Definition digits_text (ds : list Z) : string :=
  String.concat "" (map Text.str_of_Z ds).

Definition zeros (n : Z) : string :=
  String.concat "" (repeat "0" (Z.to_nat n)).

Definition exponent_text (x : Z) : string :=
  (if x <? 0 then "-" else "+") ++
  (if Z.abs x <? 10 then "0" else "") ++ Text.str_of_Z (Z.abs x).

Definition repr_finite (ds : list Z) (decpt : Z) : string :=
  let n := Z.of_nat (List.length ds) in
  if ((decpt <=? -4) || (16 <? decpt))%bool then
    match ds with
    | [] => ""
    | [d] => Text.str_of_Z d ++ "e" ++ exponent_text (decpt - 1)
    | d :: rest =>
        Text.str_of_Z d ++ "." ++ digits_text rest ++ "e" ++ exponent_text (decpt - 1)
    end
  else if decpt <=? 0 then "0." ++ zeros (- decpt) ++ digits_text ds
  else if n <=? decpt then digits_text ds ++ zeros (decpt - n) ++ ".0"
  else digits_text (firstn (Z.to_nat decpt) ds) ++ "."
       ++ digits_text (skipn (Z.to_nat decpt) ds).

(** [repr(x)] for a [float]. *)
Definition repr_float (x : pyfloat) : string :=
  match x with
  | S754_nan => "nan"
  | S754_infinity s => sign_text s ++ "inf"
  | S754_zero s => sign_text s ++ "0.0"
  | S754_finite s m e =>
      match binary_normalize prec64 emax64 (Zpos m) e false with
      | S754_finite _ m' e' =>
          let '(ds, decpt) := shortest m' e' in
          sign_text s ++ repr_finite ds decpt
      | S754_zero _ => sign_text s ++ "0.0"
      | S754_infinity _ => sign_text s ++ "inf"
      | S754_nan => "nan"
      end
  end.

(** [format(x, '.1f')] for a [float]. *)
Definition fixed1 (x : pyfloat) : string :=
  match x with
  | S754_nan => "nan"
  | S754_infinity s => sign_text s ++ "inf"
  | S754_zero s => sign_text s ++ "0.0"
  | S754_finite s m e =>
      let n := tenths m e in
      sign_text s ++ Text.str_of_Z (n / 10) ++ "." ++ Text.str_of_Z (n mod 10)
  end.

Definition hundred : pyfloat := S754_finite false 25 2.

(** [format(x, '.1%')] for a [float]: the value times one hundred, in
    fixed notation with one digit after the point, then a percent
    sign. *)
Definition percent1_float (x : pyfloat) : string :=
  fixed1 (SFmul prec64 emax64 x hundred) ++ "%".

(** [float(n)] for an [int]; an [int] too large for a [float] raises. *)
Definition float_of_int (z : Z) : result pyfloat :=
  match binary_normalize prec64 emax64 z 0 false with
  | S754_infinity _ => Raise (Exc OverflowError)
  | f => Return f
  end.

(** [f"{score:.1%}"]: a [float] is formatted, an [int] or [bool] is
    converted first, a [str] does not know the format code and the
    other types accept no format at all. *)
Definition percent1 (score : pyval) : result string :=
  match score with
  | PFloat x => Return (percent1_float x)
  | PInt z => x <- float_of_int z ;; Return (percent1_float x)
  | PBool b => Return (percent1_float (if b then SFone prec64 emax64
                                       else S754_zero false))
  | PStr _ => Raise (Exc ValueError)
  | PNone | PList _ | PTuple _ | PDict _ => Raise (Exc TypeError)
  end.

End Fmt.

(* ================================================================== *)
(** * [src/client.py] *)
(* ================================================================== *)

(** What [requests] hands back: the status code, what [response.json()]
    gives (it raises when the body is not JSON) and [response.text]. *)
Record response : Type := {
  status_code : Z;
  json : result pyval;
  text : string
}.

(** ** [repr] and [str] *)

Module Repr.

Definition hex_digit (n : nat) : string :=
  String (nth n (list_ascii_of_string "0123456789abcdef") "0"%char)
         EmptyString.

Definition has_char (c : ascii) (s : string) : bool :=
  existsb (Ascii.eqb c) (list_ascii_of_string s).

Fixpoint hex (digits : nat) (n : Z) : string :=
  match digits with
  | O => ""
  | S digits' => hex digits' (n / 16) ++ hex_digit (Z.to_nat (n mod 16))
  end.

(** A character inside [repr(s)]: the quote and the backslash get a
    backslash, a character that is not printable is written by its
    number, any other is copied. *)
Definition escape_char (quote : ascii) (u : Text.uchar) : string :=
  match u with
  | Text.Stray b => String b ""
  | Text.Cp n =>
      let c := Text.of_byte n in
      if n <? 128 then
        if (Ascii.eqb c quote || Ascii.eqb c "\")%bool
        then String "\" (String c "")
        else if n =? 9 then "\t"
        else if n =? 10 then "\n"
        else if n =? 13 then "\r"
        else if ((n <? 32) || (n =? 127))%bool then "\x" ++ hex 2 n
        else String c ""
      else if Text.in_ranges Text.NONPRINTABLE n then
        if n <? 256 then "\x" ++ hex 2 n
        else if n <? 65536 then "\u" ++ hex 4 n
        else "\U" ++ hex 8 n
      else Text.encode_cp n
  end.

(** [repr(s)] of a [str]: single quotes, unless the text has a single
    quote and no double quote. *)
Definition repr_str (s : string) : string :=
  let quote : ascii :=
    if (has_char "'" s && negb (has_char (ascii_of_nat 34) s))%bool
    then ascii_of_nat 34 else "'"%char in
  String quote
    (String.concat "" (map (escape_char quote) (Text.decode s))
     ++ String quote "").

(** [repr(v)]. (CPython 3.11 refuses to print an [int] of more than
    4300 digits, and to read one: no decoder returns such a value.) *)
Fixpoint py_repr (v : pyval) : string :=
  match v with
  | PNone => "None"
  | PBool true => "True"
  | PBool false => "False"
  | PInt z => Text.str_of_Z z
  | PFloat f => Fmt.repr_float f
  | PStr s => repr_str s
  | PList l => "[" ++ Text.join ", " (map py_repr l) ++ "]"
  | PTuple [x] => "(" ++ py_repr x ++ ",)"
  | PTuple l => "(" ++ Text.join ", " (map py_repr l) ++ ")"
  | PDict entries =>
      "{" ++ Text.join ", "
               (map (fun kv => match kv with
                               | (k, x) => py_repr k ++ ": " ++ py_repr x
                               end) entries)
          ++ "}"
  end.

(** [str(v)], which is also what an f-string puts for [{v}]. *)
Definition py_str (v : pyval) : string :=
  match v with
  | PStr s => s
  | _ => py_repr v
  end.

End Repr.
Export Repr.

(** ** [class GuardrailViolationError(APIError)] *)

Module GuardrailViolation.

Definition VIOLATION_NAMES : list (string * string) :=
  [ ("moderated_content/crime", "Crime-related content");
    ("moderated_content/hate", "Hate speech");
    ("moderated_content/profanity", "Profanity");
    ("moderated_content/sexual", "Sexual content");
    ("moderated_content/violence", "Violence");
    ("moderated_content/weapons", "Weapons");
    ("pii/address", "Personal address");
    ("pii/credit_card", "Credit card number");
    ("pii/email", "Email address");
    ("pii/iban_code", "IBAN code");
    ("pii/ip_address", "IP address");
    ("pii/name", "Personal name");
    ("pii/phone_number", "Phone number");
    ("pii/us_social_security_number", "Social Security Number");
    ("prompt_attack", "Prompt injection attack");
    ("jailbreak", "Jailbreak attempt");
    ("prompt_injection", "Prompt injection");
    ("unknown_links", "Unknown links") ].

Definition known_name (violation_type : string) : option string :=
  match find (fun kv => String.eqb (fst kv) violation_type)
             VIOLATION_NAMES with
  | Some kv => Some (snd kv)
  | None => None
  end.

(** [[cat for cat, flagged in categories.items() if flagged]]. *)
Definition flagged_keys (categories : list (pyval * pyval)) : list pyval :=
  map fst (filter (fun kv => Py.truthy (snd kv)) categories).

(** [__init__]: an argument left out is [None]. *)
Definition init (message : string)
    (violations : option (list pyval))
    (categories category_scores : option (list (pyval * pyval)))
    (lakera_response : pyval) : guardrail_violation :=
  let violations := match violations with Some l => l | None => [] end in
  let categories := match categories with Some d => d | None => [] end in
  let category_scores :=
    match category_scores with Some d => d | None => [] end in
  {| args0 := message;
     violations :=
       match violations, categories with
       | [], _ :: _ => flagged_keys categories
       | _, _ => violations
       end;
     categories := categories;
     category_scores := category_scores;
     lakera_response := lakera_response |}.

Definition unknown_name (violation_type : string) : string :=
  Text.title
    (Text.replace_char "/" " - " (Text.replace_char "_" " " violation_type)).

(** [_format_violation_name]: the table is looked up by hash, which a
    [list] or [dict] does not have, and only a [str] has [replace]. *)
Definition _format_violation_name (violation_type : pyval) : result string :=
  match violation_type with
  | PStr s =>
      match known_name s with
      | Some name => Return name
      | None => Return (unknown_name s)
      end
  | v => if Py.hashable v then Raise (Exc AttributeError)
         else Raise (Exc TypeError)
  end.

Definition header : string :=
  Text.nl ++ Text.nl ++ "Detected policy violations:".
Definition bullet : string := Text.nl ++ "  • ".
Definition remediation : string :=
  Text.nl ++ Text.nl ++
  "Please revise your message to comply with the content safety policy.".

(** The text one violation adds to [msg]: its bullet line and, when
    [category_scores] is not empty and has the violation as a key, the
    confidence. *)
Definition violation_text (scores : list (pyval * pyval))
    (violation : pyval) : result string :=
  violation_name <- _format_violation_name violation ;;
  let line := bullet ++ violation_name in
  match violation with
  | PStr s =>
      match scores, Py.lookup scores s with
      | _ :: _, Some score =>
          pct <- Fmt.percent1 score ;;
          Return (line ++ " (confidence: " ++ pct ++ ")")
      | _, _ => Return line
      end
  | _ => Return line
  end.

(** The [for violation in self.violations] loop of [__str__]. *)
Fixpoint add_violations (scores : list (pyval * pyval)) (msg : string)
    (violations : list pyval) : result string :=
  match violations with
  | [] => Return msg
  | violation :: rest =>
      t <- violation_text scores violation ;;
      add_violations scores (msg ++ t) rest
  end.

(** [__str__]. *)
Definition str (self : guardrail_violation) : result string :=
  let msg := args0 self in
  msg <- match violations self with
         | [] => Return msg
         | vs => add_violations (category_scores self) (msg ++ header) vs
         end ;;
  Return (msg ++ remediation).

End GuardrailViolation.

(** ** [class ProxyClient] *)

Module ProxyClient.

Record t : Type := {
  base_url : string;
  api_key : string;
  chat_endpoint : string
}.

(** [__init__]. *)
Definition init (base_url api_key : string) : t :=
  let base_url := Text.rstrip_char "/" base_url in
  {| base_url := base_url;
     api_key := api_key;
     chat_endpoint := base_url ++ "/v1/chat/completions" |}.

Definition GUARD_KEY : string := "lakera_guardrail_response".

(** What the error branch has in its local variables when it reaches
    [if violations:]. [category_scores] is bound only on the path of
    format 3. *)
Record parsed : Type := {
  found : list pyval;
  lakera : pyval;
  scores : option pyval
}.

Section Runtime.

(** [json.loads] and [ast.literal_eval] on a [str],
    [requests.post(url, json=, headers=, timeout=)] and
    [requests.get(url, timeout=)]. *)
Variable json_loads : string -> result pyval.
Variable literal_eval : string -> result pyval.
Variable requests_post :
  string -> pyval -> list (string * string) -> Z -> result response.
Variable requests_get : string -> Z -> result response.

(** The loop over [breakdown], which formats 1 and 2 both have:
    [violations] grows by the [detector_type] of every detector whose
    [detected] is true. *)
Fixpoint scan_breakdown (violations : list pyval)
    (detectors : list pyval) : result (list pyval) :=
  match detectors with
  | [] => Return violations
  | detector :: rest =>
      detected <- Py.get detector "detected" (PBool false) ;;
      if Py.truthy detected then
        detector_type <- Py.get detector "detector_type" (PStr "unknown") ;;
        scan_breakdown (violations ++ [detector_type]) rest
      else scan_breakdown violations rest
  end.

(** [lakera_response = d.get("lakera_guardrail_response", {})] and
    the loop over its [breakdown]. *)
Definition read_guard_response (d : pyval) (violations : list pyval)
  : result (list pyval * pyval) :=
  lakera_response <- Py.get d GUARD_KEY (PDict []) ;;
  breakdown <- Py.get lakera_response "breakdown" (PList []) ;;
  detectors <- Py.iter breakdown ;;
  violations <- scan_breakdown violations detectors ;;
  Return (violations, lakera_response).

(** [json.loads], then [ast.literal_eval] when that raises
    [JSONDecodeError] or [TypeError]; [parsed_error] stays [None]
    when the second raises [ValueError] or [SyntaxError]. *)
Definition decode_message (error_msg : string) : result pyval :=
  try_except (json_loads error_msg)
    [ ([JSONDecodeError; TypeError],
       fun _ =>
         try_except (literal_eval error_msg)
           [ ([ValueError; SyntaxError], fun _ => Return PNone) ]) ].

(** Format 3, entered with [lakera_response = error_obj.get(
    "lakera_ai_response", {})]. *)
Definition read_ai_response (lakera_response : pyval) : result parsed :=
  let none_found :=
    {| found := []; lakera := lakera_response; scores := None |} in
  if Py.truthy lakera_response then
    results <- Py.get lakera_response "results" (PList []) ;;
    flagged <-
      (if Py.truthy results then
         first <- Py.getitem0 results ;;
         f <- Py.get first "flagged" PNone ;;
         Return (Py.truthy f)
       else Return false) ;;
    if flagged : bool then
      first <- Py.getitem0 results ;;
      categories <- Py.get first "categories" (PDict []) ;;
      category_scores <- Py.get first "category_scores" (PDict []) ;;
      entries <- Py.items categories ;;
      Return {| found := GuardrailViolation.flagged_keys entries;
                lakera := lakera_response;
                scores := Some category_scores |}
    else Return none_found
  else Return none_found.

(** Lines 75 to 122: the three formats, in their order. *)
Definition find_violations (error_data : pyval) : result parsed :=
  direct <- Py.contains GUARD_KEY error_data ;;
  if direct : bool then
    '(violations, lakera_response) <- read_guard_response error_data [] ;;
    Return {| found := violations; lakera := lakera_response;
              scores := None |}
  else
    has_error <- Py.contains "error" error_data ;;
    if has_error : bool then
      error_obj <- Py.get error_data "error" (PDict []) ;;
      error_msg <-
        (if Py.isinstance_dict error_obj
         then Py.get error_obj "message" (PStr "")
         else Return (PStr (py_str error_obj))) ;;
      '(violations, lakera_response) <-
        match error_msg with
        | PStr s =>
            parsed_error <- decode_message s ;;
            if (Py.truthy parsed_error
                && Py.isinstance_dict parsed_error)%bool then
              nested <- Py.contains GUARD_KEY parsed_error ;;
              if nested : bool then read_guard_response parsed_error []
              else Return ([], PNone)
            else Return ([], PNone)
        | _ => Return ([], PNone)
        end ;;
      match error_obj, violations with
      | PDict _, [] =>
          lakera_response <-
            Py.get error_obj "lakera_ai_response" (PDict []) ;;
          read_ai_response lakera_response
      | _, _ =>
          Return {| found := violations; lakera := lakera_response;
                    scores := None |}
      end
    else Return {| found := []; lakera := PNone; scores := None |}.

Definition api_error_text (status : Z) (detail : string) : string :=
  "API error (" ++ Text.str_of_Z status ++ "): " ++ detail.

(** Lines 132 to 137: what the generic error says after the status. *)
Definition generic_detail (error_data : pyval) : result string :=
  error_msg <- Py.get error_data "error" (PDict []) ;;
  error_msg <-
    match error_msg with
    | PDict _ =>
        Py.get error_msg "message" (PStr (py_str error_msg))
    | PStr _ => Return error_msg
    | _ =>
        e <- Py.get error_data "error" (PStr "Unknown error") ;;
        Return (PStr (py_str e))
    end ;;
  Return (py_str error_msg).

(** The [try] block of the error branch (lines 72 to 139). *)
Definition raise_for_error (r : response) : result pyval :=
  error_data <- json r ;;
  p <- find_violations error_data ;;
  match found p with
  | _ :: _ =>
      Raise (ExcGuardrailViolation
               (GuardrailViolation.init
                  "LiteLLM has flagged this message due to policy violations"
                  (Some (found p)) None None (lakera p)))
  | [] =>
      detail <- generic_detail error_data ;;
      Raise (ExcAPIError (api_error_text (status_code r) detail))
  end.

(** Lines 69 to 145: what [chat_completion] does with the response. *)
Definition handle_response (r : response) : result pyval :=
  if negb (status_code r =? 200) then
    try_except (raise_for_error r)
      [ ([GuardrailViolationError], fun e => Raise e);
        ([JSONDecodeError; KeyError; AttributeError],
         fun _ => Raise (ExcAPIError
                           (api_error_text (status_code r) (text r)))) ]
  else json r.

Definition build_payload (model : string) (messages : list pyval)
    (guardrails : option (list string)) (stream : bool)
    (kwargs : list (string * pyval)) : pyval :=
  let payload :=
    fold_left (fun d kv => Py.setitem d (fst kv) (snd kv)) kwargs
      [ (PStr "model", PStr model);
        (PStr "messages", PList messages);
        (PStr "stream", PBool stream) ] in
  PDict match guardrails with
        | Some (g :: gs) =>
            Py.setitem payload "guardrails" (PList (map PStr (g :: gs)))
        | _ => payload
        end.

Definition chat_completion (self : t) (model : string)
    (messages : list pyval) (guardrails : option (list string))
    (stream : bool) (kwargs : list (string * pyval)) : result pyval :=
  let payload := build_payload model messages guardrails stream kwargs in
  let headers :=
    [ ("Content-Type", "application/json");
      ("Authorization", "Bearer " ++ api_key self) ] in
  response <- requests_post (chat_endpoint self) payload headers 60 ;;
  handle_response response.

Definition health_check (self : t) : result bool :=
  try_except
    (response <- requests_get (base_url self ++ "/health") 2 ;;
     Return (status_code response =? 200))
    [ ([RequestException], fun _ => Return false) ].

End Runtime.

End ProxyClient.

(* ================================================================== *)
(** * [src/chat.py] *)
(* ================================================================== *)

Module ChatSession.

Record t : Type := {
  client : ProxyClient.t;
  model : string;
  guardrails : list string;
  messages : list pyval
}.

(** [__init__]: [guardrails or ["lakera-guard"]]. *)
Definition init (client : ProxyClient.t) (model : string)
    (guardrails : option (list string)) : t :=
  {| client := client;
     model := model;
     guardrails := match guardrails with
                   | Some (g :: gs) => g :: gs
                   | _ => ["lakera-guard"]
                   end;
     messages := [] |}.

Definition turn (role : string) (content : pyval) : pyval :=
  obj [("role", PStr role); ("content", content)].

Definition set_messages (self : t) (ms : list pyval) : t :=
  {| client := client self; model := model self;
     guardrails := guardrails self; messages := ms |}.

Definition add_message (self : t) (role : string) (content : pyval) : t :=
  set_messages self (messages self ++ [turn role content]).

(** [any(m.get("role") == "system" for m in self.messages)]. *)
Fixpoint any_system (ms : list pyval) : result bool :=
  match ms with
  | [] => Return false
  | m :: rest =>
      role <- Py.get m "role" PNone ;;
      if Py.eq_str role "system" then Return true else any_system rest
  end.

(** Lines 57 to 59: the system message goes in once, when one is given
    and the history has none. *)
Definition with_system (self : t) (system_message : option string)
  : result t :=
  match system_message with
  | Some (String _ _ as s) =>
      has <- any_system (messages self) ;;
      Return (if has : bool then self else add_message self "system" (PStr s))
  | _ => Return self
  end.

(** Lines 72 to 78: the assistant's text in a response. *)
Definition assistant_text (response : pyval) : result pyval :=
  choices <- Py.get response "choices" (PList []) ;;
  if negb (Py.truthy choices)
  then Raise (ExcAPIError "No response choices in API response")
  else
    first <- Py.getitem0 choices ;;
    message <- Py.get first "message" (PDict []) ;;
    assistant_message <- Py.get message "content" (PStr "") ;;
    if negb (Py.truthy assistant_message)
    then Raise (ExcAPIError "Empty response from assistant")
    else Return assistant_message.

(** Lines 85 to 89: the handler of [except GuardrailViolationError]. *)
Definition on_violation (self : t) (e : exc) : t * result pyval :=
  match rev (messages self) with
  | [] => (self, Raise e)
  | last :: before =>
      match Py.get last "role" PNone with
      | Raise e' => (self, Raise e')
      | Return role =>
          if Py.eq_str role "user"
          then (set_messages self (rev before), Raise e)
          else (self, Raise e)
      end
  end.

Section Runtime.

Variable json_loads : string -> result pyval.
Variable literal_eval : string -> result pyval.
Variable requests_post :
  string -> pyval -> list (string * string) -> Z -> result response.

(** [chat]: the session it leaves behind and what it returns or
    raises. *)
Definition chat (self : t) (user_message : string)
    (system_message : option string) : t * result pyval :=
  match with_system self system_message with
  | Raise e => (self, Raise e)
  | Return self =>
      let self := add_message self "user" (PStr user_message) in
      let tried :=
        response <-
          ProxyClient.chat_completion json_loads literal_eval
            requests_post (client self) (model self) (messages self)
            (Some (guardrails self)) false [] ;;
        assistant_text response in
      match tried with
      | Return assistant_message =>
          (add_message self "assistant" assistant_message,
           Return assistant_message)
      | Raise e =>
          if caught_by [GuardrailViolationError] e
          then on_violation self e
          else (self, Raise e)
      end
  end.

End Runtime.

(** [reset]. *)
Definition reset (self : t) : t := set_messages self [].

Definition has_role (role : string) (m : pyval) : bool :=
  match Py.get m "role" PNone with
  | Return r => Py.eq_str r role
  | Raise _ => false
  end.

(** Every user turn of the history is followed by the assistant's
    answer to it. *)
Fixpoint all_answered (ms : list pyval) : bool :=
  match ms with
  | [] => true
  | m :: rest =>
      (if has_role "user" m
       then match rest with
            | next :: _ => has_role "assistant" next
            | [] => false
            end
       else true) && all_answered rest
  end.

End ChatSession.

(* ================================================================== *)
(** * [src/proxy_manager.py] *)
(* ================================================================== *)

(** A spawned process, as [subprocess.Popen] returns it. *)
Definition popen := nat.

(** What the supervisor asks of the world around it; the index is the
    type of the answer. *)
Inductive event : Type -> Type :=
| Get (url : string) (timeout : Z) : event (result response)
| Print (line : string) : event unit
| PathExists (path : string) : event bool
| Popen (cmd : list string) : event popen
| Poll (p : popen) : event (option Z)
| ReadRest (p : popen) : event string
| ReadLine (p : popen) : event (result string)
| Now : event Q
| Sleep (seconds : Q) : event unit
| StopSweep (held : option popen) : event unit.

(** A program: it returns, raises, or asks for an event and goes on
    with the answer. *)
Inductive prog (A : Type) : Type :=
| Ret (a : A)
| Throw (e : exc)
| Vis (X : Type) (ev : event X) (k : X -> prog A).
Arguments Ret {A} a.
Arguments Throw {A} e.
Arguments Vis {A X} ev k.

Fixpoint pbind {A B : Type} (p : prog A) (f : A -> prog B) : prog B :=
  match p with
  | Ret a => f a
  | Throw e => Throw e
  | Vis ev k => Vis ev (fun x => pbind (k x) f)
  end.

Definition trigger {X : Type} (ev : event X) : prog X := Vis ev Ret.

Definition lift {A : Type} (r : result A) : prog A :=
  match r with
  | Return a => Ret a
  | Raise e => Throw e
  end.

Declare Scope prog_scope.
Delimit Scope prog_scope with prog.
Notation "x <- c ;; k" := (pbind c (fun x => k))
  (at level 61, c at next level, right associativity) : prog_scope.
Notation "c ;;; k" := (pbind c (fun _ => k))
  (at level 61, right associativity) : prog_scope.

(** An event that took place. *)
Inductive call : Type :=
| Called (X : Type) (ev : event X).
Arguments Called {X} ev.

(** An environment answers every event from its state. *)
Definition env (S : Type) : Type := forall X : Type, event X -> S -> X * S.

(** A program run in an environment: the events in their order, the
    state the environment ends in, and the outcome. *)
Fixpoint run {S A : Type} (h : env S) (p : prog A) (s : S)
  : list call * S * result A :=
  match p with
  | Ret a => ([], s, Return a)
  | Throw e => ([], s, Raise e)
  | Vis ev k =>
      let '(x, s1) := h _ ev s in
      let '(calls, s2, r) := run h (k x) s1 in
      (Called ev :: calls, s2, r)
  end.

Definition is_spawn (c : call) : bool :=
  match c with
  | Called (Popen _) => true
  | _ => false
  end.

Module ProxyManager.

Local Open Scope prog_scope.

Definition PROXY_URL : string := "http://localhost:4000".
Definition PROXY_HEALTH_ENDPOINT : string := PROXY_URL ++ "/health".
Definition PROXY_PORT : Z := 4000.

(** [config_path] is absolute already; [litellm_path] and [process]
    are [None] or set. *)
Record t : Type := {
  config_path : string;
  litellm_path : option string;
  process : option popen
}.

Definition init (config_path : string) (litellm_path : option string) : t :=
  {| config_path := config_path;
     litellm_path := match litellm_path with
                     | Some (String _ _ as p) => Some p
                     | _ => None
                     end;
     process := None |}.

Definition set_process (self : t) (p : option popen) : t :=
  {| config_path := config_path self; litellm_path := litellm_path self;
     process := p |}.

Definition is_running : prog bool :=
  got <- trigger (Get PROXY_HEALTH_ENDPOINT 2) ;;
  lift (try_except
          (response <- got ;; Return (status_code response =? 200))%py
          [ ([RequestException; Timeout], fun _ => Return false) ]).

(** [stop]: the held process is terminated and forgotten, and the
    sweeps over the processes of the system follow; the whole of it is
    one event here. *)
Definition stop (self : t) : prog t :=
  trigger (StopSweep (process self)) ;;;
  Ret (set_process self None).

Section Start.

(** [sys.executable]. *)
Variable sys_executable : string.

Definition mentions (keywords : list string) (line : string) : bool :=
  existsb (fun keyword => Text.is_infix keyword (Text.lower line)) keywords.

(** The [try] around [readline] in the waiting loop; its bare
    [except] swallows whatever is raised. *)
Definition read_line (p : popen) (output_lines : list string)
  : prog (list string) :=
  got <- trigger (ReadLine p) ;;
  match got with
  | Return (String _ _ as line) =>
      let line := Text.strip line in
      let output_lines := (output_lines ++ [line])%list in
      (if mentions ["error"; "exception"; "traceback"; "failed"] line
       then trigger (Print ("  " ++ line))
       else if mentions ["running"; "started"; "uvicorn"] line
       then trigger (Print ("  " ++ line))
       else Ret tt) ;;;
      Ret output_lines
  | _ => Ret output_lines
  end.

(** The waiting loop. It ends with [inl true] when the proxy answers
    ([return True]), with [inr output_lines] when the loop is left;
    [None] when [fuel] rounds were not enough. *)
Fixpoint wait_ready (fuel : nat) (p : popen) (timeout : Z)
    (start_time : Q) (output_lines : list string)
  : prog (option (bool + list string)) :=
  match fuel with
  | O => Ret None
  | S fuel' =>
      now <- trigger Now ;;
      if Qlt_le_dec (now - start_time) (inject_Z timeout) then
        exited <- trigger (Poll p) ;;
        match exited with
        | Some _ =>
            remaining <- trigger (ReadRest p) ;;
            Ret (Some (inr (match remaining with
                            | EmptyString => output_lines
                            | _ => (output_lines ++ [remaining])%list
                            end)))
        | None =>
            output_lines <- read_line p output_lines ;;
            running <- is_running ;;
            if running : bool then
              trigger (Print ("✓ LiteLLM proxy is running at " ++ PROXY_URL)) ;;;
              Ret (Some (inl true))
            else
              trigger (Sleep (1 # 2)) ;;;
              wait_ready fuel' p timeout start_time output_lines
        end
      else Ret (Some (inr output_lines))
  end.

(** [output_lines[-20:]]. *)
Definition last20 (lines : list string) : list string :=
  skipn (List.length lines - 20) lines.

Fixpoint print_lines (lines : list string) : prog unit :=
  match lines with
  | [] => Ret tt
  | line :: rest =>
      (match line with
       | EmptyString => Ret tt
       | _ => trigger (Print ("  " ++ line))
       end) ;;;
      print_lines rest
  end.

(** Lines 125 to 141: the proxy did not start. *)
Definition report_failure (self : t) (p : popen) (timeout : Z)
    (output_lines : list string) : prog (t * bool) :=
  trigger (Print ("✗ Proxy failed to start within "
                  ++ Text.str_of_Z timeout ++ " seconds")) ;;;
  (match output_lines with
   | [] => Ret tt
   | _ =>
       trigger (Print (Text.nl ++ "Proxy output:")) ;;;
       print_lines (last20 output_lines)
   end) ;;;
  exited <- trigger (Poll p) ;;
  (match exited with
   | Some exit_code =>
       trigger (Print (Text.nl ++ "Proxy process exited with code: "
                       ++ Text.str_of_Z exit_code))
   | None => Ret tt
   end) ;;;
  self <- stop self ;;
  Ret (self, false).

(** [start]: the manager it leaves behind and the boolean it
    returns; [None] when the waiting loop needs more than [fuel]
    rounds. *)
Definition start (fuel : nat) (self : t) (wait_for_ready : bool)
    (timeout : Z) : prog (option (t * bool)) :=
  running <- is_running ;;
  if running : bool then
    trigger (Print "LiteLLM proxy is already running.") ;;;
    Ret (Some (self, true))
  else
    config_exists <- trigger (PathExists (config_path self)) ;;
    if negb config_exists then
      trigger (Print ("Error: Config file not found: "
                      ++ config_path self)) ;;;
      Ret (Some (self, false))
    else
      from_source <-
        match litellm_path self with
        | Some path => trigger (PathExists path)
        | None => Ret false
        end ;;
      let cmd :=
        if from_source : bool
        then [sys_executable; "-m"; "litellm.proxy.proxy_cli";
              "--config"; config_path self]
        else ["litellm"; "--config"; config_path self] in
      trigger (Print ("Starting LiteLLM proxy server with config: "
                      ++ config_path self)) ;;;
      trigger (Print ("Command: " ++ Text.join " " cmd)) ;;;
      p <- trigger (Popen cmd) ;;
      let self := set_process self (Some p) in
      if wait_for_ready then
        trigger (Print "Waiting for proxy to be ready...") ;;;
        start_time <- trigger Now ;;
        waited <- wait_ready fuel p timeout start_time [] ;;
        match waited with
        | None => Ret None
        | Some (inl b) => Ret (Some (self, b))
        | Some (inr output_lines) =>
            r <- report_failure self p timeout output_lines ;;
            Ret (Some r)
        end
      else Ret (Some (self, true)).

(** [ensure_running]. *)
Definition ensure_running (fuel : nat) (self : t)
  : prog (option (t * bool)) :=
  running <- is_running ;;
  if negb running then start fuel self true 30
  else Ret (Some (self, true)).

End Start.

End ProxyManager.

(* ================================================================== *)
(** * The vocabulary of the properties *)
(* ================================================================== *)

(** An entry of a [breakdown]: a mapping with a [detector_type] and a
    boolean [detected]. *)
Definition is_entry (e : pyval) : bool :=
  match e with
  | PDict kvs =>
      match Py.lookup kvs "detector_type", Py.lookup kvs "detected" with
      | Some _, Some (PBool _) => true
      | _, _ => false
      end
  | _ => false
  end.

(** The [breakdown] of a body in the direct form: a mapping whose
    guardrail-response key holds a mapping with a [breakdown] sequence
    of entries. *)
Definition direct_breakdown (body : pyval) : option (list pyval) :=
  match body with
  | PDict d =>
      match Py.lookup d ProxyClient.GUARD_KEY with
      | Some (PDict lr) =>
          match Py.lookup lr "breakdown" with
          | Some (PList entries) =>
              if forallb is_entry entries then Some entries else None
          | _ => None
          end
      | _ => None
      end
  | _ => None
  end.

(** The [detector_type] values of the entries whose [detected] is true,
    in the order of the sequence. *)
Definition detected_types (entries : list pyval) : list pyval :=
  flat_map
    (fun e =>
       match e with
       | PDict kvs =>
           match Py.lookup kvs "detected", Py.lookup kvs "detector_type" with
           | Some (PBool true), Some t => [t]
           | _, _ => []
           end
       | _ => []
       end) entries.

(** The outcome is one of the two errors of [client.py]. *)
Definition is_api_error {A : Type} (r : result A) : bool :=
  match r with
  | Raise (ExcAPIError _) | Raise (ExcGuardrailViolation _) => true
  | _ => false
  end.

(** What the generic error says after the status for the value of the
    [error] entry: the message of a mapping that has one, the text of a
    mapping that has none, a text as it is, the text of any other
    value. *)
Definition error_detail (error : pyval) : string :=
  match error with
  | PDict e =>
      match Py.lookup e "message" with
      | Some m => py_str m
      | None => py_repr error
      end
  | PStr s => s
  | other => py_repr other
  end.

(** The same, read off a decoded body that is a mapping; a body without
    an [error] entry gets the text of the empty mapping. *)
Definition detail_of (d : list (pyval * pyval)) : string :=
  match Py.lookup d "error" with
  | Some error => error_detail error
  | None => "{}"
  end.

(** [GET] answers, or fails with one of the failures of [requests]. *)
Definition network_outcome (got : result response) : Prop :=
  match got with
  | Return _ => True
  | Raise e => issubclass (class_of e) RequestException = true
  end.



Definition is_float (v : pyval) : bool :=
  match v with PFloat _ => true | _ => false end.

(** The table of display names. *)
Definition DISPLAY_NAMES : list (string * string) :=
  [ ("moderated_content/crime", "Crime-related content");
    ("moderated_content/hate", "Hate speech");
    ("moderated_content/profanity", "Profanity");
    ("moderated_content/sexual", "Sexual content");
    ("moderated_content/violence", "Violence");
    ("moderated_content/weapons", "Weapons");
    ("pii/address", "Personal address");
    ("pii/credit_card", "Credit card number");
    ("pii/email", "Email address");
    ("pii/iban_code", "IBAN code");
    ("pii/ip_address", "IP address");
    ("pii/name", "Personal name");
    ("pii/phone_number", "Phone number");
    ("pii/us_social_security_number", "Social Security Number");
    ("prompt_attack", "Prompt injection attack");
    ("jailbreak", "Jailbreak attempt");
    ("prompt_injection", "Prompt injection");
    ("unknown_links", "Unknown links") ].

Fixpoint table_name (table : list (string * string)) (code : string)
  : option string :=
  match table with
  | [] => None
  | (known, name) :: rest =>
      if String.eqb known code then Some name else table_name rest code
  end.

(** A code with its separators replaced: a space for an underscore, a
    dash between two spaces for a slash. *)
Fixpoint separators_replaced (code : string) : string :=
  match code with
  | EmptyString => EmptyString
  | String c rest =>
      (if Ascii.eqb c "_" then " "
       else if Ascii.eqb c "/" then " - "
       else String c "")
      ++ separators_replaced rest
  end.

(** The display name of a violation code: its name in the table, or,
    for a code the table does not have, the code with its separators
    replaced and in title case. *)
Definition display_name (code : string) : string :=
  match table_name DISPLAY_NAMES code with
  | Some name => name
  | None => Text.title (separators_replaced code)
  end.

(** [msg] decodes to [payload]: as JSON, or as a literal after JSON
    decoding has refused it. *)
Definition decodes_to (json_loads literal_eval : string -> result pyval)
    (msg : string) (payload : pyval) : Prop :=
  json_loads msg = Return payload \/
  (exists e, json_loads msg = Raise e /\
             caught_by [JSONDecodeError; TypeError] e = true /\
             literal_eval msg = Return payload).

(** Both decoders refuse [msg], each with an exception the code is
    prepared for. *)
Definition refused (json_loads literal_eval : string -> result pyval)
    (msg : string) : Prop :=
  exists e e',
    json_loads msg = Raise e /\
    caught_by [JSONDecodeError; TypeError] e = true /\
    literal_eval msg = Raise e' /\
    caught_by [ValueError; SyntaxError] e' = true.

(** [msg] carries no guardrail payload: the decoders refuse it, or it
    decodes to something that is no mapping with the guardrail-response
    key. *)
Definition no_payload (json_loads literal_eval : string -> result pyval)
    (msg : string) : Prop :=
  refused json_loads literal_eval msg \/
  exists v,
    decodes_to json_loads literal_eval msg v /\
    forall pd, v = PDict pd -> Py.lookup pd ProxyClient.GUARD_KEY = None.

(** The text the nested form would decode for the value of [error]:
    the [message] of a mapping when it is a text, the empty text when
    the mapping has no [message], the value itself when it is a text,
    its [str] otherwise; a [message] that is no text is not decoded. *)
Definition nested_text (error : pyval) : option string :=
  match error with
  | PDict eo =>
      match Py.lookup eo "message" with
      | Some (PStr s) => Some s
      | Some _ => None
      | None => Some ""
      end
  | other => Some (py_str other)
  end.

(** The body matches none of the three forms. A mapping: it has no
    top-level guardrail-response key; the text the nested form would
    decode carries no payload; and an [error] mapping holds no legacy
    response, or an empty one. A sequence or a text matches none; a
    body that is a number, a truth value or [null] is left out. *)
Definition matches_no_form (json_loads literal_eval : string -> result pyval)
    (body : pyval) : Prop :=
  match body with
  | PDict d =>
      Py.lookup d ProxyClient.GUARD_KEY = None /\
      forall error, Py.lookup d "error" = Some error ->
        (forall s, nested_text error = Some s ->
                   no_payload json_loads literal_eval s) /\
        (forall eo legacy,
            error = PDict eo ->
            Py.lookup eo "lakera_ai_response" = Some legacy ->
            Py.truthy legacy = false)
  | PList _ | PTuple _ | PStr _ => True
  | PNone | PBool _ | PInt _ | PFloat _ => False
  end.

(** The keys of [categories] whose value is true, in the order of the
    mapping. *)
Fixpoint true_categories (categories : list (pyval * pyval)) : list pyval :=
  match categories with
  | [] => []
  | (category, flagged) :: rest =>
      if Py.truthy flagged then category :: true_categories rest
      else true_categories rest
  end.

(** The line a violation code gets in the rendered message: the bullet,
    the display name and, when there is a score for the code, the
    confidence. *)
Definition line_of (scores : list (pyval * pyval)) (code : string) : string :=
  Text.nl ++ "  • " ++ display_name code ++
  match scores, Py.lookup scores code with
  | _ :: _, Some (PFloat f) =>
      " (confidence: " ++ Fmt.percent1_float f ++ ")"
  | _, _ => ""
  end.

Fixpoint all_lines (scores : list (pyval * pyval)) (codes : list string)
  : string :=
  match codes with
  | [] => ""
  | code :: rest => line_of scores code ++ all_lines scores rest
  end.

(** [category_scores] is a [Dict[str, float]]. *)
Definition float_scores (scores : list (pyval * pyval)) : bool :=
  forallb (fun kv => is_float (snd kv)) scores.

(* ================================================================== *)
(** * Worked examples: bodies, decoders and worlds *)
(* ================================================================== *)

Module Examples.

Import Text.

Definition entry (detector_type : string) (detected : bool) : pyval :=
  obj [("detector_type", PStr detector_type); ("detected", PBool detected)].

Definition guard (entries : list pyval) : pyval :=
  obj [(ProxyClient.GUARD_KEY, obj [("breakdown", PList entries)])].

(** Status 400 with one detector that fired and one that did not. *)
Definition direct_body : pyval :=
  guard [entry "pii/email" true; entry "jailbreak" false].

(** The same structure, serialized as JSON and as a Python literal. *)
Definition attack_payload : pyval := guard [entry "prompt_attack" true].

Definition attack_json : string :=
  "{" ++ quoted "lakera_guardrail_response" ++ ": {" ++ quoted "breakdown"
  ++ ": [{" ++ quoted "detector_type" ++ ": " ++ quoted "prompt_attack"
  ++ ", " ++ quoted "detected" ++ ": true}]}}".

Definition attack_literal : string :=
  "{'lakera_guardrail_response': {'breakdown': [{'detector_type': 'prompt_attack', 'detected': True}]}}".

(** A payload in which no detector fired. *)
Definition quiet_payload : pyval := guard [entry "pii/email" false].

Definition quiet_json : string :=
  "{" ++ quoted "lakera_guardrail_response" ++ ": {" ++ quoted "breakdown"
  ++ ": [{" ++ quoted "detector_type" ++ ": " ++ quoted "pii/email"
  ++ ", " ++ quoted "detected" ++ ": false}]}}".

(** A decoder given by the texts it decodes; any other text is
    refused with [refusal]. *)
Definition decoder (table : list (string * pyval)) (refusal : exc_class)
    (s : string) : result pyval :=
  match find (fun kv => String.eqb (fst kv) s) table with
  | Some kv => Return (snd kv)
  | None => Raise (Exc refusal)
  end.

(** [json.loads] and [ast.literal_eval] on the texts of the examples:
    the two JSON texts above, the Python literal, and texts that are
    neither ([""], ["internal failure"]). *)
Definition json_loads : string -> result pyval :=
  decoder [(attack_json, attack_payload); (quiet_json, quiet_payload)]
          JSONDecodeError.

Definition literal_eval : string -> result pyval :=
  decoder [(attack_literal, attack_payload)] SyntaxError.

Definition error_response (status : Z) (body : pyval) (raw : string)
  : response :=
  {| status_code := status; json := Return body; text := raw |}.

(** The legacy moderation response with one flagged category and its
    score, 0.93. *)
Definition score_093 : pyfloat := S754_finite false 8376695306909123 (-53).

Definition moderation (flagged : bool) : pyval :=
  obj [("results",
        PList [obj [("flagged", PBool flagged);
                    ("categories", obj [("hate", PBool true);
                                        ("violence", PBool false)]);
                    ("category_scores", obj [("hate", PFloat score_093);
                                             ("violence", PFloat (S754_zero false))])]])].

Definition legacy_body : pyval :=
  obj [("error", obj [("lakera_ai_response", moderation true)])].

(** A body whose [error.message] is the quiet payload and which also
    carries a flagged legacy response. *)
Definition quiet_and_legacy_body : pyval :=
  obj [("error", obj [("message", PStr quiet_json);
                      ("lakera_ai_response", moderation true)])].

(** A body in the direct form where nothing fired, with an [error]
    that the other two forms would read violations from. *)
Definition quiet_direct_body : pyval :=
  obj [(ProxyClient.GUARD_KEY, obj [("breakdown", PList [entry "pii/email" false])]);
       ("error", obj [("message", PStr attack_json);
                      ("lakera_ai_response", moderation true)])].

(** A body whose [breakdown] is [null]. *)
Definition null_breakdown_body : pyval :=
  obj [(ProxyClient.GUARD_KEY, obj [("breakdown", PNone)])].

(** The same, with an [error] that the other two forms would read
    violations from. *)
Definition null_breakdown_with_error : pyval :=
  obj [(ProxyClient.GUARD_KEY, obj [("breakdown", PNone)]);
       ("error", obj [("message", PStr attack_json);
                      ("lakera_ai_response", moderation true)])].

(** A body none of the forms matches, whose [error] is a mapping
    without a message, with its raw text. *)
Definition code_body : pyval := obj [("error", obj [("code", PInt 404)])].
Definition code_text : string :=
  "{" ++ quoted "error" ++ ": {" ++ quoted "code" ++ ": 404}}".

(** A gateway that answers every request with the same response. *)
Definition gateway (r : response)
    (url : string) (payload : pyval) (headers : list (string * string))
    (timeout : Z) : result response := Return r.

Definition session : ChatSession.t :=
  ChatSession.init (ProxyClient.init "http://localhost:4000/" "dummy-key")
                   "gpt-3.5-turbo" (Some ["lakera-guard"]).

(** A world in which every health check gets the same outcome, the
    files exist and the spawned process keeps running silently. *)
Definition steady (health : result response) : env unit :=
  fun X ev s =>
    match ev in event X return X * unit with
    | Get _ _ => (health, s)
    | Print _ => (tt, s)
    | PathExists _ => (true, s)
    | Popen _ => (1%nat, s)
    | Poll _ => (None, s)
    | ReadRest _ => ("", s)
    | ReadLine _ => (Return "", s)
    | Now => (0%Q, s)
    | Sleep _ => (tt, s)
    | StopSweep _ => (tt, s)
    end.

(** A world that answers the health checks from a script, one outcome
    per check, and with a refused connection once the script is used
    up; its clock advances by half a second per reading. *)
Definition scripted : env (list (result response) * Q) :=
  fun X ev s =>
    match ev in event X return X * (list (result response) * Q) with
    | Get _ _ =>
        match fst s with
        | [] => (Raise (Exc ConnectionError), s)
        | answer :: rest => (answer, (rest, snd s))
        end
    | Print _ => (tt, s)
    | PathExists _ => (true, s)
    | Popen _ => (1%nat, s)
    | Poll _ => (None, s)
    | ReadRest _ => ("", s)
    | ReadLine _ => (Return "", s)
    | Now => (snd s, (fst s, Qred (snd s + (1 # 2))%Q))
    | Sleep _ => (tt, s)
    | StopSweep _ => (tt, s)
    end.

Definition ok_response : response :=
  {| status_code := 200; json := Return (obj [("status", PStr "healthy")]);
     text := "" |}.

Definition manager : ProxyManager.t := ProxyManager.init "/srv/config.yaml" None.


End Examples.

(* ================================================================== *)
(** * [src/cli.py] *)
(* ================================================================== *)

Module Cli.

Local Open Scope prog_scope.

(** The parsed arguments of [proxy ...]; an option left out is [None]. *)
Record proxy_args : Type := {
  proxy_action : option string;
  config : option string
}.

(** [x or default] for an optional [str]. *)
Definition or_default (x : option string) (default : string) : string :=
  match x with
  | Some (String _ _ as s) => s
  | _ => default
  end.

(** Line 126: the guardrails [chat_command] hands to [ChatSession]. *)
Definition session_guardrails (no_guardrails : bool) : list string :=
  if negb no_guardrails then ["lakera-guard"] else [].

Fixpoint print_missing (missing : list string) : prog unit :=
  match missing with
  | [] => Ret tt
  | var :: rest => trigger (Print ("  - " ++ var)) ;;; print_missing rest
  end.

Section Process.

(** [os.getenv], [Path(p).absolute()] as a text, and
    [sys.executable]. *)
Variable getenv : string -> option string.
Variable absolute : string -> string.
Variable sys_executable : string.

(** [not os.getenv(var)]. *)
Definition unset (var : string) : bool :=
  match getenv var with
  | Some (String _ _) => false
  | _ => true
  end.

Definition check_env_vars : prog bool :=
  let required_vars := ["OPENAI_API_KEY"; "LAKERA_API_KEY"] in
  let missing := filter unset required_vars in
  match missing with
  | [] => Ret true
  | _ =>
      trigger (Print "Error: Missing required environment variables:") ;;;
      print_missing missing ;;;
      trigger (Print (Text.nl ++ "Please set these in your .env file or environment.")) ;;;
      trigger (Print "See .env.example for reference.") ;;;
      Ret false
  end.

(** Lines 53 to 59: the manager the two commands build. *)
Definition make_manager (config : option string) : prog ProxyManager.t :=
  let config_path := or_default config "config.yaml" in
  here <- trigger (PathExists "litellm") ;;
  Ret (ProxyManager.init (absolute config_path)
                         (if here : bool then Some "litellm" else None)).

(** [proxy_command]: the exit code, or [None] when the waiting loop of
    [start] needs more than [fuel] rounds. *)
Definition proxy_command (fuel : nat) (args : proxy_args)
  : prog (option Z) :=
  proxy_manager <- make_manager (config args) ;;
  match proxy_action args with
  | Some "restart" =>
      trigger (Print "Restarting LiteLLM proxy server...") ;;;
      proxy_manager <- ProxyManager.stop proxy_manager ;;
      trigger (Sleep 1) ;;;
      started <- ProxyManager.start sys_executable fuel proxy_manager true 30 ;;
      match started with
      | None => Ret None
      | Some (proxy_manager, true) =>
          trigger (Print "✓ Proxy restarted successfully") ;;;
          trigger (Print ("  Using config: "
                          ++ ProxyManager.config_path proxy_manager)) ;;;
          Ret (Some 0)
      | Some (_, false) =>
          trigger (Print "✗ Failed to restart proxy") ;;;
          Ret (Some 1)
      end
  | Some "stop" =>
      running <- ProxyManager.is_running ;;
      if running : bool then
        ProxyManager.stop proxy_manager ;;;
        Ret (Some 0)
      else
        trigger (Print "Proxy is not running") ;;;
        Ret (Some 0)
  | Some "status" =>
      running <- ProxyManager.is_running ;;
      if running : bool then
        trigger (Print ("✓ Proxy is running at " ++ ProxyManager.PROXY_URL)) ;;;
        Ret (Some 0)
      else
        trigger (Print "✗ Proxy is not running") ;;;
        Ret (Some 1)
  | _ =>
      trigger (Print "Unknown proxy action. Use: restart, stop, or status") ;;;
      Ret (Some 1)
  end.

End Process.

End Cli.

(* ================================================================== *)
(** * More vocabulary *)
(* ================================================================== *)

(** The runs a program can have, whatever the world answers: the events
    in their order and the outcome. *)
Fixpoint exec {A : Type} (p : prog A) (calls : list call) (r : result A)
  : Prop :=
  match p with
  | Ret a => calls = [] /\ r = Return a
  | Throw e => calls = [] /\ r = Raise e
  | Vis ev k =>
      exists x rest, calls = Called ev :: rest /\ exec (k x) rest r
  end.

(** Every run of [p] satisfies [Q]. *)
Definition post {A : Type} (Q : list call -> result A -> Prop) (p : prog A)
  : Prop :=
  forall calls r, exec p calls r -> Q calls r.

Definition spawns (calls : list call) : nat :=
  List.length (filter is_spawn calls).

Definition is_stop (c : call) : bool :=
  match c with
  | Called (StopSweep _) => true
  | _ => false
  end.

Definition stops (calls : list call) : nat :=
  List.length (filter is_stop calls).

Definition is_get (c : call) : bool :=
  match c with
  | Called (Get _ _) => true
  | _ => false
  end.

Definition gets (calls : list call) : nat :=
  List.length (filter is_get calls).

(** Calls that neither spawn nor stop nor check the health. *)
Definition quiet (calls : list call) : Prop :=
  spawns calls = 0%nat /\ stops calls = 0%nat /\ gets calls = 0%nat.

Definition is_print (c : call) : bool :=
  match c with
  | Called (Print _) => true
  | _ => false
  end.

(** The outcome raises nothing but an exception of a library class. *)
Definition library_failure {A : Type} (r : result A) : Prop :=
  match r with
  | Return _ => True
  | Raise e => exists c, e = Exc c
  end.

(** A decoder that raises nothing but exceptions of library classes. *)
Definition library_decoder (decode : string -> result pyval) : Prop :=
  forall s, library_failure (decode s).

(** The types the loop over a [breakdown] of mappings reports: an entry
    counts when its [detected] is true in the sense of [if], and one
    without a [detector_type] is reported as ["unknown"]. *)
Definition reported_types (entries : list (list (pyval * pyval)))
  : list pyval :=
  flat_map
    (fun kvs =>
       match Py.lookup kvs "detected" with
       | Some d =>
           if Py.truthy d
           then [match Py.lookup kvs "detector_type" with
                 | Some t => t
                 | None => PStr "unknown"
                 end]
           else []
       | None => []
       end) entries.

(** The body carries the text [s] as its error: [error] is that text,
    or a mapping whose [message] is that text and which holds no legacy
    response. *)
Definition error_text (d : list (pyval * pyval)) (s : string) : Prop :=
  Py.lookup d "error" = Some (PStr s) \/
  exists eo,
    Py.lookup d "error" = Some (PDict eo) /\
    Py.lookup eo "message" = Some (PStr s) /\
    Py.lookup eo "lakera_ai_response" = None.

(** Whether the character [u] is the ASCII character [x]. *)
Definition is_char (x : ascii) (u : Text.uchar) : bool :=
  match u with
  | Text.Cp n => n =? Text.byte x
  | Text.Stray b => Ascii.eqb x b
  end.

(** No entry of the table yields the code point [x]. *)
Definition avoids (x : Z) (runs : list (Z * Z * Z * Z))
    (special : list (Z * list Z)) : bool :=
  (forallb (fun run => match run with
                       | (first, last, _, delta) =>
                           negb ((first <=? x - delta) && (x - delta <=? last))
                       end) runs
   && forallb (fun e => negb (existsb (Z.eqb x) (snd e))) special)%bool.

(** An entry of a breakdown in which nothing is detected: a mapping
    without [detected], or with one that is not true. *)
Definition quiet_entry (e : pyval) : bool :=
  match e with
  | PDict kvs =>
      match Py.lookup kvs "detected" with
      | Some flag => negb (Py.truthy flag)
      | None => true
      end
  | _ => false
  end.

(** A guardrail response in which nothing is detected: it has no
    breakdown, or its breakdown is a sequence of such entries. *)
Definition nothing_detected (lr : list (pyval * pyval)) : bool :=
  match Py.lookup lr "breakdown" with
  | None => true
  | Some (PList entries) | Some (PTuple entries) =>
      forallb quiet_entry entries
  | Some _ => false
  end.

(** The variable is set, to a text that is not empty. *)
Definition is_set (getenv : string -> option string) (var : string) : bool :=
  match getenv var with
  | Some value => negb (String.eqb value "")
  | None => false
  end.

(** The turns of a history with the role [system]. *)
Definition system_turns (ms : list pyval) : nat :=
  List.length (filter (ChatSession.has_role "system") ms).

(** A history of mappings, as [add_message] builds it. *)
Definition mappings (ms : list pyval) : bool :=
  forallb Py.isinstance_dict ms.

(** No key of [kwargs] is one of the named parameters of
    [chat_completion]. *)
Definition free_keywords (kwargs : list (string * pyval)) : Prop :=
  forall k, In k (map fst kwargs) ->
            ~ In k ["model"; "messages"; "guardrails"; "stream"].

(** The request [chat] sends for a session whose history already holds
    the user turn. *)
Definition chat_request
    (requests_post :
       string -> pyval -> list (string * string) -> Z -> result response)
    (sent : ChatSession.t) : result response :=
  requests_post
    (ProxyClient.chat_endpoint (ChatSession.client sent))
    (ProxyClient.build_payload (ChatSession.model sent)
       (ChatSession.messages sent) (Some (ChatSession.guardrails sent))
       false [])
    [ ("Content-Type", "application/json");
      ("Authorization",
       "Bearer " ++ ProxyClient.api_key (ChatSession.client sent)) ]
    60.

Module Cases.

(** An environment in which nothing is running and nothing exists. *)
Definition down : env unit :=
  fun X ev s =>
    match ev in event X return X * unit with
    | Get _ _ => (Raise (Exc ConnectionError), s)
    | Print _ => (tt, s)
    | PathExists _ => (false, s)
    | Popen _ => (7%nat, s)
    | Poll _ => (None, s)
    | ReadRest _ => ("", s)
    | ReadLine _ => (Return "", s)
    | Now => (0%Q, s)
    | Sleep _ => (tt, s)
    | StopSweep _ => (tt, s)
    end.

(** Nothing is running, the files exist. *)
Definition idle : env unit :=
  fun X ev s =>
    match ev in event X return X * unit with
    | Get _ _ => (Raise (Exc ConnectionError), s)
    | Print _ => (tt, s)
    | PathExists _ => (true, s)
    | Popen _ => (7%nat, s)
    | Poll _ => (None, s)
    | ReadRest _ => ("", s)
    | ReadLine _ => (Return "", s)
    | Now => (0%Q, s)
    | Sleep _ => (tt, s)
    | StopSweep _ => (tt, s)
    end.

Definition answer (content : string) : response :=
  {| status_code := 200;
     json := Return (obj [("choices",
                           PList [obj [("message",
                                        obj [("role", PStr "assistant");
                                             ("content", PStr content)])]])]);
     text := "" |}.

Definition no_choices : response :=
  {| status_code := 200; json := Return (obj [("choices", PList [])]);
     text := "" |}.

Definition html_error : response :=
  {| status_code := 502; json := Raise (Exc RequestsJSONDecodeError);
     text := "<html>Bad Gateway</html>" |}.

Definition only_openai (var : string) : option string :=
  if String.eqb var "OPENAI_API_KEY" then Some "sk-test" else None.

Definition both_keys (var : string) : option string :=
  if String.eqb var "OPENAI_API_KEY" then Some "sk-test"
  else if String.eqb var "LAKERA_API_KEY" then Some "lk-test"
  else None.

End Cases.

(* ================================================================== *)
(** * Facts about text *)
(* ================================================================== *)

Lemma append_assoc (a b c : string) : (a ++ b) ++ c = a ++ b ++ c.
Proof. induction a as [|x a IH]; simpl; [reflexivity | now rewrite IH]. Qed.

Lemma append_empty_r (a : string) : a ++ "" = a.
Proof. induction a as [|x a IH]; simpl; [reflexivity | now rewrite IH]. Qed.

Lemma prefix_spec (a s : string) :
  prefix a s = true <-> exists rest, s = a ++ rest.
Proof.
  revert s; induction a as [|x a IH]; intros s.
  - destruct s; simpl; split; eauto.
  - destruct s as [|y s]; simpl.
    + split; [discriminate | intros [rest H]; discriminate].
    + destruct (ascii_dec x y) as [->|Hne].
      * rewrite IH. split; intros [rest H]; exists rest.
        -- now rewrite H.
        -- now injection H.
      * split; [discriminate | intros [rest H]; injection H; congruence].
Qed.

Lemma is_infix_nil (sub : string) :
  Text.is_infix sub "" = (prefix sub "" || false)%bool.
Proof. reflexivity. Qed.

Lemma is_infix_cons (sub : string) (c : ascii) (s : string) :
  Text.is_infix sub (String c s) =
  (prefix sub (String c s) || Text.is_infix sub s)%bool.
Proof. reflexivity. Qed.

Lemma is_infix_spec (sub s : string) :
  Text.is_infix sub s = true <-> Text.contains s sub.
Proof.
  unfold Text.contains. induction s as [|c s IH].
  - rewrite is_infix_nil, orb_false_r, prefix_spec. split.
    + intros [rest H]. now exists "", rest.
    + intros [before [after H]]. destruct before; [now exists after | discriminate].
  - rewrite is_infix_cons, orb_true_iff, prefix_spec, IH. split.
    + intros [[rest H] | [before [after H]]].
      * now exists "", rest.
      * exists (String c before), after. simpl. now rewrite H.
    + intros [before [after H]]. destruct before as [|b before].
      * left. now exists after.
      * right. simpl in H. injection H as _ H. now exists before, after.
Qed.

Lemma contains_here (a sub b : string) : Text.contains (a ++ sub ++ b) sub.
Proof. now exists a, b. Qed.


Lemma contains_app_r (s b sub : string) :
  Text.contains s sub -> Text.contains (s ++ b) sub.
Proof.
  intros [before [after ->]]. exists before, (after ++ b).
  now rewrite !append_assoc.
Qed.

Lemma ends_with_app (a s suffix : string) :
  Text.ends_with s suffix -> Text.ends_with (a ++ s) suffix.
Proof.
  intros [before ->]. exists (a ++ before). now rewrite append_assoc.
Qed.

(* ================================================================== *)
(** * Facts about [client.py]: the parser of the error body *)
(* ================================================================== *)

Lemma lookup_key_present (d : list (pyval * pyval)) (key : string) (v : pyval) :
  Py.lookup d key = Some v ->
  existsb (fun kv => Py.eq_str (fst kv) key) d = true.
Proof.
  unfold Py.lookup.
  destruct (find (fun kv => Py.eq_str (fst kv) key) d) as [kv|] eqn:F;
    [intros _ | discriminate].
  apply find_some in F. apply existsb_exists. now exists kv.
Qed.

Lemma get_present (d : list (pyval * pyval)) (key : string) (v default : pyval) :
  Py.lookup d key = Some v -> Py.get (PDict d) key default = Return v.
Proof. intros H. simpl. now rewrite H. Qed.

Section Parser.

Variables json_loads literal_eval : string -> result pyval.

Let scan := ProxyClient.scan_breakdown.
Let find_violations := ProxyClient.find_violations json_loads literal_eval.
Let handle_response := ProxyClient.handle_response json_loads literal_eval.

(** The loop adds the detected types to what it starts from, entry by
    entry. *)
Lemma scan_breakdown_entries (entries acc : list pyval) :
  forallb is_entry entries = true ->
  scan acc entries = Return (acc ++ detected_types entries)%list.
Proof.
  revert acc. induction entries as [|e entries IH]; intros acc Hall; simpl.
  - now rewrite app_nil_r.
  - simpl in Hall. apply andb_true_iff in Hall as [He Hrest].
    destruct e as [| | | | | | |kvs]; try discriminate.
    unfold is_entry in He. simpl.
    destruct (Py.lookup kvs "detector_type") as [t|] eqn:Ht; [|discriminate].
    destruct (Py.lookup kvs "detected") as [[| b | | | | | |]|] eqn:Hd;
      try discriminate.
    destruct b; simpl.
    + unfold scan in IH. rewrite IH by assumption. now rewrite <- app_assoc.
    + unfold scan in IH. now rewrite IH.
Qed.

Lemma read_guard_response_entries (d lr : list (pyval * pyval))
    (entries : list pyval) :
  Py.lookup d ProxyClient.GUARD_KEY = Some (PDict lr) ->
  Py.lookup lr "breakdown" = Some (PList entries) ->
  forallb is_entry entries = true ->
  ProxyClient.read_guard_response (PDict d) [] =
    Return (detected_types entries, PDict lr).
Proof.
  intros Hd Hlr Hall. unfold ProxyClient.read_guard_response.
  rewrite (get_present _ _ _ Hd). simpl bind.
  rewrite Hlr. simpl bind.
  fold scan. now rewrite scan_breakdown_entries.
Qed.

Lemma direct_breakdown_inv (body : pyval) (entries : list pyval) :
  direct_breakdown body = Some entries ->
  exists d lr,
    body = PDict d /\
    Py.lookup d ProxyClient.GUARD_KEY = Some (PDict lr) /\
    Py.lookup lr "breakdown" = Some (PList entries) /\
    forallb is_entry entries = true.
Proof.
  unfold direct_breakdown. intros H.
  destruct body as [| | | | | | |d]; try discriminate.
  destruct (Py.lookup d ProxyClient.GUARD_KEY) as [[| | | | | | |lr]|] eqn:Hd;
    try discriminate.
  destruct (Py.lookup lr "breakdown") as [[| | | | |es| |]|] eqn:Hlr;
    try discriminate.
  destruct (forallb is_entry es) eqn:Hall; [|discriminate].
  injection H as <-. now exists d, lr.
Qed.

Lemma find_violations_direct (d lr : list (pyval * pyval))
    (entries : list pyval) :
  Py.lookup d ProxyClient.GUARD_KEY = Some (PDict lr) ->
  Py.lookup lr "breakdown" = Some (PList entries) ->
  forallb is_entry entries = true ->
  find_violations (PDict d) =
    Return {| ProxyClient.found := detected_types entries;
              ProxyClient.lakera := PDict lr;
              ProxyClient.scores := None |}.
Proof.
  intros Hd Hlr Hall.
  unfold find_violations, ProxyClient.find_violations.
  simpl Py.contains. rewrite (lookup_key_present _ _ Hd). simpl bind.
  now rewrite (read_guard_response_entries _ Hd Hlr Hall).
Qed.

(** C1. For a body in the direct form, the parser finds exactly the
    [detector_type] values of the entries whose [detected] is true, in
    the order of the [breakdown]; when there is one at least,
    [chat_completion] raises the guardrail violation that carries
    them. *)
Theorem direct_form_extracts_detected_types
    (r : response) (body : pyval) (entries : list pyval) :
  status_code r <> 200 ->
  json r = Return body ->
  direct_breakdown body = Some entries ->
  (exists lr,
      find_violations body =
        Return {| ProxyClient.found := detected_types entries;
                  ProxyClient.lakera := lr;
                  ProxyClient.scores := None |}) /\
  (detected_types entries <> [] ->
   exists g,
     handle_response r = Raise (ExcGuardrailViolation g) /\
     violations g = detected_types entries).
Proof.
  intros Hstatus Hjson Hdirect.
  destruct (direct_breakdown_inv _ Hdirect) as (d & lr & -> & Hd & Hlr & Hall).
  pose proof (find_violations_direct _ Hd Hlr Hall) as Hfind.
  split; [now exists (PDict lr)|].
  intros Hsome.
  unfold handle_response, ProxyClient.handle_response.
  apply Z.eqb_neq in Hstatus. rewrite Hstatus. simpl negb. cbv iota.
  unfold ProxyClient.raise_for_error. rewrite Hjson. simpl bind.
  fold find_violations. rewrite Hfind. simpl bind. simpl ProxyClient.found.
  destruct (detected_types entries) as [|v vs] eqn:Hv; [congruence|].
  simpl. eexists. split; reflexivity.
Qed.

Lemma generic_detail_of (d : list (pyval * pyval)) :
  ProxyClient.generic_detail (PDict d) = Return (detail_of d).
Proof.
  unfold ProxyClient.generic_detail, detail_of, error_detail.
  cbn [Py.get].
  destruct (Py.lookup d "error") as [v|]; cbn [bind].
  - destruct v as [| | | | s | | |e]; try reflexivity.
    cbn [Py.get]. now destruct (Py.lookup e "message").
  - reflexivity.
Qed.

(** What [chat_completion] does with a response that is not a 200
    once the parser has finished. *)
Lemma handle_response_parsed (r : response) (body : pyval)
    (p : ProxyClient.parsed) :
  status_code r <> 200 ->
  json r = Return body ->
  find_violations body = Return p ->
  handle_response r =
    match ProxyClient.found p with
    | _ :: _ =>
        Raise (ExcGuardrailViolation
                 (GuardrailViolation.init
                    "LiteLLM has flagged this message due to policy violations"
                    (Some (ProxyClient.found p)) None None
                    (ProxyClient.lakera p)))
    | [] =>
        match body with
        | PDict d =>
            Raise (ExcAPIError
                     (ProxyClient.api_error_text (status_code r) (detail_of d)))
        | _ =>
            Raise (ExcAPIError
                     (ProxyClient.api_error_text (status_code r) (text r)))
        end
    end.
Proof.
  intros Hstatus Hjson Hfind.
  unfold handle_response, ProxyClient.handle_response.
  apply Z.eqb_neq in Hstatus. rewrite Hstatus. simpl negb. cbv iota.
  unfold ProxyClient.raise_for_error. rewrite Hjson. simpl bind.
  fold find_violations. rewrite Hfind. simpl bind.
  destruct (ProxyClient.found p) as [|v vs]; [|reflexivity].
  destruct body; try reflexivity.
  now rewrite generic_detail_of.
Qed.

Lemma handle_response_parse_failure (r : response) (body : pyval) (e : exc) :
  status_code r <> 200 ->
  json r = Return body ->
  find_violations body = Raise e ->
  handle_response r =
    if caught_by [GuardrailViolationError] e then Raise e
    else if caught_by [JSONDecodeError; KeyError; AttributeError] e
    then Raise (ExcAPIError
                  (ProxyClient.api_error_text (status_code r) (text r)))
    else Raise e.
Proof.
  intros Hstatus Hjson Hfind.
  unfold handle_response, ProxyClient.handle_response.
  apply Z.eqb_neq in Hstatus. rewrite Hstatus. simpl negb. cbv iota.
  unfold ProxyClient.raise_for_error. rewrite Hjson. simpl bind.
  fold find_violations. rewrite Hfind. reflexivity.
Qed.

End Parser.

(** C2 fails on the code: [for detector in breakdown] with a [null]
    breakdown raises [TypeError], which no [except] clause of
    [chat_completion] catches, so the outcome is neither of the two
    errors of [client.py]. *)
Theorem null_breakdown_escapes
    (json_loads literal_eval : string -> result pyval) (raw : string) :
  let r := Examples.error_response 400 Examples.null_breakdown_body raw in
  ProxyClient.handle_response json_loads literal_eval r = Raise (Exc TypeError)
  /\ is_api_error (ProxyClient.handle_response json_loads literal_eval r)
     = false.
Proof. split; reflexivity. Qed.

Lemma lookup_key_absent (d : list (pyval * pyval)) (key : string) :
  Py.lookup d key = None ->
  existsb (fun kv => Py.eq_str (fst kv) key) d = false.
Proof.
  unfold Py.lookup.
  destruct (find (fun kv => Py.eq_str (fst kv) key) d) as [kv|] eqn:F;
    [discriminate | intros _].
  apply not_true_is_false. intros H. apply existsb_exists in H as [kv [Hin Hk]].
  pose proof (find_none _ _ F _ Hin) as Hn. simpl in Hn. congruence.
Qed.

Lemma get_absent (d : list (pyval * pyval)) (key : string) (default : pyval) :
  Py.lookup d key = None -> Py.get (PDict d) key default = Return default.
Proof. intros H. simpl. now rewrite H. Qed.

Section NestedForm.

Variables json_loads literal_eval : string -> result pyval.

Let find_violations := ProxyClient.find_violations json_loads literal_eval.
Let decode_message := ProxyClient.decode_message json_loads literal_eval.

(** Both ways of decoding end in the same [parsed_error]. *)
Lemma decode_message_decodes (msg : string) (payload : pyval) :
  decodes_to json_loads literal_eval msg payload ->
  decode_message msg = Return payload.
Proof.
  unfold decode_message, ProxyClient.decode_message, try_except.
  intros [Hjson | (e & Hjson & Hcaught & Hliteral)]; rewrite Hjson.
  - reflexivity.
  - cbn [handle]. rewrite Hcaught, Hliteral. reflexivity.
Qed.

(** What the parser does with a body whose [error.message] decodes to
    a payload in the direct form: the detected types of the payload
    when there are some, and format 3 on the [error] mapping when
    there are none. *)
Lemma nested_form_result (d eo : list (pyval * pyval)) (msg : string)
    (payload : pyval) (entries : list pyval) :
  Py.lookup d ProxyClient.GUARD_KEY = None ->
  Py.lookup d "error" = Some (PDict eo) ->
  Py.lookup eo "message" = Some (PStr msg) ->
  decode_message msg = Return payload ->
  direct_breakdown payload = Some entries ->
  exists lr,
    find_violations payload =
      Return {| ProxyClient.found := detected_types entries;
                ProxyClient.lakera := lr; ProxyClient.scores := None |} /\
    find_violations (PDict d) =
      match detected_types entries with
      | _ :: _ =>
          Return {| ProxyClient.found := detected_types entries;
                    ProxyClient.lakera := lr; ProxyClient.scores := None |}
      | [] =>
          lakera_response <-
            Py.get (PDict eo) "lakera_ai_response" (PDict []) ;;
          ProxyClient.read_ai_response lakera_response
      end.
Proof.
  intros Hnokey Herror Hmsg Hdecode Hdirect.
  destruct (direct_breakdown_inv _ Hdirect) as (pd & lr & -> & Hd & Hlr & Hall).
  exists (PDict lr). split.
  - exact (find_violations_direct json_loads literal_eval _ Hd Hlr Hall).
  - unfold find_violations, ProxyClient.find_violations.
    simpl Py.contains. rewrite (lookup_key_absent _ _ Hnokey).
    rewrite (lookup_key_present _ _ Herror). simpl bind.
    rewrite Herror. simpl bind. rewrite Hmsg. simpl bind.
    fold decode_message. rewrite Hdecode. simpl bind.
    assert (Htruthy : negb (Nat.eqb (List.length pd) 0) = true).
    { destruct pd; [discriminate | reflexivity]. }
    rewrite Htruthy. simpl andb. cbv iota.
    rewrite (lookup_key_present _ _ Hd). simpl bind.
    rewrite (read_guard_response_entries _ Hd Hlr Hall). simpl bind.
    destruct (detected_types entries); reflexivity.
Qed.

(** C3, as the code has it. For a body without the top-level key whose
    [error.message] is a serialized payload in the direct form,
    decoded as JSON or as a literal that JSON decoding refused, the
    parser finds the violations that the direct-form extraction finds
    in the decoded payload, provided that list is not empty or the
    [error] mapping holds no [lakera_ai_response]. *)
Theorem nested_form_agrees_with_direct_form
    (d eo : list (pyval * pyval)) (msg : string)
    (payload : pyval) (entries : list pyval) :
  Py.lookup d ProxyClient.GUARD_KEY = None ->
  Py.lookup d "error" = Some (PDict eo) ->
  Py.lookup eo "message" = Some (PStr msg) ->
  decodes_to json_loads literal_eval msg payload ->
  direct_breakdown payload = Some entries ->
  detected_types entries <> [] \/
    Py.lookup eo "lakera_ai_response" = None ->
  exists p q,
    find_violations (PDict d) = Return p /\
    find_violations payload = Return q /\
    ProxyClient.found p = ProxyClient.found q /\
    ProxyClient.found q = detected_types entries.
Proof.
  intros Hnokey Herror Hmsg Hdecodes Hdirect Hside.
  apply decode_message_decodes in Hdecodes.
  destruct (nested_form_result _ Hnokey Herror Hmsg Hdecodes Hdirect)
    as (lr & Hq & Hp).
  destruct (detected_types entries) as [|v vs] eqn:Hv.
  - destruct Hside as [Hne | Hnone]; [congruence|].
    rewrite (get_absent _ _ _ Hnone) in Hp.
    exists {| ProxyClient.found := []; ProxyClient.lakera := PDict [];
              ProxyClient.scores := None |},
           {| ProxyClient.found := []; ProxyClient.lakera := lr;
              ProxyClient.scores := None |}.
    split; [exact Hp|]. split; [exact Hq|]. split; reflexivity.
  - exists {| ProxyClient.found := v :: vs; ProxyClient.lakera := lr;
              ProxyClient.scores := None |},
           {| ProxyClient.found := v :: vs; ProxyClient.lakera := lr;
              ProxyClient.scores := None |}.
    split; [exact Hp|]. split; [exact Hq|]. split; reflexivity.
Qed.

(** The two encodings of one payload are parsed alike, whatever else
    the [error] mapping holds. *)
Lemma literal_path_equals_json_path
    (rest : list (pyval * pyval)) (text_json text_literal : string)
    (payload : pyval) (e : exc) :
  json_loads text_json = Return payload ->
  json_loads text_literal = Raise e ->
  caught_by [JSONDecodeError; TypeError] e = true ->
  literal_eval text_literal = Return payload ->
  find_violations
    (obj [("error", PDict ((PStr "message", PStr text_literal) :: rest))]) =
  find_violations
    (obj [("error", PDict ((PStr "message", PStr text_json) :: rest))]).
Proof.
  intros Hj Hl Hc He.
  unfold find_violations, ProxyClient.find_violations. simpl.
  unfold ProxyClient.decode_message, try_except.
  rewrite Hj, Hl. cbn [handle]. rewrite Hc, He. reflexivity.
Qed.

(** Format 3 on a flagged first result: the keys of [categories] whose
    value is true, with [category_scores] bound next to them. *)
Lemma legacy_form_collects_flagged
    (lr first cats : list (pyval * pyval)) (others : list pyval)
    (flag : pyval) :
  Py.lookup lr "results" = Some (PList (PDict first :: others)) ->
  Py.lookup first "flagged" = Some flag ->
  Py.truthy flag = true ->
  Py.lookup first "categories" = Some (PDict cats) ->
  ProxyClient.read_ai_response (PDict lr) =
    Return {| ProxyClient.found := GuardrailViolation.flagged_keys cats;
              ProxyClient.lakera := PDict lr;
              ProxyClient.scores :=
                Some match Py.lookup first "category_scores" with
                     | Some s => s
                     | None => PDict []
                     end |}.
Proof.
  intros Hres Hflag Htrue Hcats. unfold ProxyClient.read_ai_response.
  assert (Hlr : Py.truthy (PDict lr) = true).
  { destruct lr; [discriminate | reflexivity]. }
  rewrite Hlr. simpl Py.get. rewrite Hres. simpl. rewrite Hflag. simpl.
  rewrite Htrue, Hcats. simpl.
  now destruct (Py.lookup first "category_scores").
Qed.

End NestedForm.

(** C3, as the claim has it, fails. First body: [error.message] is a
    serialized payload in the direct form in which nothing was detected,
    the [error] mapping also holds a flagged legacy response, and the
    parser reports the legacy category where the direct-form extraction
    on the decoded payload reports nothing. Second body: the top-level
    key is there as well, so [error.message] is never decoded, and the
    parser reports nothing where the extraction on the decoded payload
    reports the attack. *)
Lemma nested_form_is_not_always_decisive :
  let find := ProxyClient.find_violations Examples.json_loads
                                          Examples.literal_eval in
  (decodes_to Examples.json_loads Examples.literal_eval
              Examples.quiet_json Examples.quiet_payload /\
   direct_breakdown Examples.quiet_payload
     = Some [Examples.entry "pii/email" false] /\
   (exists q, find Examples.quiet_payload = Return q /\
              ProxyClient.found q = []) /\
   (exists p, find Examples.quiet_and_legacy_body = Return p /\
              ProxyClient.found p = [PStr "hate"])) /\
  (decodes_to Examples.json_loads Examples.literal_eval
              Examples.attack_json Examples.attack_payload /\
   direct_breakdown Examples.attack_payload
     = Some [Examples.entry "prompt_attack" true] /\
   (exists q, find Examples.attack_payload = Return q /\
              ProxyClient.found q = [PStr "prompt_attack"]) /\
   (exists p, find Examples.quiet_direct_body = Return p /\
              ProxyClient.found p = [])).
Proof.
  cbv zeta. split; (split; [left; reflexivity|]);
    (split; [reflexivity|]); split; eexists; split; reflexivity.
Qed.

(** C10 fails on the code. A body with the top-level key whose
    breakdown is [null] has no detected entry, yet [chat_completion]
    raises no generic [APIError]: the loop over the breakdown raises
    [TypeError], which no [except] clause catches. The [error] field
    of the body plays no part in it. *)
Theorem quiet_null_breakdown_escapes
    (json_loads literal_eval : string -> result pyval) (raw : string) :
  let r := Examples.error_response 400 Examples.null_breakdown_with_error
                                   raw in
  Py.contains ProxyClient.GUARD_KEY Examples.null_breakdown_with_error
    = Return true /\
  ProxyClient.handle_response json_loads literal_eval r
    = Raise (Exc TypeError) /\
  is_api_error (ProxyClient.handle_response json_loads literal_eval r)
    = false.
Proof. repeat split. Qed.

(** C6 fails on the code: the legacy form binds [category_scores] to a
    local variable and raises the error without it, so the error's
    [category_scores] is empty and its text shows no confidence. *)
Theorem legacy_scores_are_dropped :
  let r := Examples.error_response 400 Examples.legacy_body "" in
  (exists p,
      ProxyClient.find_violations Examples.json_loads Examples.literal_eval
                                  Examples.legacy_body = Return p /\
      ProxyClient.found p = [PStr "hate"] /\
      ProxyClient.scores p =
        Some (obj [("hate", PFloat Examples.score_093);
                   ("violence", PFloat (S754_zero false))])) /\
  (exists g,
      ProxyClient.handle_response Examples.json_loads Examples.literal_eval r
        = Raise (ExcGuardrailViolation g) /\
      violations g = [PStr "hate"] /\
      category_scores g = [] /\
      GuardrailViolation.str g =
        Return ("LiteLLM has flagged this message due to policy violations"
                ++ GuardrailViolation.header
                ++ GuardrailViolation.bullet ++ "Hate"
                ++ GuardrailViolation.remediation)).
Proof.
  split.
  - eexists. repeat split.
  - eexists. repeat split.
Qed.

(* ================================================================== *)
(** * Facts about [client.py]: the rendered message *)
(* ================================================================== *)





Lemma lookup_float_scores (scores : list (pyval * pyval)) (code : string)
    (v : pyval) :
  float_scores scores = true ->
  Py.lookup scores code = Some v ->
  exists f, v = PFloat f.
Proof.
  unfold float_scores, Py.lookup. intros Hall.
  destruct (find (fun kv => Py.eq_str (fst kv) code) scores) as [kv|] eqn:F;
    [|discriminate].
  intros H. injection H as <-. apply find_some in F as [Hin _].
  rewrite forallb_forall in Hall. specialize (Hall _ Hin).
  destruct (snd kv); try discriminate. now eexists.
Qed.

Lemma table_name_find (table : list (string * string)) (code : string) :
  table_name table code =
    match find (fun kv => String.eqb (fst kv) code) table with
    | Some kv => Some (snd kv)
    | None => None
    end.
Proof.
  induction table as [|[known name] table IH]; [reflexivity|].
  cbn [table_name find fst snd]. now destruct (String.eqb known code).
Qed.

(** The look-up of the class finds what the table of display names
    holds. *)
Lemma known_name_table (code : string) :
  GuardrailViolation.known_name code = table_name DISPLAY_NAMES code.
Proof.
  unfold GuardrailViolation.known_name. now rewrite table_name_find.
Qed.

(** The two [replace] calls, one after the other, replace both
    separators. *)
Lemma replace_both_separators (code : string) :
  Text.replace_char "/" " - " (Text.replace_char "_" " " code)
  = separators_replaced code.
Proof.
  induction code as [|c code IH]; [reflexivity|].
  cbn [Text.replace_char separators_replaced].
  destruct (Ascii.eqb c "_") eqn:Hu.
  - cbn. now rewrite IH.
  - cbn [Text.replace_char]. rewrite IH.
    now destruct (Ascii.eqb c "/").
Qed.

Lemma format_violation_name_str (code : string) :
  GuardrailViolation._format_violation_name (PStr code)
  = Return (display_name code).
Proof.
  unfold GuardrailViolation._format_violation_name, display_name.
  rewrite known_name_table.
  destruct (table_name DISPLAY_NAMES code); [reflexivity|].
  unfold GuardrailViolation.unknown_name. now rewrite replace_both_separators.
Qed.

Lemma violation_text_line (scores : list (pyval * pyval)) (code : string) :
  float_scores scores = true ->
  GuardrailViolation.violation_text scores (PStr code)
  = Return (line_of scores code).
Proof.
  intros Hall. unfold GuardrailViolation.violation_text, line_of.
  rewrite format_violation_name_str. cbn [bind].
  unfold GuardrailViolation.bullet.
  destruct scores as [|kv scores];
    [now rewrite append_empty_r, !append_assoc|].
  destruct (Py.lookup (kv :: scores) code) as [v|] eqn:Hl;
    [|now rewrite append_empty_r, !append_assoc].
  destruct (lookup_float_scores _ _ Hall Hl) as [f ->].
  cbn [Fmt.percent1 bind]. now rewrite !append_assoc.
Qed.

Lemma add_violations_lines (scores : list (pyval * pyval))
    (codes : list string) (msg : string) :
  float_scores scores = true ->
  GuardrailViolation.add_violations scores msg (map PStr codes)
  = Return (msg ++ all_lines scores codes).
Proof.
  intros Hall. revert msg. induction codes as [|code codes IH]; intros msg.
  - simpl. now rewrite append_empty_r.
  - simpl map. simpl GuardrailViolation.add_violations.
    rewrite violation_text_line by assumption. cbn [bind].
    rewrite IH. cbn [all_lines]. now rewrite append_assoc.
Qed.





(* ================================================================== *)
(** * Facts about [chat.py] *)
(* ================================================================== *)

Lemma any_system_raises (ms : list pyval) (e : exc) :
  ChatSession.any_system ms = Raise e -> e = Exc AttributeError.
Proof.
  induction ms as [|m ms IH]; [discriminate|].
  cbn [ChatSession.any_system]. destruct m; cbn [Py.get bind];
    try (intros H; now injection H).
  destruct (Py.lookup entries "role") as [role|]; cbn [bind].
  - destruct (Py.eq_str role "system"); [discriminate | exact IH].
  - exact IH.
Qed.

(** What the first step of [chat] leaves in the history. *)
Lemma with_system_messages (self before : ChatSession.t)
    (system_message : option string) :
  ChatSession.with_system self system_message = Return before ->
  ChatSession.messages before = ChatSession.messages self \/
  exists s, system_message = Some s /\
            ChatSession.messages before =
              (ChatSession.messages self
                 ++ [ChatSession.turn "system" (PStr s)])%list.
Proof.
  unfold ChatSession.with_system.
  destruct system_message as [[|c s]|]; try (intros H; injection H as <-; now left).
  destruct (ChatSession.any_system (ChatSession.messages self)) as [[|]|e];
    cbn [bind]; intros H; try discriminate; injection H as <-.
  - now left.
  - right. now eexists.
Qed.

Lemma all_answered_with_system (ms : list pyval) (content : pyval) :
  ChatSession.all_answered ms = true ->
  ChatSession.all_answered (ms ++ [ChatSession.turn "system" content])%list
  = true.
Proof.
  induction ms as [|m ms IH]; [reflexivity|].
  cbn [ChatSession.all_answered app]. intros H.
  apply andb_true_iff in H as [Hm Hrest].
  rewrite (IH Hrest), andb_true_r.
  destruct (ChatSession.has_role "user" m); [|reflexivity].
  destruct ms; [discriminate | exact Hm].
Qed.

(** The handler undoes [add_message("user", ...)]. *)
Lemma on_violation_pops_user_turn (self : ChatSession.t)
    (user_message : string) (e : exc) :
  ChatSession.on_violation
    (ChatSession.add_message self "user" (PStr user_message)) e
  = (ChatSession.set_messages
       (ChatSession.add_message self "user" (PStr user_message))
       (ChatSession.messages self),
     Raise e).
Proof.
  unfold ChatSession.on_violation, ChatSession.add_message.
  cbn [ChatSession.messages ChatSession.set_messages].
  rewrite rev_app_distr. cbn [rev app]. now rewrite rev_involutive.
Qed.

Section Chat.

Variables json_loads literal_eval : string -> result pyval.
Variable requests_post :
  string -> pyval -> list (string * string) -> Z -> result response.

Let chat := ChatSession.chat json_loads literal_eval requests_post.

(** C5, as the code has it. When [chat] raises a guardrail violation,
    the user turn it had just appended is gone from the history: the
    history is the one before the call, with the system message when
    this call put it in; so a history in which every user turn was
    answered is still one. *)
Theorem violation_discards_the_user_turn
    (self after : ChatSession.t) (user_message : string)
    (system_message : option string) (g : guardrail_violation) :
  chat self user_message system_message
    = (after, Raise (ExcGuardrailViolation g)) ->
  exists before,
    ChatSession.with_system self system_message = Return before /\
    ChatSession.messages after = ChatSession.messages before /\
    (ChatSession.messages after = ChatSession.messages self \/
     exists s, system_message = Some s /\
               ChatSession.messages after =
                 (ChatSession.messages self
                    ++ [ChatSession.turn "system" (PStr s)])%list) /\
    (ChatSession.all_answered (ChatSession.messages self) = true ->
     ChatSession.all_answered (ChatSession.messages after) = true).
Proof.
  unfold chat, ChatSession.chat.
  destruct (ChatSession.with_system self system_message) as [before|e] eqn:Hw.
  - set (sent := ChatSession.add_message before "user" (PStr user_message)).
    destruct (bind _ _) as [answer|e] eqn:Htried; [discriminate|].
    destruct (caught_by [GuardrailViolationError] e) eqn:Hcaught.
    + unfold sent. rewrite on_violation_pops_user_turn.
      intros H. injection H as <- ->.
      cbn [ChatSession.messages ChatSession.set_messages].
      exists before. split; [reflexivity|]. split; [reflexivity|].
      pose proof (with_system_messages _ _ Hw) as Hm. split; [exact Hm|].
      intros Hall. destruct Hm as [-> | (s & _ & ->)]; [exact Hall|].
      now apply all_answered_with_system.
    + intros H. injection H as _ ->. discriminate.
  - intros H. injection H as _ ->.
    unfold ChatSession.with_system in Hw.
    destruct system_message as [[|c s]|]; try discriminate.
    destruct (ChatSession.any_system (ChatSession.messages self))
      as [b|e'] eqn:Hany; [discriminate|].
    apply any_system_raises in Hany. cbn [bind] in Hw. congruence.
Qed.

End Chat.

(** C5, as the claim has it, fails: a first call whose request ends in
    the generic error of a 500 leaves its user turn in the history, and
    the next call, which raises a guardrail violation, removes its own
    turn only; the history then holds a user turn that was never
    answered. *)
Lemma earlier_unanswered_turn_stays :
  let chat := ChatSession.chat Examples.json_loads Examples.literal_eval in
  let failing := Examples.gateway
                   (Examples.error_response 500
                      (obj [("error", PStr "internal failure")]) "") in
  let blocking := Examples.gateway
                    (Examples.error_response 400 Examples.direct_body "") in
  let first := chat failing Examples.session "hello" None in
  let second := chat blocking (fst first) "my e-mail is a@b.c" None in
  snd first = Raise (ExcAPIError "API error (500): internal failure") /\
  (exists g, snd second = Raise (ExcGuardrailViolation g)) /\
  ChatSession.messages (fst second) = [ChatSession.turn "user" (PStr "hello")] /\
  ChatSession.all_answered (ChatSession.messages (fst second)) = false.
Proof.
  cbv zeta. split; [reflexivity|]. split; [eexists; reflexivity|].
  split; reflexivity.
Qed.

(* ================================================================== *)
(** * Facts about [proxy_manager.py] and the two health checks *)
(* ================================================================== *)

(** Running one program after another. *)
Lemma run_pbind {S A B : Type} (h : env S) (p : prog A) (f : A -> prog B)
    (s : S) :
  run h (pbind p f) s =
    let '(calls, s1, r) := run h p s in
    match r with
    | Return a =>
        let '(calls', s2, r') := run h (f a) s1 in
        ((calls ++ calls')%list, s2, r')
    | Raise e => (calls, s1, Raise e)
    end.
Proof.
  revert s. induction p as [a|e|X ev k IH]; intros s; cbn [pbind run].
  - now destruct (run h (f a) s) as [[calls' s2] r'].
  - reflexivity.
  - destruct (h X ev s) as [x s1]. rewrite IH.
    destruct (run h (k x) s1) as [[calls s2] [a|e]]; [|reflexivity].
    now destruct (run h (f a) s2) as [[calls' s3] r'].
Qed.

(** A health check of the supervisor is one [GET], and what it makes of
    the answer. *)
Lemma run_is_running {S : Type} (h : env S) (s : S) :
  run h ProxyManager.is_running s =
    ([Called (Get ProxyManager.PROXY_HEALTH_ENDPOINT 2)],
     snd (h _ (Get ProxyManager.PROXY_HEALTH_ENDPOINT 2) s),
     try_except
       (response <- fst (h _ (Get ProxyManager.PROXY_HEALTH_ENDPOINT 2) s) ;;
        Return (status_code response =? 200))
       [ ([RequestException; Timeout], fun _ => Return false) ]).
Proof.
  unfold ProxyManager.is_running, trigger. cbn [pbind run].
  destruct (h _ (Get ProxyManager.PROXY_HEALTH_ENDPOINT 2) s) as [got s1].
  cbn [fst snd].
  now destruct (try_except _ _).
Qed.

(** C8. When the health check says the gateway is running, [start]
    returns [True] after that one check and the line it prints: no
    process is spawned and the manager is as it was, whatever
    [wait_for_ready], [timeout] and the rounds allowed to the waiting
    loop. *)
Theorem start_when_running_spawns_nothing {S : Type} (h : env S) (s s1 : S)
    (calls : list call) (sys_executable : string) (fuel : nat)
    (self : ProxyManager.t) (wait_for_ready : bool) (timeout : Z) :
  run h ProxyManager.is_running s = (calls, s1, Return true) ->
  exists s2,
    run h (ProxyManager.start sys_executable fuel self wait_for_ready timeout) s
    = ([Called (Get ProxyManager.PROXY_HEALTH_ENDPOINT 2);
        Called (Print "LiteLLM proxy is already running.")],
       s2, Return (Some (self, true))) /\
    existsb is_spawn
      (fst (fst (run h (ProxyManager.start sys_executable fuel self
                                           wait_for_ready timeout) s)))
    = false.
Proof.
  intros Hrunning. pose proof (run_is_running h s) as Hcheck.
  rewrite Hrunning in Hcheck. injection Hcheck as -> -> Htrue.
  exists (snd (h _ (Print "LiteLLM proxy is already running.")
                 (snd (h _ (Get ProxyManager.PROXY_HEALTH_ENDPOINT 2) s)))).
  assert (Hstart :
    run h (ProxyManager.start sys_executable fuel self wait_for_ready timeout) s
    = ([Called (Get ProxyManager.PROXY_HEALTH_ENDPOINT 2);
        Called (Print "LiteLLM proxy is already running.")],
       snd (h _ (Print "LiteLLM proxy is already running.")
              (snd (h _ (Get ProxyManager.PROXY_HEALTH_ENDPOINT 2) s))),
       Return (Some (self, true)))).
  { unfold ProxyManager.start. rewrite run_pbind, run_is_running, <- Htrue.
    unfold trigger. cbn [pbind run].
    now destruct (h _ (Print "LiteLLM proxy is already running.") _). }
  split; [exact Hstart | now rewrite Hstart].
Qed.

(** When the gateway does not answer and the settings file exists,
    [start] does spawn. *)
Lemma start_when_down_spawns :
  existsb is_spawn
    (fst (fst (run Examples.scripted
                 (ProxyManager.start "python3" 5 Examples.manager true 30)
                 ([Raise (Exc ConnectionError); Return Examples.ok_response],
                  0%Q))))
  = true.
Proof. reflexivity. Qed.

(** C9. Both health checks return a boolean whenever the [GET] answers
    or fails with a failure of [requests]: [True] exactly when it
    answers with status 200, so [False] on every such failure. *)
Theorem health_checks_return_booleans {S : Type}
    (requests_get : string -> Z -> result response) (self : ProxyClient.t)
    (h : env S) (s : S) :
  let got_client := requests_get (ProxyClient.base_url self ++ "/health") 2 in
  let got_manager := fst (h _ (Get ProxyManager.PROXY_HEALTH_ENDPOINT 2) s) in
  (network_outcome got_client ->
   exists b,
     ProxyClient.health_check requests_get self = Return b /\
     (b = true <->
      exists r, got_client = Return r /\ status_code r = 200)) /\
  (network_outcome got_manager ->
   exists b,
     snd (run h ProxyManager.is_running s) = Return b /\
     (b = true <->
      exists r, got_manager = Return r /\ status_code r = 200)).
Proof.
  cbv zeta. split.
  - unfold ProxyClient.health_check.
    destruct (requests_get _ 2) as [r|e]; cbn [network_outcome]; intros Hnet.
    + exists (status_code r =? 200). split; [reflexivity|].
      rewrite Z.eqb_eq. split.
      * intros H. now exists r.
      * intros (r' & Hr & H). now injection Hr as ->.
    + exists false. split.
      * cbn [bind try_except handle]. unfold caught_by. cbn [existsb].
        now rewrite Hnet.
      * split; [discriminate | intros (r & Hr & _); discriminate].
  - rewrite run_is_running. cbn [snd].
    destruct (fst (h _ (Get ProxyManager.PROXY_HEALTH_ENDPOINT 2) s))
      as [r|e]; cbn [network_outcome]; intros Hnet.
    + exists (status_code r =? 200). split; [reflexivity|].
      rewrite Z.eqb_eq. split.
      * intros H. now exists r.
      * intros (r' & Hr & H). now injection Hr as ->.
    + exists false. split.
      * cbn [bind try_except handle]. unfold caught_by. cbn [existsb].
        now rewrite Hnet.
      * split; [discriminate | intros (r & Hr & _); discriminate].
Qed.

(* ================================================================== *)
(** * The properties on the worked examples *)
(* ================================================================== *)

(** Status 400 with [pii/email] detected and [jailbreak] not: the
    violations are [["pii/email"]]. *)
Lemma direct_form_example :
  let r := Examples.error_response 400 Examples.direct_body "" in
  let entries := [Examples.entry "pii/email" true;
                  Examples.entry "jailbreak" false] in
  detected_types entries = [PStr "pii/email"] /\
  (exists lr,
      ProxyClient.find_violations Examples.json_loads Examples.literal_eval
                                  Examples.direct_body =
        Return {| ProxyClient.found := detected_types entries;
                  ProxyClient.lakera := lr;
                  ProxyClient.scores := None |}) /\
  (detected_types entries <> [] ->
   exists g,
     ProxyClient.handle_response Examples.json_loads Examples.literal_eval r
       = Raise (ExcGuardrailViolation g) /\
     violations g = detected_types entries).
Proof.
  cbv zeta. split; [reflexivity|].
  apply (@direct_form_extracts_detected_types
           Examples.json_loads Examples.literal_eval
           (Examples.error_response 400 Examples.direct_body "")
           Examples.direct_body).
  - simpl. lia.
  - reflexivity.
  - reflexivity.
Defined.

(** The nested payload, as JSON and as a literal: [["prompt_attack"]]
    both times. *)
Lemma nested_form_example :
  let find := ProxyClient.find_violations Examples.json_loads
                                          Examples.literal_eval in
  let entries := [Examples.entry "prompt_attack" true] in
  (exists p q,
      find (obj [("error", obj [("message", PStr Examples.attack_json)])])
        = Return p /\
      find Examples.attack_payload = Return q /\
      ProxyClient.found p = ProxyClient.found q /\
      ProxyClient.found q = detected_types entries) /\
  (exists p q,
      find (obj [("error", obj [("message", PStr Examples.attack_literal)])])
        = Return p /\
      find Examples.attack_payload = Return q /\
      ProxyClient.found p = ProxyClient.found q /\
      ProxyClient.found q = detected_types entries).
Proof.
  cbv zeta. split.
  - apply (@nested_form_agrees_with_direct_form
             Examples.json_loads Examples.literal_eval
             [(PStr "error", obj [("message", PStr Examples.attack_json)])]
             [(PStr "message", PStr Examples.attack_json)]
             Examples.attack_json Examples.attack_payload).
    + reflexivity.
    + reflexivity.
    + reflexivity.
    + left. reflexivity.
    + reflexivity.
    + left. simpl. discriminate.
  - apply (@nested_form_agrees_with_direct_form
             Examples.json_loads Examples.literal_eval
             [(PStr "error", obj [("message", PStr Examples.attack_literal)])]
             [(PStr "message", PStr Examples.attack_literal)]
             Examples.attack_literal Examples.attack_payload).
    + reflexivity.
    + reflexivity.
    + reflexivity.
    + right. exists (Exc JSONDecodeError). repeat split.
    + reflexivity.
    + left. simpl. discriminate.
Defined.


(** A session whose gateway answers 400 with the direct form. *)
Lemma violation_discards_the_user_turn_example :
  let post := Examples.gateway
                (Examples.error_response 400 Examples.direct_body "") in
  let outcome :=
    ChatSession.chat Examples.json_loads Examples.literal_eval post
                     Examples.session "my e-mail is a@b.c" (Some "Be brief.") in
  is_api_error (snd outcome) = true /\
  exists before,
    ChatSession.with_system Examples.session (Some "Be brief.")
      = Return before /\
    ChatSession.messages (fst outcome) = ChatSession.messages before /\
    (ChatSession.messages (fst outcome)
       = ChatSession.messages Examples.session \/
     exists s, Some "Be brief." = Some s /\
               ChatSession.messages (fst outcome) =
                 (ChatSession.messages Examples.session
                    ++ [ChatSession.turn "system" (PStr s)])%list) /\
    (ChatSession.all_answered (ChatSession.messages Examples.session) = true ->
     ChatSession.all_answered (ChatSession.messages (fst outcome)) = true).
Proof.
  cbv zeta. split; [reflexivity|].
  eapply (@violation_discards_the_user_turn
            Examples.json_loads Examples.literal_eval
            (Examples.gateway
               (Examples.error_response 400 Examples.direct_body ""))
            Examples.session _ "my e-mail is a@b.c" (Some "Be brief.")).
  reflexivity.
Defined.

(** A world whose health check answers 200. *)
Lemma start_when_running_example :
  exists s2,
    run (Examples.steady (Return Examples.ok_response))
        (ProxyManager.start "python3" 0 Examples.manager true 30) tt
    = ([Called (Get ProxyManager.PROXY_HEALTH_ENDPOINT 2);
        Called (Print "LiteLLM proxy is already running.")],
       s2, Return (Some (Examples.manager, true))) /\
    existsb is_spawn
      (fst (fst (run (Examples.steady (Return Examples.ok_response))
                     (ProxyManager.start "python3" 0 Examples.manager true 30)
                     tt)))
    = false.
Proof.
  apply (@start_when_running_spawns_nothing unit
           (Examples.steady (Return Examples.ok_response)) tt tt
           [Called (Get ProxyManager.PROXY_HEALTH_ENDPOINT 2)]
           "python3" 0%nat Examples.manager true 30).
  reflexivity.
Defined.

(** A gateway that answers 200 to the client and times out on the
    supervisor. *)
Lemma health_checks_example :
  let client := ProxyClient.init "http://localhost:4000" "dummy-key" in
  let get := fun (_ : string) (_ : Z) => Return Examples.ok_response in
  let world := Examples.steady (Raise (Exc ReadTimeout)) in
  (exists b,
      ProxyClient.health_check get client = Return b /\
      (b = true <->
       exists r, Return Examples.ok_response = Return r /\ status_code r = 200))
  /\
  (exists b,
      snd (run world ProxyManager.is_running tt) = Return b /\
      (b = true <->
       exists r, Raise (Exc ReadTimeout) = Return r /\ status_code r = 200)).
Proof.
  cbv zeta.
  destruct (@health_checks_return_booleans unit
              (fun (_ : string) (_ : Z) => Return Examples.ok_response)
              (ProxyClient.init "http://localhost:4000" "dummy-key")
              (Examples.steady (Raise (Exc ReadTimeout))) tt)
    as [Hclient Hmanager].
  split.
  - apply Hclient. exact I.
  - apply Hmanager. reflexivity.
Defined.

(* ================================================================== *)
(** * More facts about [client.py] *)
(* ================================================================== *)

(** When [response.json()] raises, the error branch turns the failure
    into the generic error with the raw text if its class is caught by
    the last [except] clause, and lets it through otherwise. *)
Theorem undecodable_body_gives_raw_text
    (json_loads literal_eval : string -> result pyval)
    (r : response) (c : exc_class) :
  status_code r <> 200 ->
  json r = Raise (Exc c) ->
  ProxyClient.handle_response json_loads literal_eval r =
    if (issubclass c JSONDecodeError || issubclass c KeyError
        || issubclass c AttributeError)%bool
    then Raise (ExcAPIError
                  (ProxyClient.api_error_text (status_code r) (text r)))
    else Raise (Exc c).
Proof.
  intros Hstatus Hjson. unfold ProxyClient.handle_response.
  apply Z.eqb_neq in Hstatus. rewrite Hstatus. cbn [negb].
  unfold ProxyClient.raise_for_error. rewrite Hjson. cbn [bind try_except].
  destruct c; reflexivity.
Qed.

Lemma undecodable_body_example :
  ProxyClient.handle_response Examples.json_loads Examples.literal_eval
                              Cases.html_error =
    Raise (ExcAPIError "API error (502): <html>Bad Gateway</html>").
Proof.
  rewrite (@undecodable_body_gives_raw_text
             Examples.json_loads Examples.literal_eval Cases.html_error
             RequestsJSONDecodeError).
  - reflexivity.
  - simpl. lia.
  - reflexivity.
Defined.

Section Breakdown.

Variables json_loads literal_eval : string -> result pyval.

Let find_violations := ProxyClient.find_violations json_loads literal_eval.
Let handle_response := ProxyClient.handle_response json_loads literal_eval.

Lemma scan_breakdown_mappings (entries : list (list (pyval * pyval)))
    (acc : list pyval) :
  ProxyClient.scan_breakdown acc (map PDict entries)
  = Return (acc ++ reported_types entries)%list.
Proof.
  revert acc. induction entries as [|kvs entries IH]; intros acc.
  - cbn. now rewrite app_nil_r.
  - cbn [map ProxyClient.scan_breakdown Py.get reported_types flat_map].
    destruct (Py.lookup kvs "detected") as [d|]; cbn [bind Py.truthy].
    + destruct (Py.truthy d); cbn [bind].
      * destruct (Py.lookup kvs "detector_type") as [t|]; cbn [bind];
          rewrite IH; cbn [app]; now rewrite <- app_assoc.
      * now rewrite IH.
    + now rewrite IH.
Qed.

Lemma scan_breakdown_stops_at_other (pre : list (list (pyval * pyval)))
    (bad : pyval) (post acc : list pyval) :
  Py.isinstance_dict bad = false ->
  ProxyClient.scan_breakdown acc (map PDict pre ++ bad :: post)
  = Raise (Exc AttributeError).
Proof.
  intros Hbad. revert acc. induction pre as [|kvs pre IH]; intros acc.
  - cbn [map app ProxyClient.scan_breakdown].
    destruct bad; try reflexivity. discriminate.
  - cbn [map app ProxyClient.scan_breakdown Py.get].
    destruct (Py.lookup kvs "detected") as [d|]; cbn [bind Py.truthy].
    + destruct (Py.truthy d); cbn [bind]; [|apply IH].
      destruct (Py.lookup kvs "detector_type"); cbn [bind]; apply IH.
    + apply IH.
Qed.

(** The direct form on entries that are mappings of any kind: an entry
    without [detected] is passed over, [detected] counts when it is
    true in the sense of [if], and a detected entry without
    [detector_type] is reported as ["unknown"]. *)
Theorem direct_form_uses_defaults
    (d lr : list (pyval * pyval)) (entries : list (list (pyval * pyval))) :
  Py.lookup d ProxyClient.GUARD_KEY = Some (PDict lr) ->
  Py.lookup lr "breakdown" = Some (PList (map PDict entries)) ->
  find_violations (PDict d) =
    Return {| ProxyClient.found := reported_types entries;
              ProxyClient.lakera := PDict lr;
              ProxyClient.scores := None |}.
Proof.
  intros Hd Hlr. unfold find_violations, ProxyClient.find_violations.
  cbn [Py.contains]. rewrite (lookup_key_present _ _ Hd). cbn [bind].
  unfold ProxyClient.read_guard_response.
  rewrite (get_present _ _ _ Hd). cbn [bind].
  rewrite (get_present _ _ _ Hlr). cbn [bind Py.iter].
  now rewrite scan_breakdown_mappings.
Qed.

(** A breakdown with an entry that is not a mapping gives the generic
    error with the raw text, whatever was detected before that entry;
    a breakdown that is [null], a boolean or a number gives a
    [TypeError] that leaves [chat_completion]. *)
Theorem malformed_breakdown_outcomes
    (r : response) (d lr : list (pyval * pyval)) (breakdown : pyval) :
  status_code r <> 200 ->
  json r = Return (PDict d) ->
  Py.lookup d ProxyClient.GUARD_KEY = Some (PDict lr) ->
  Py.lookup lr "breakdown" = Some breakdown ->
  (forall pre bad post,
      breakdown = PList (map PDict pre ++ bad :: post) ->
      Py.isinstance_dict bad = false ->
      handle_response r =
        Raise (ExcAPIError
                 (ProxyClient.api_error_text (status_code r) (text r)))) /\
  (Py.iter breakdown = Raise (Exc TypeError) ->
   handle_response r = Raise (Exc TypeError)).
Proof.
  intros Hstatus Hjson Hd Hlr.
  assert (Hfind : forall e,
             (detectors <- Py.iter breakdown ;;
              ProxyClient.scan_breakdown [] detectors) = Raise e ->
             find_violations (PDict d) = Raise e).
  { intros e He. unfold find_violations, ProxyClient.find_violations.
    cbn [Py.contains]. rewrite (lookup_key_present _ _ Hd). cbn [bind].
    unfold ProxyClient.read_guard_response.
    rewrite (get_present _ _ _ Hd). cbn [bind].
    rewrite (get_present _ _ _ Hlr). cbn [bind].
    destruct (Py.iter breakdown) as [detectors|e']; cbn [bind] in *.
    - now rewrite He.
    - now injection He as ->. }
  split.
  - intros pre bad post -> Hbad. unfold handle_response.
    rewrite (handle_response_parse_failure json_loads literal_eval
               r Hstatus Hjson (e := Exc AttributeError)).
    + reflexivity.
    + apply Hfind. cbn [Py.iter bind].
      now apply scan_breakdown_stops_at_other.
  - intros Hiter. unfold handle_response.
    rewrite (handle_response_parse_failure json_loads literal_eval
               r Hstatus Hjson (e := Exc TypeError)).
    + reflexivity.
    + apply Hfind. now rewrite Hiter.
Qed.

End Breakdown.

Section ErrorField.

Variables json_loads literal_eval : string -> result pyval.

Let find_violations := ProxyClient.find_violations json_loads literal_eval.
Let handle_response := ProxyClient.handle_response json_loads literal_eval.
Let decode_message := ProxyClient.decode_message json_loads literal_eval.

(** Format 2 on a text that carries no payload finds nothing. *)
Lemma nested_text_finds_nothing (s : string) :
  no_payload json_loads literal_eval s ->
  (parsed_error <- decode_message s ;;
   if (Py.truthy parsed_error && Py.isinstance_dict parsed_error)%bool then
     nested <- Py.contains ProxyClient.GUARD_KEY parsed_error ;;
     if nested : bool then ProxyClient.read_guard_response parsed_error []
     else Return ([], PNone)
   else Return ([], PNone))
  = Return ([], PNone).
Proof.
  intros [(e & e' & Hjson & Hcaught & Hliteral & Hcaught') | (v & Hdec & Hv)].
  - unfold decode_message, ProxyClient.decode_message, try_except.
    rewrite Hjson. cbn [handle]. rewrite Hcaught, Hliteral.
    cbn [handle]. rewrite Hcaught'. reflexivity.
  - unfold decode_message.
    rewrite (decode_message_decodes Hdec).
    cbn [bind].
    destruct v as [| | | | | | |pd]; try reflexivity;
      try (now rewrite andb_false_r).
    destruct (Py.truthy (PDict pd)); [|reflexivity].
    cbn [andb Py.isinstance_dict Py.contains].
    now rewrite (lookup_key_absent _ _ (Hv pd eq_refl)).
Qed.

(** With the direct form and format 2 out of the way, an [error]
    mapping is left to format 3. *)
Lemma find_violations_error_mapping (d eo : list (pyval * pyval)) :
  Py.lookup d ProxyClient.GUARD_KEY = None ->
  Py.lookup d "error" = Some (PDict eo) ->
  (forall s, nested_text (PDict eo) = Some s ->
             no_payload json_loads literal_eval s) ->
  find_violations (PDict d) =
    (lakera_response <- Py.get (PDict eo) "lakera_ai_response" (PDict []) ;;
     ProxyClient.read_ai_response lakera_response).
Proof.
  intros Hnokey Herror Hmsg.
  unfold find_violations, ProxyClient.find_violations.
  cbn [Py.contains]. rewrite (lookup_key_absent _ _ Hnokey).
  rewrite (lookup_key_present _ _ Herror). cbn [bind].
  rewrite (get_present _ _ _ Herror). cbn [bind Py.isinstance_dict].
  cbn [nested_text] in Hmsg. cbn [Py.get].
  destruct (Py.lookup eo "message") as [m|]; cbn [bind].
  - destruct m as [| | | |s| | |]; try reflexivity.
    fold decode_message.
    now rewrite (@nested_text_finds_nothing s (Hmsg s eq_refl)).
  - fold decode_message.
    now rewrite (@nested_text_finds_nothing "" (Hmsg "" eq_refl)).
Qed.

Lemma find_violations_error_string (d : list (pyval * pyval)) (s : string)
    (v : pyval) :
  Py.lookup d ProxyClient.GUARD_KEY = None ->
  Py.lookup d "error" = Some (PStr s) ->
  decode_message s = Return v ->
  find_violations (PDict d) =
    ('(violations, lakera_response) <-
       (if (Py.truthy v && Py.isinstance_dict v)%bool then
          nested <- Py.contains ProxyClient.GUARD_KEY v ;;
          if nested : bool then ProxyClient.read_guard_response v []
          else Return ([], PNone)
        else Return ([], PNone)) ;;
     Return {| ProxyClient.found := violations;
               ProxyClient.lakera := lakera_response;
               ProxyClient.scores := None |}).
Proof.
  intros Hnokey Herror Hdec.
  unfold find_violations, ProxyClient.find_violations.
  cbn [Py.contains]. rewrite (lookup_key_absent _ _ Hnokey).
  rewrite (lookup_key_present _ _ Herror). cbn [bind].
  rewrite (get_present _ _ _ Herror).
  cbn [bind Py.isinstance_dict py_str].
  fold decode_message. rewrite Hdec. cbn [bind].
  destruct (Py.truthy v && Py.isinstance_dict v)%bool; [|reflexivity].
  destruct (Py.contains ProxyClient.GUARD_KEY v) as [[|]|e]; cbn [bind];
    reflexivity.
Qed.

(** An [error] that is no mapping, with a text that carries no
    payload: nothing is found. *)
Lemma find_violations_error_other (d : list (pyval * pyval))
    (error : pyval) :
  Py.lookup d ProxyClient.GUARD_KEY = None ->
  Py.lookup d "error" = Some error ->
  Py.isinstance_dict error = false ->
  no_payload json_loads literal_eval (py_str error) ->
  find_violations (PDict d) =
    Return {| ProxyClient.found := []; ProxyClient.lakera := PNone;
              ProxyClient.scores := None |}.
Proof.
  intros Hnokey Herror Hother Hno.
  unfold find_violations, ProxyClient.find_violations.
  cbn [Py.contains]. rewrite (lookup_key_absent _ _ Hnokey).
  rewrite (lookup_key_present _ _ Herror). cbn [bind].
  rewrite (get_present _ _ _ Herror). cbn [bind]. rewrite Hother.
  cbn [bind]. fold decode_message.
  rewrite (@nested_text_finds_nothing _ Hno). cbn [bind].
  now destruct error.
Qed.

(** An empty legacy response, or none, is passed over. *)
Lemma read_ai_response_empty (eo : list (pyval * pyval)) :
  (forall legacy, Py.lookup eo "lakera_ai_response" = Some legacy ->
                  Py.truthy legacy = false) ->
  exists p,
    (lakera_response <- Py.get (PDict eo) "lakera_ai_response" (PDict []) ;;
     ProxyClient.read_ai_response lakera_response) = Return p /\
    ProxyClient.found p = [].
Proof.
  intros Hlegacy. cbn [Py.get].
  destruct (Py.lookup eo "lakera_ai_response") as [legacy|]; cbn [bind].
  - unfold ProxyClient.read_ai_response. rewrite (Hlegacy legacy eq_refl).
    eexists. split; reflexivity.
  - eexists. split; reflexivity.
Qed.

(** In a mapping that matches none of the forms the parser finds
    nothing. *)
Lemma find_violations_no_form (d : list (pyval * pyval)) :
  matches_no_form json_loads literal_eval (PDict d) ->
  exists p,
    find_violations (PDict d) = Return p /\ ProxyClient.found p = [].
Proof.
  intros [Hnokey Herr].
  destruct (Py.lookup d "error") as [error|] eqn:Herror.
  - destruct (Herr error eq_refl) as [Htext Hlegacy].
    destruct (Py.isinstance_dict error) eqn:Hdict.
    + destruct error as [| | | | | | |eo]; try discriminate.
      rewrite (@find_violations_error_mapping d eo Hnokey Herror Htext).
      apply read_ai_response_empty. intros legacy.
      exact (Hlegacy eo legacy eq_refl).
    + rewrite (@find_violations_error_other d error Hnokey Herror Hdict).
      * eexists. split; reflexivity.
      * apply Htext. now destruct error.
  - unfold find_violations, ProxyClient.find_violations.
    cbn [Py.contains]. rewrite (lookup_key_absent _ _ Hnokey).
    cbn [bind]. rewrite (lookup_key_absent _ _ Herror). cbn [bind].
    eexists. split; reflexivity.
Qed.

(** A sequence or a text as the body: the parser finds nothing, or
    stops on the missing [get]. *)
Lemma find_violations_no_mapping (body : pyval) :
  match body with
  | PList _ | PTuple _ | PStr _ => True
  | _ => False
  end ->
  (exists p, find_violations body = Return p /\ ProxyClient.found p = []) \/
  find_violations body = Raise (Exc AttributeError).
Proof.
  unfold find_violations, ProxyClient.find_violations.
  destruct body as [| | | |s|l|l|d]; try contradiction; intros _;
    cbn [Py.contains bind].
  - destruct (Text.is_infix ProxyClient.GUARD_KEY s); [now right|].
    destruct (Text.is_infix "error" s); [now right|].
    left. eexists. split; reflexivity.
  - destruct (existsb _ l); [now right|].
    destruct (existsb _ l); [now right|].
    left. eexists. split; reflexivity.
  - destruct (existsb _ l); [now right|].
    destruct (existsb _ l); [now right|].
    left. eexists. split; reflexivity.
Qed.

(** C4, as amended. For a body that matches none of the three forms,
    [chat_completion] raises the generic [APIError] whose message is
    ["API error (<status>): "] and a detail, so it contains the status
    code. When the body is a mapping with an [error] entry, the detail
    is [error.message] when [error] is a mapping with a message, the
    text of that mapping when it has none, the [error] itself when it
    is a text, the text of any other [error]; when the body is no
    mapping, the detail is the raw body text. *)
Theorem generic_error_carries_status (r : response) (body : pyval) :
  status_code r <> 200 ->
  json r = Return body ->
  matches_no_form json_loads literal_eval body ->
  exists detail,
    handle_response r =
      Raise (ExcAPIError ("API error (" ++ Text.str_of_Z (status_code r)
                          ++ "): " ++ detail)) /\
    Text.contains ("API error (" ++ Text.str_of_Z (status_code r)
                   ++ "): " ++ detail)
                  (Text.str_of_Z (status_code r)) /\
    (forall d error,
        body = PDict d -> Py.lookup d "error" = Some error ->
        detail = error_detail error) /\
    ((forall d, body <> PDict d) -> detail = text r).
Proof.
  intros Hstatus Hjson Hno.
  assert (Hcontains : forall detail,
             Text.contains ("API error (" ++ Text.str_of_Z (status_code r)
                            ++ "): " ++ detail)
                           (Text.str_of_Z (status_code r))).
  { intros detail. now exists "API error (", ("): " ++ detail). }
  destruct body as [| | | |s|l|l|d]; try contradiction.
  1-3:
    exists (text r);
    (split; [|split; [apply Hcontains | split; [discriminate | reflexivity]]]);
    (match type of Hjson with
     | _ = Return ?b =>
         destruct (@find_violations_no_mapping b Hno)
           as [(p & Hfind & Hnone) | Hfind]
     end;
     [ unfold handle_response;
       rewrite (handle_response_parsed json_loads literal_eval r Hstatus
                  Hjson Hfind), Hnone; reflexivity
     | unfold handle_response;
       rewrite (handle_response_parse_failure json_loads literal_eval r
                  Hstatus Hjson Hfind); reflexivity ]).
  destruct (@find_violations_no_form d Hno) as (p & Hfind & Hnone).
  exists (detail_of d). split; [|split; [apply Hcontains | split]].
  - unfold handle_response.
    rewrite (handle_response_parsed json_loads literal_eval r Hstatus Hjson
               Hfind), Hnone.
    reflexivity.
  - intros d' error Heq Herror. injection Heq as <-.
    unfold detail_of. now rewrite Herror.
  - intros Hnd. now destruct (Hnd d).
Qed.

(** An error text that carries no payload is passed through: the
    generic error says the status and that text. *)
Theorem plain_error_text_passes_through
    (r : response) (d : list (pyval * pyval)) (s : string) :
  status_code r <> 200 ->
  json r = Return (PDict d) ->
  Py.lookup d ProxyClient.GUARD_KEY = None ->
  error_text d s ->
  no_payload json_loads literal_eval s ->
  handle_response r =
    Raise (ExcAPIError ("API error (" ++ Text.str_of_Z (status_code r)
                        ++ "): " ++ s)).
Proof.
  intros Hstatus Hjson Hnokey Herr Hno.
  assert (Hfind : exists p, find_violations (PDict d) = Return p /\
                            ProxyClient.found p = []).
  { destruct Herr as [Herror | (eo & Herror & Hmsg & Hlegacy)].
    - rewrite (@find_violations_error_other d (PStr s) Hnokey Herror eq_refl Hno).
      eexists. split; reflexivity.
    - rewrite (@find_violations_error_mapping d eo Hnokey Herror).
      + apply read_ai_response_empty. intros legacy. congruence.
      + intros s'. cbn [nested_text]. rewrite Hmsg.
        intros H. now injection H as <-. }
  destruct Hfind as (p & Hfind & Hnone).
  unfold handle_response.
  rewrite (handle_response_parsed json_loads literal_eval r Hstatus Hjson Hfind).
  rewrite Hnone. unfold ProxyClient.api_error_text, detail_of, error_detail.
  destruct Herr as [Herror | (eo & Herror & Hmsg & _)]; rewrite Herror.
  - reflexivity.
  - now rewrite Hmsg.
Qed.

(** When [error] is itself the serialized payload, the parser reports
    the detected types of the payload; the legacy form has no part in
    it. *)
Theorem string_error_carries_the_payload
    (d : list (pyval * pyval)) (s : string) (payload : pyval)
    (entries : list pyval) :
  Py.lookup d ProxyClient.GUARD_KEY = None ->
  Py.lookup d "error" = Some (PStr s) ->
  decode_message s = Return payload ->
  direct_breakdown payload = Some entries ->
  exists lr,
    find_violations (PDict d) =
      Return {| ProxyClient.found := detected_types entries;
                ProxyClient.lakera := lr;
                ProxyClient.scores := None |}.
Proof.
  intros Hnokey Herror Hdec Hdirect.
  destruct (direct_breakdown_inv _ Hdirect) as (pd & lr & -> & Hd & Hlr & Hall).
  exists (PDict lr).
  rewrite (@find_violations_error_string d s _ Hnokey Herror Hdec).
  assert (Htruthy : Py.truthy (PDict pd) = true).
  { destruct pd; [discriminate | reflexivity]. }
  rewrite Htruthy. cbn [andb Py.isinstance_dict Py.contains].
  rewrite (lookup_key_present _ _ Hd). cbn [bind].
  now rewrite (read_guard_response_entries _ Hd Hlr Hall).
Qed.

Lemma flagged_keys_true_categories (categories : list (pyval * pyval)) :
  GuardrailViolation.flagged_keys categories = true_categories categories.
Proof.
  unfold GuardrailViolation.flagged_keys.
  induction categories as [|[category flagged] categories IH];
    [reflexivity|].
  cbn [filter map snd true_categories].
  destruct (Py.truthy flagged); cbn [map fst]; now rewrite IH.
Qed.

(** The legacy form: when the nested form finds no payload and the
    first result of [lakera_ai_response] is flagged,
    [chat_completion] raises the violation that lists the categories
    whose value is true, in the order of the mapping, with the legacy
    response as its payload and without any score. *)
Theorem legacy_form_raises_flagged_categories
    (r : response) (d eo lr first cats : list (pyval * pyval))
    (others : list pyval) (flag : pyval) :
  status_code r <> 200 ->
  json r = Return (PDict d) ->
  Py.lookup d ProxyClient.GUARD_KEY = None ->
  Py.lookup d "error" = Some (PDict eo) ->
  (forall s, nested_text (PDict eo) = Some s ->
             no_payload json_loads literal_eval s) ->
  Py.lookup eo "lakera_ai_response" = Some (PDict lr) ->
  Py.lookup lr "results" = Some (PList (PDict first :: others)) ->
  Py.lookup first "flagged" = Some flag ->
  Py.truthy flag = true ->
  Py.lookup first "categories" = Some (PDict cats) ->
  true_categories cats <> [] ->
  exists g,
    handle_response r = Raise (ExcGuardrailViolation g) /\
    violations g = true_categories cats /\
    category_scores g = [] /\
    lakera_response g = PDict lr.
Proof.
  intros Hstatus Hjson Hnokey Herror Hmsg Hlegacy Hres Hflag Htrue Hcats Hsome.
  pose proof (@find_violations_error_mapping d eo Hnokey Herror Hmsg) as Hfind.
  rewrite (get_present _ _ _ Hlegacy) in Hfind. cbn [bind] in Hfind.
  rewrite (legacy_form_collects_flagged _ Hres Hflag Htrue Hcats) in Hfind.
  rewrite flagged_keys_true_categories in Hfind.
  unfold handle_response.
  rewrite (handle_response_parsed json_loads literal_eval r Hstatus Hjson Hfind).
  cbn [ProxyClient.found ProxyClient.lakera].
  destruct (true_categories cats) as [|c cs]; [congruence|].
  eexists. split; [reflexivity|]. now split.
Qed.

End ErrorField.

(** C4, as the claim has it, fails: the [error] of this body is a
    mapping without a message, the body matches none of the forms, and
    the message of the generic error ends in the text of that mapping,
    as line 135 has it; the raw body text is not in it. *)
Lemma message_less_error_has_no_raw_text :
  let r := Examples.error_response 404 Examples.code_body
                                   Examples.code_text in
  matches_no_form Examples.json_loads Examples.literal_eval
                  Examples.code_body /\
  (forall eo, Examples.code_body = obj [("error", PDict eo)] ->
              Py.lookup eo "message" = None) /\
  ProxyClient.handle_response Examples.json_loads Examples.literal_eval r =
    Raise (ExcAPIError "API error (404): {'code': 404}") /\
  ~ Text.contains "API error (404): {'code': 404}" (text r).
Proof.
  cbv zeta. split; [|split; [|split]].
  - split; [reflexivity|]. intros error Herror.
    injection Herror as <-. split.
    + intros s Hs. injection Hs as <-. left.
      exists (Exc JSONDecodeError), (Exc SyntaxError). now repeat split.
    + intros eo legacy Heo. injection Heo as <-. discriminate.
  - intros eo Heo. injection Heo as <-. reflexivity.
  - vm_compute. reflexivity.
  - intros H. apply is_infix_spec in H. vm_compute in H. discriminate.
Qed.

(** *** The direct form with nothing detected *)

Section QuietDirectForm.

Variables json_loads literal_eval : string -> result pyval.

Lemma scan_breakdown_quiet (entries acc : list pyval) :
  forallb quiet_entry entries = true ->
  ProxyClient.scan_breakdown acc entries = Return acc.
Proof.
  induction entries as [|e entries IH]; intros Hall; [reflexivity|].
  cbn [forallb] in Hall. apply andb_true_iff in Hall as [He Hrest].
  destruct e as [| | | | | | |kvs]; try discriminate.
  cbn [ProxyClient.scan_breakdown Py.get]. cbn [quiet_entry] in He.
  destruct (Py.lookup kvs "detected") as [flag|]; cbn [bind Py.truthy].
  - apply negb_true_iff in He. rewrite He. now apply IH.
  - now apply IH.
Qed.

Lemma find_violations_quiet (d lr : list (pyval * pyval)) :
  Py.lookup d ProxyClient.GUARD_KEY = Some (PDict lr) ->
  nothing_detected lr = true ->
  ProxyClient.find_violations json_loads literal_eval (PDict d) =
    Return {| ProxyClient.found := []; ProxyClient.lakera := PDict lr;
              ProxyClient.scores := None |}.
Proof.
  intros Hd Hquiet. unfold ProxyClient.find_violations.
  cbn [Py.contains]. rewrite (lookup_key_present _ _ Hd). cbn [bind].
  unfold ProxyClient.read_guard_response.
  rewrite (get_present _ _ _ Hd). cbn [bind Py.get].
  unfold nothing_detected in Hquiet.
  destruct (Py.lookup lr "breakdown") as [breakdown|]; cbn [bind Py.iter].
  - destruct breakdown as [| | | | |entries|entries|]; try discriminate;
      cbn [Py.iter bind]; now rewrite (scan_breakdown_quiet _ _ Hquiet).
  - reflexivity.
Qed.

End QuietDirectForm.

(** A body with the top-level key in whose guardrail response nothing
    is detected gets the generic [APIError]; the other two forms are
    not consulted: whatever the two decoders would make of the [error]
    field, and whatever legacy response it holds, the outcome is the
    same. *)
Theorem quiet_direct_form_is_generic
    (json_loads literal_eval json_loads' literal_eval' :
       string -> result pyval)
    (r : response) (d lr : list (pyval * pyval)) :
  status_code r <> 200 ->
  json r = Return (PDict d) ->
  Py.lookup d ProxyClient.GUARD_KEY = Some (PDict lr) ->
  nothing_detected lr = true ->
  exists detail,
    ProxyClient.handle_response json_loads literal_eval r =
      Raise (ExcAPIError ("API error (" ++ Text.str_of_Z (status_code r)
                          ++ "): " ++ detail)) /\
    ProxyClient.handle_response json_loads' literal_eval' r =
      ProxyClient.handle_response json_loads literal_eval r /\
    forall error, Py.lookup d "error" = Some error ->
                  detail = error_detail error.
Proof.
  intros Hstatus Hjson Hd Hquiet.
  assert (H : forall jl le,
             ProxyClient.handle_response jl le r =
               Raise (ExcAPIError
                        (ProxyClient.api_error_text (status_code r)
                                                    (detail_of d)))).
  { intros jl le.
    now rewrite (handle_response_parsed jl le r Hstatus Hjson
                   (find_violations_quiet jl le _ Hd Hquiet)). }
  exists (detail_of d). split; [apply H|]. split; [now rewrite !H|].
  intros error Herror. unfold detail_of. now rewrite Herror.
Qed.


(** ** What a raised guardrail violation always carries *)

Lemma library_bind {A B : Type} (r : result A) (k : A -> result B) :
  library_failure r -> (forall a, library_failure (k a)) ->
  library_failure (bind r k).
Proof. destruct r as [a|e]; cbn; auto. Qed.

Lemma library_get (v : pyval) (key : string) (default : pyval) :
  library_failure (Py.get v key default).
Proof.
  destruct v; cbn; eauto. now destruct (Py.lookup entries key).
Qed.

Lemma library_contains (key : string) (v : pyval) :
  library_failure (Py.contains key v).
Proof. destruct v; cbn; eauto. Qed.

Lemma library_iter (v : pyval) : library_failure (Py.iter v).
Proof. destruct v; cbn; eauto. Qed.

Lemma library_getitem0 (v : pyval) : library_failure (Py.getitem0 v).
Proof.
  destruct v as [| | | |s|l|l|kvs]; cbn [Py.getitem0 library_failure]; eauto.
  - destruct (Text.chars s); cbn; eauto.
  - destruct l; cbn; eauto.
  - destruct l; cbn; eauto.
  - destruct (find _ kvs); cbn; eauto.
Qed.

Lemma library_items (v : pyval) : library_failure (Py.items v).
Proof. destruct v; cbn; eauto. Qed.

Ltac library :=
  repeat first
    [ exact I
    | apply library_get | apply library_contains | apply library_iter
    | apply library_getitem0 | apply library_items
    | apply library_bind; [|intros ?]
    | match goal with
      | |- library_failure (if ?b then _ else _) => destruct b
      | |- library_failure (match ?x with _ => _ end) => destruct x
      | |- library_failure (Return _) => exact I
      end ].

Lemma library_scan_breakdown (detectors acc : list pyval) :
  library_failure (ProxyClient.scan_breakdown acc detectors).
Proof.
  revert acc. induction detectors as [|x detectors IH]; intros acc;
    cbn [ProxyClient.scan_breakdown]; [exact I|].
  apply library_bind; [apply library_get | intros detected].
  destruct (Py.truthy detected); [|apply IH].
  apply library_bind; [apply library_get | intros t; apply IH].
Qed.

Lemma library_read_guard_response (v : pyval) (acc : list pyval) :
  library_failure (ProxyClient.read_guard_response v acc).
Proof.
  unfold ProxyClient.read_guard_response.
  apply library_bind; [apply library_get | intros lr].
  apply library_bind; [apply library_get | intros b].
  apply library_bind; [apply library_iter | intros ds].
  apply library_bind; [apply library_scan_breakdown | intros vs; exact I].
Qed.

Lemma library_read_ai_response (v : pyval) :
  library_failure (ProxyClient.read_ai_response v).
Proof. unfold ProxyClient.read_ai_response. library. Qed.

Lemma library_generic_detail (body : pyval) :
  library_failure (ProxyClient.generic_detail body).
Proof.
  unfold ProxyClient.generic_detail.
  apply library_bind; [apply library_get | intros x].
  apply library_bind; [|intros y; exact I].
  destruct x; try exact I; try apply library_get;
    (apply library_bind; [apply library_get | intros y; exact I]).
Qed.

Section Invariant.

Variables json_loads literal_eval : string -> result pyval.
Hypothesis json_loads_library : library_decoder json_loads.
Hypothesis literal_eval_library : library_decoder literal_eval.

Let find_violations := ProxyClient.find_violations json_loads literal_eval.
Let handle_response := ProxyClient.handle_response json_loads literal_eval.

Lemma library_decode_message (s : string) :
  library_failure (ProxyClient.decode_message json_loads literal_eval s).
Proof.
  unfold ProxyClient.decode_message, try_except.
  pose proof (json_loads_library s) as Hj.
  destruct (json_loads s) as [v|e]; [exact I|]. cbn [handle].
  destruct (caught_by _ e); [|exact Hj].
  pose proof (literal_eval_library s) as Hl.
  destruct (literal_eval s) as [v|e']; [exact I|]. cbn [handle].
  now destruct (caught_by _ e').
Qed.

Lemma library_find_violations (body : pyval) :
  library_failure (find_violations body).
Proof.
  unfold find_violations, ProxyClient.find_violations.
  apply library_bind; [apply library_contains | intros direct].
  destruct direct.
  { apply library_bind; [apply library_read_guard_response|].
    intros [vs lr]. exact I. }
  apply library_bind; [apply library_contains | intros has_error].
  destruct has_error; [|exact I].
  apply library_bind; [apply library_get | intros error_obj].
  apply library_bind.
  { destruct (Py.isinstance_dict error_obj); [apply library_get | exact I]. }
  intros error_msg. apply library_bind.
  { destruct error_msg; try exact I.
    apply library_bind; [apply library_decode_message | intros parsed_error].
    destruct (Py.truthy parsed_error && Py.isinstance_dict parsed_error)%bool;
      [|exact I].
    apply library_bind; [apply library_contains | intros nested].
    destruct nested; [apply library_read_guard_response | exact I]. }
  intros [vs lr].
  destruct error_obj; try exact I.
  destruct vs; [|exact I].
  apply library_bind; [apply library_get | intros x].
  apply library_read_ai_response.
Qed.

(** Every [GuardrailViolationError] that [chat_completion] raises
    comes from a response that is not a 200 and carries the list the
    parser found, which is not empty, under the fixed message, with no
    categories and no scores. *)
Theorem raised_violation_is_never_empty
    (r : response) (g : guardrail_violation) :
  library_failure (json r) ->
  handle_response r = Raise (ExcGuardrailViolation g) ->
  status_code r <> 200 /\
  exists body p,
    json r = Return body /\
    find_violations body = Return p /\
    violations g = ProxyClient.found p /\
    violations g <> [] /\
    args0 g = "LiteLLM has flagged this message due to policy violations" /\
    categories g = [] /\
    category_scores g = [] /\
    lakera_response g = ProxyClient.lakera p.
Proof.
  intros Hjson H. unfold handle_response, ProxyClient.handle_response in H.
  destruct (status_code r =? 200) eqn:Hstatus; cbn [negb] in H.
  { destruct (json r) as [body|e]; [discriminate|].
    destruct Hjson as [c ->]. discriminate. }
  apply Z.eqb_neq in Hstatus. split; [exact Hstatus|].
  unfold ProxyClient.raise_for_error in H.
  destruct (json r) as [body|e].
  2:{ destruct Hjson as [c ->]. cbn [bind try_except handle] in H.
      now destruct c. }
  cbn [bind] in H. fold find_violations in H.
  pose proof (library_find_violations body) as Hlib.
  destruct (find_violations body) as [p|e] eqn:Hfind.
  - cbn [bind] in H. exists body, p.
    destruct (ProxyClient.found p) as [|v vs] eqn:Hfound.
    + exfalso. destruct (ProxyClient.generic_detail body) as [detail|e] eqn:Hd;
        cbn [bind try_except handle] in H.
      * discriminate.
      * pose proof (library_generic_detail body) as He. rewrite Hd in He.
        destruct He as [c ->].
        now destruct c.
    + cbn [try_except handle] in H.
      change (caught_by [GuardrailViolationError] (ExcGuardrailViolation ?x))
        with true in H.
      cbv iota in H. injection H as <-.
      split; [reflexivity|]. split; [exact Hfind|]. split; [reflexivity|].
      split; [discriminate|]. repeat split.
  - destruct Hlib as [c ->]. cbn [bind try_except handle] in H.
    now destruct c.
Qed.

End Invariant.

(** ** The request: payload and endpoint *)

Lemma eq_str_true (k : pyval) (key : string) :
  Py.eq_str k key = true -> k = PStr key.
Proof.
  destruct k; try discriminate. cbn. intros H.
  apply String.eqb_eq in H. now subst.
Qed.

(** A [dict] gives back what was stored under a key, and storing under
    one key leaves the others as they were. *)
Lemma lookup_setitem_same (d : list (pyval * pyval)) (key : string)
    (v : pyval) :
  Py.lookup (Py.setitem d key v) key = Some v.
Proof.
  unfold Py.lookup. induction d as [|[k x] d IH]; cbn [Py.setitem].
  - cbn. now rewrite String.eqb_refl.
  - destruct (Py.eq_str k key) eqn:Hk; cbn [find fst snd]; rewrite Hk.
    + reflexivity.
    + exact IH.
Qed.

Lemma lookup_setitem_other (d : list (pyval * pyval)) (key other : string)
    (v : pyval) :
  key <> other ->
  Py.lookup (Py.setitem d key v) other = Py.lookup d other.
Proof.
  intros Hne. unfold Py.lookup.
  induction d as [|[k x] d IH]; cbn [Py.setitem].
  - cbn. apply String.eqb_neq in Hne. now rewrite Hne.
  - destruct (Py.eq_str k key) eqn:Hk; cbn [find fst snd].
    + apply eq_str_true in Hk. subst k. cbn [Py.eq_str].
      apply String.eqb_neq in Hne. now rewrite Hne.
    + destruct (Py.eq_str k other); [reflexivity | exact IH].
Qed.

Lemma lookup_update_other (kwargs : list (string * pyval))
    (d : list (pyval * pyval)) (key : string) :
  ~ In key (map fst kwargs) ->
  Py.lookup (fold_left (fun d kv => Py.setitem d (fst kv) (snd kv)) kwargs d)
            key
  = Py.lookup d key.
Proof.
  revert d. induction kwargs as [|[k v] kwargs IH]; intros d Hnot;
    [reflexivity|].
  cbn [fold_left fst snd]. rewrite IH.
  - apply lookup_setitem_other. intros ->. apply Hnot. now left.
  - intros Hin. apply Hnot. now right.
Qed.

Lemma lookup_update_in (kwargs : list (string * pyval))
    (d : list (pyval * pyval)) (key : string) (v : pyval) :
  NoDup (map fst kwargs) ->
  In (key, v) kwargs ->
  Py.lookup (fold_left (fun d kv => Py.setitem d (fst kv) (snd kv)) kwargs d)
            key
  = Some v.
Proof.
  revert d. induction kwargs as [|[k x] kwargs IH]; intros d Hnodup Hin;
    [contradiction|].
  cbn [map fst] in Hnodup. inversion Hnodup as [|? ? Hnotin Hrest]; subst.
  cbn [fold_left fst snd]. destruct Hin as [Heq | Hin].
  - injection Heq as -> ->. rewrite lookup_update_other by assumption.
    apply lookup_setitem_same.
  - now apply IH.
Qed.

(** The body of the request always has the model, the messages and the
    stream flag; it has [guardrails] exactly when the list given is not
    empty; and it has every extra keyword. *)
Theorem payload_fields (model : string) (messages : list pyval)
    (guardrails : option (list string)) (stream : bool)
    (kwargs : list (string * pyval)) :
  free_keywords kwargs ->
  exists p,
    ProxyClient.build_payload model messages guardrails stream kwargs
      = PDict p /\
    Py.lookup p "model" = Some (PStr model) /\
    Py.lookup p "messages" = Some (PList messages) /\
    Py.lookup p "stream" = Some (PBool stream) /\
    Py.lookup p "guardrails" =
      match guardrails with
      | Some (g :: gs) => Some (PList (map PStr (g :: gs)))
      | _ => None
      end /\
    (NoDup (map fst kwargs) ->
     forall k v, In (k, v) kwargs -> Py.lookup p k = Some v).
Proof.
  intros Hfree. unfold ProxyClient.build_payload.
  set (base := [(PStr "model", PStr model); (PStr "messages", PList messages);
                (PStr "stream", PBool stream)]).
  set (updated := fold_left (fun d kv => Py.setitem d (fst kv) (snd kv))
                            kwargs base).
  assert (Hkeep : forall key,
             In key ["model"; "messages"; "guardrails"; "stream"] ->
             Py.lookup updated key = Py.lookup base key).
  { intros key Hkey. apply lookup_update_other.
    intros Hin. exact (Hfree _ Hin Hkey). }
  assert (Hm : Py.lookup updated "model" = Some (PStr model)).
  { rewrite Hkeep; [reflexivity | cbn; tauto]. }
  assert (Hs : Py.lookup updated "messages" = Some (PList messages)).
  { rewrite Hkeep; [reflexivity | cbn; tauto]. }
  assert (Ht : Py.lookup updated "stream" = Some (PBool stream)).
  { rewrite Hkeep; [reflexivity | cbn; tauto]. }
  assert (Hg : Py.lookup updated "guardrails" = None).
  { rewrite Hkeep; [reflexivity | cbn; tauto]. }
  assert (Hk : NoDup (map fst kwargs) ->
               forall k v, In (k, v) kwargs -> Py.lookup updated k = Some v).
  { intros Hnodup k v Hin. now apply lookup_update_in. }
  assert (Hplain : exists p, PDict updated = PDict p /\
            Py.lookup p "model" = Some (PStr model) /\
            Py.lookup p "messages" = Some (PList messages) /\
            Py.lookup p "stream" = Some (PBool stream) /\
            Py.lookup p "guardrails" = None /\
            (NoDup (map fst kwargs) ->
             forall k v, In (k, v) kwargs -> Py.lookup p k = Some v)).
  { exists updated. repeat split; assumption. }
  destruct guardrails as [[|g gs]|]; try exact Hplain.
  eexists. split; [reflexivity|].
  rewrite !lookup_setitem_other by discriminate.
  repeat split; try assumption.
  - apply lookup_setitem_same.
  - intros Hnodup k v Hin. rewrite lookup_setitem_other.
    + now apply Hk.
    + intros <-. apply (Hfree "guardrails").
      * apply in_map_iff. now exists ("guardrails", v).
      * cbn; tauto.
Qed.

Lemma rstrip_by_decompose (p : ascii -> bool) (s : string) :
  exists tail,
    s = Text.rstrip_by p s ++ tail /\
    forallb p (list_ascii_of_string tail) = true.
Proof.
  induction s as [|c s (tail & Hs & Htail)].
  - now exists "".
  - cbn [Text.rstrip_by].
    destruct (Text.rstrip_by p s) as [|k kept] eqn:Hr.
    + cbn in Hs. subst tail. destruct (p c) eqn:Hc.
      * exists (String c s). split; [reflexivity|]. cbn. now rewrite Hc.
      * exists s. now split.
    + exists tail. split; [|exact Htail]. cbn. now rewrite Hs at 1.
Qed.

Lemma rstrip_by_no_trailing (p : ascii -> bool) (s before : string)
    (c : ascii) :
  p c = true -> Text.rstrip_by p s <> before ++ String c "".
Proof.
  intros Hc. revert before. induction s as [|a s IH]; intros before.
  - cbn. destruct before; discriminate.
  - cbn [Text.rstrip_by].
    destruct (Text.rstrip_by p s) as [|k kept] eqn:Hr.
    + destruct (p a) eqn:Ha.
      * destruct before; discriminate.
      * destruct before as [|b before]; cbn.
        -- intros H. injection H as ->. congruence.
        -- intros H. injection H as _ H. destruct before; discriminate.
    + destruct before as [|b before]; cbn.
      * discriminate.
      * intros H. injection H as _ H. exact (IH before H).
Qed.

Lemma rstrip_by_drops_last (p : ascii -> bool) (s : string) (c : ascii) :
  p c = true ->
  Text.rstrip_by p (s ++ String c "") = Text.rstrip_by p s.
Proof.
  intros Hc. induction s as [|a s IH].
  - cbn. now rewrite Hc.
  - cbn [append Text.rstrip_by]. now rewrite IH.
Qed.

(** [ProxyClient(base_url)] forgets the slashes the URL ends with: the
    stored URL is the given one without them and does not end with a
    slash, so the endpoint has exactly one slash before [v1], and one
    more slash at the end of the argument changes nothing. *)
Theorem client_url_has_no_trailing_slash (url key : string) :
  let client := ProxyClient.init url key in
  (exists slashes,
      url = ProxyClient.base_url client ++ slashes /\
      forallb (Ascii.eqb "/") (list_ascii_of_string slashes) = true) /\
  ~ Text.ends_with (ProxyClient.base_url client) "/" /\
  ProxyClient.chat_endpoint client
    = ProxyClient.base_url client ++ "/v1/chat/completions" /\
  ProxyClient.init (url ++ "/") key = client.
Proof.
  cbv zeta. unfold ProxyClient.init, Text.rstrip_char.
  cbn [ProxyClient.base_url ProxyClient.chat_endpoint].
  split; [apply rstrip_by_decompose|].
  split.
  { intros [before H]. now apply (rstrip_by_no_trailing _ url before "/"%char) in H. }
  split; [reflexivity|].
  now rewrite rstrip_by_drops_last.
Qed.

(** The health checks swallow the failures of [requests] only: any
    other exception of the [GET] leaves them as it is. *)
Theorem health_checks_let_other_failures_through {S : Type}
    (requests_get : string -> Z -> result response) (self : ProxyClient.t)
    (h : env S) (s : S) (e : exc) :
  issubclass (class_of e) RequestException = false ->
  (requests_get (ProxyClient.base_url self ++ "/health") 2 = Raise e ->
   ProxyClient.health_check requests_get self = Raise e) /\
  (fst (h _ (Get ProxyManager.PROXY_HEALTH_ENDPOINT 2) s) = Raise e ->
   snd (run h ProxyManager.is_running s) = Raise e).
Proof.
  intros Hother.
  assert (Htimeout : issubclass (class_of e) Timeout = false).
  { destruct e as [c| |]; [destruct c|..]; try reflexivity; discriminate. }
  split.
  - intros Hget. unfold ProxyClient.health_check. rewrite Hget.
    cbn [bind try_except handle]. unfold caught_by. cbn [existsb].
    now rewrite Hother.
  - intros Hget. rewrite run_is_running. cbn [snd]. rewrite Hget.
    cbn [bind try_except handle]. unfold caught_by. cbn [existsb].
    now rewrite Hother, Htimeout.
Qed.

(* ================================================================== *)
(** * More facts about the rendered message *)
(* ================================================================== *)

Lemma has_char_app (c : ascii) (a b : string) :
  has_char c (a ++ b) = (has_char c a || has_char c b)%bool.
Proof.
  unfold has_char. induction a as [|x a IH]; cbn; [reflexivity|].
  now rewrite IH, orb_assoc.
Qed.

Lemma has_char_replace (x old : ascii) (new s : string) :
  has_char x new = false ->
  (x = old \/ has_char x s = false) ->
  has_char x (Text.replace_char old new s) = false.
Proof.
  intros Hnew Hs. induction s as [|c s IH]; [reflexivity|].
  cbn [Text.replace_char].
  assert (Hrest : x = old \/ has_char x s = false).
  { destruct Hs as [-> | Hs]; [now left | right].
    unfold has_char in *. cbn in Hs. now apply orb_false_iff in Hs. }
  destruct (Ascii.eqb c old) eqn:Hc.
  - rewrite has_char_app, Hnew. now apply IH.
  - change (has_char x (String c (Text.replace_char old new s)))
      with (Ascii.eqb x c || has_char x (Text.replace_char old new s))%bool.
    rewrite (IH Hrest), orb_false_r.
    destruct Hs as [-> | Hs].
    + now rewrite Ascii.eqb_sym.
    + unfold has_char in Hs. cbn in Hs. now apply orb_false_iff in Hs.
Qed.

(** *** A separator does not come out of case mapping *)

Lemma mapped_avoids (x : Z) (runs : list (Z * Z * Z * Z))
    (special : list (Z * list Z)) (n : Z) :
  avoids x runs special = true -> n <> x ->
  existsb (Z.eqb x) (Text.mapped runs special n) = false.
Proof.
  unfold avoids, Text.mapped. intros H Hn.
  apply andb_true_iff in H as [Hruns Hspecial].
  rewrite forallb_forall in Hruns, Hspecial.
  destruct (find (fun e => fst e =? n) special) as [e|] eqn:Fs.
  - apply find_some in Fs as [Hin _]. specialize (Hspecial _ Hin).
    now apply negb_true_iff in Hspecial.
  - destruct (find (Text.in_run n) runs) as [[[[first last] step] delta]|]
      eqn:Fr.
    + apply find_some in Fr as [Hin Hrun]. specialize (Hruns _ Hin).
      cbn in Hruns. apply negb_true_iff in Hruns.
      unfold Text.in_run in Hrun.
      apply andb_true_iff in Hrun as [Hrun _].
      apply andb_true_iff in Hrun as [Hlo Hhi].
      cbn [existsb]. rewrite orb_false_r. apply Z.eqb_neq. intros Heq.
      replace (x - delta) with n in Hruns by lia.
      now rewrite Hlo, Hhi in Hruns.
    + cbn [existsb]. rewrite orb_false_r. apply Z.eqb_neq. congruence.
Qed.

Lemma byte_of_byte (v : Z) : 0 <= v < 256 -> Text.byte (Text.of_byte v) = v.
Proof.
  intros Hv. unfold Text.byte, Text.of_byte.
  rewrite nat_ascii_embedding by lia. lia.
Qed.

Lemma byte_inj (a b : ascii) : Text.byte a = Text.byte b -> a = b.
Proof.
  unfold Text.byte. intros H. apply Nat2Z.inj in H.
  rewrite <- (ascii_nat_embedding a), <- (ascii_nat_embedding b).
  now rewrite H.
Qed.

Lemma has_char_cons (x c : ascii) (s : string) :
  has_char x (String c s) = (Ascii.eqb x c || has_char x s)%bool.
Proof. reflexivity. Qed.

(** A byte from 128 on is no ASCII character. *)
Lemma high_byte_differs (x : ascii) (v : Z) :
  Text.byte x < 128 -> 128 <= v < 256 -> Ascii.eqb x (Text.of_byte v) = false.
Proof.
  intros Hx Hv. apply Ascii.eqb_neq. intros ->.
  rewrite byte_of_byte in Hx; lia.
Qed.

Section Separator.

(** [x] is the underscore or the slash. *)
Variable x : ascii.
Hypothesis x_is_separator : x = "_"%char \/ x = "/"%char.

Lemma separator_byte : 0 < Text.byte x < 128.
Proof. destruct x_is_separator as [-> | ->]; vm_compute; intuition congruence. Qed.

Lemma existsb_map_cp (l : list Z) :
  existsb (is_char x) (map Text.Cp l) = existsb (Z.eqb (Text.byte x)) l.
Proof.
  induction l as [|n l IH]; [reflexivity|].
  cbn [map existsb is_char]. now rewrite IH, Z.eqb_sym.
Qed.

Lemma lower_full_avoids (n : Z) :
  n <> Text.byte x ->
  existsb (Z.eqb (Text.byte x)) (Text.lower_full n) = false.
Proof.
  intros Hn. apply mapped_avoids; [|exact Hn].
  destruct x_is_separator as [-> | ->]; vm_compute; reflexivity.
Qed.

Lemma title_full_avoids (n : Z) :
  n <> Text.byte x ->
  existsb (Z.eqb (Text.byte x)) (Text.title_full n) = false.
Proof.
  intros Hn. apply mapped_avoids; [|exact Hn].
  destruct x_is_separator as [-> | ->]; vm_compute; reflexivity.
Qed.

Lemma lower_char_avoids (before after : list Text.uchar) (u : Text.uchar) :
  is_char x u = false ->
  existsb (is_char x) (Text.lower_char before after u) = false.
Proof.
  destruct u as [n|b]; cbn [is_char Text.lower_char existsb].
  2:{ intros ->. reflexivity. }
  intros Hn. apply Z.eqb_neq in Hn.
  destruct (n =? 931).
  - cbn [existsb is_char]. rewrite orb_false_r. apply Z.eqb_neq.
    destruct (Text.final_sigma before after);
      destruct x_is_separator as [-> | ->]; discriminate.
  - rewrite existsb_map_cp. now apply lower_full_avoids.
Qed.

Lemma title_char_avoids (u : Text.uchar) :
  is_char x u = false -> existsb (is_char x) (Text.title_char u) = false.
Proof.
  destruct u as [n|b]; cbn [is_char Text.title_char existsb].
  2:{ intros ->. reflexivity. }
  intros Hn. apply Z.eqb_neq in Hn.
  rewrite existsb_map_cp. now apply title_full_avoids.
Qed.

Lemma title_from_avoids (l before : list Text.uchar) (cased : bool) :
  existsb (is_char x) l = false ->
  existsb (is_char x) (Text.title_from cased before l) = false.
Proof.
  revert before cased. induction l as [|u l IH]; intros before cased;
    [reflexivity|].
  cbn [existsb Text.title_from]. intros H.
  apply orb_false_iff in H as [Hu Hl].
  rewrite existsb_app, (IH _ _ Hl), orb_false_r.
  destruct cased; [now apply lower_char_avoids | now apply title_char_avoids].
Qed.

Lemma encode_cp_avoids (n : Z) :
  n <> Text.byte x -> has_char x (Text.encode_cp n) = false.
Proof.
  pose proof separator_byte as Hx.
  intros Hn. unfold Text.encode_cp.
  pose proof (Z.mod_pos_bound n 64) as H0.
  pose proof (Z.mod_pos_bound (n / 64) 64) as H1.
  pose proof (Z.mod_pos_bound (n / 4096) 64) as H2.
  pose proof (Z.mod_pos_bound (n / 262144) 8) as H3.
  destruct (n <? 128) eqn:L1.
  { rewrite has_char_cons. cbn [has_char existsb list_ascii_of_string].
    rewrite orb_false_r. apply Ascii.eqb_neq. intros Heq.
    apply Z.ltb_lt in L1. rewrite Heq in Hx, Hn.
    destruct n as [|p|p].
    - cbn in Hx. lia.
    - rewrite byte_of_byte in Hn; lia.
    - cbn in Hx. lia. }
  apply Z.ltb_ge in L1.
  destruct (n <? 2048) eqn:L2.
  { apply Z.ltb_lt in L2.
    assert (0 <= n / 64 < 32).
    { split; [apply Z.div_pos; lia | apply Z.div_lt_upper_bound; lia]. }
    rewrite !has_char_cons, !high_byte_differs by lia. reflexivity. }
  apply Z.ltb_ge in L2.
  destruct (n <? 65536) eqn:L3.
  { apply Z.ltb_lt in L3.
    assert (0 <= n / 4096 < 16).
    { split; [apply Z.div_pos; lia | apply Z.div_lt_upper_bound; lia]. }
    rewrite !has_char_cons, !high_byte_differs by lia. reflexivity. }
  rewrite !has_char_cons, !high_byte_differs by lia. reflexivity.
Qed.

Lemma encode_avoids (l : list Text.uchar) :
  existsb (is_char x) l = false -> has_char x (Text.encode l) = false.
Proof.
  unfold Text.encode.
  induction l as [|u l IH]; [reflexivity|].
  cbn [existsb map]. intros H.
  apply orb_false_iff in H as [Hu Hl].
  assert (Hhead : has_char x (Text.encode_char u) = false).
  { destruct u as [n|b]; cbn [Text.encode_char].
    - apply encode_cp_avoids. cbn in Hu. now apply Z.eqb_neq in Hu.
    - rewrite has_char_cons. cbn in Hu. rewrite Hu. reflexivity. }
  destruct l as [|v l].
  - cbn [map String.concat]. exact Hhead.
  - cbn [map String.concat]. rewrite !has_char_app, Hhead.
    cbn [has_char existsb list_ascii_of_string orb].
    exact (IH Hl).
Qed.

Lemma decode_avoids_upto (n : nat) (s : string) :
  (String.length s <= n)%nat ->
  has_char x s = false -> existsb (is_char x) (Text.decode s) = false.
Proof.
  pose proof separator_byte as Hx.
  revert s. induction n as [|n IH]; intros s Hlen Hs.
  { destruct s; [reflexivity | cbn in Hlen; lia]. }
  destruct s as [|c0 s1]; [reflexivity|].
  rewrite has_char_cons in Hs. apply orb_false_iff in Hs as [Hc0 Hs1].
  cbn [String.length] in Hlen.
  assert (Hstray : existsb (is_char x) (Text.Stray c0 :: Text.decode s1)
                   = false).
  { cbn [existsb is_char]. rewrite Hc0. apply IH; [lia | exact Hs1]. }
  assert (Hhigh : forall v rest,
             128 <= v -> (String.length rest <= n)%nat ->
             has_char x rest = false ->
             existsb (is_char x) (Text.Cp v :: Text.decode rest) = false).
  { intros v rest Hv Hrest Hno. cbn [existsb is_char].
    rewrite (IH _ Hrest Hno), orb_false_r. apply Z.eqb_neq. lia. }
  cbn [Text.decode].
  destruct (Text.sequence_length c0) as [|[|[|[|[|k]]]]]; try exact Hstray.
  - cbn [existsb is_char]. rewrite (IH s1) by (lia || assumption).
    rewrite orb_false_r. apply Z.eqb_neq. intros Heq.
    apply byte_inj in Heq. subst c0. now rewrite Ascii.eqb_refl in Hc0.
  - destruct s1 as [|c1 s2]; [exact Hstray|].
    rewrite has_char_cons in Hs1. apply orb_false_iff in Hs1 as [_ Hs2].
    cbn [String.length] in Hlen.
    destruct (Text.continuation c1 && (128 <=? Text.two_bytes c0 c1))%bool
      eqn:Hok; [|exact Hstray].
    apply andb_true_iff in Hok as [_ Hge]. apply Z.leb_le in Hge.
    apply Hhigh; [exact Hge | lia | exact Hs2].
  - destruct s1 as [|c1 [|c2 s3]]; try exact Hstray.
    rewrite !has_char_cons in Hs1.
    apply orb_false_iff in Hs1 as [_ Hs1].
    apply orb_false_iff in Hs1 as [_ Hs3].
    cbn [String.length] in Hlen.
    destruct (Text.continuation c1 && Text.continuation c2
              && (2048 <=? Text.three_bytes c0 c1 c2))%bool
      eqn:Hok; [|exact Hstray].
    apply andb_true_iff in Hok as [_ Hge]. apply Z.leb_le in Hge.
    apply Hhigh; [lia | lia | exact Hs3].
  - destruct s1 as [|c1 [|c2 [|c3 s4]]]; try exact Hstray.
    rewrite !has_char_cons in Hs1.
    apply orb_false_iff in Hs1 as [_ Hs1].
    apply orb_false_iff in Hs1 as [_ Hs1].
    apply orb_false_iff in Hs1 as [_ Hs4].
    cbn [String.length] in Hlen.
    destruct (Text.continuation c1 && Text.continuation c2
              && Text.continuation c3
              && (65536 <=? Text.four_bytes c0 c1 c2 c3)
              && (Text.four_bytes c0 c1 c2 c3 <=? 1114111))%bool
      eqn:Hok; [|exact Hstray].
    apply andb_true_iff in Hok as [Hok _].
    apply andb_true_iff in Hok as [_ Hge]. apply Z.leb_le in Hge.
    apply Hhigh; [lia | lia | exact Hs4].
Qed.

(** Title case brings no underscore and no slash into a text. *)
Lemma has_char_title (s : string) :
  has_char x s = false -> has_char x (Text.title s) = false.
Proof.
  intros Hs. unfold Text.title. apply encode_avoids, title_from_avoids.
  eapply decode_avoids_upto; [apply Nat.le_refl | exact Hs].
Qed.

End Separator.

Lemma has_char_contains (c : ascii) (s : string) :
  has_char c s = false -> ~ Text.contains s (String c "").
Proof.
  intros H [before [after ->]].
  rewrite has_char_app in H. apply orb_false_iff in H as [_ H].
  unfold has_char in H. cbn in H. now rewrite Ascii.eqb_refl in H.
Qed.

(** The display name made up for an unknown code shows neither an
    underscore nor a slash. *)
Theorem unknown_name_has_no_separator (code : string) :
  ~ Text.contains (GuardrailViolation.unknown_name code) "_" /\
  ~ Text.contains (GuardrailViolation.unknown_name code) "/".
Proof.
  unfold GuardrailViolation.unknown_name.
  split; apply has_char_contains; apply has_char_title; try tauto.
  - apply has_char_replace; [reflexivity | right].
    apply has_char_replace; [reflexivity | now left].
  - apply has_char_replace; [reflexivity | now left].
Qed.

Lemma add_violations_app (scores : list (pyval * pyval)) (msg : string)
    (xs ys : list pyval) :
  GuardrailViolation.add_violations scores msg (xs ++ ys) =
    (m <- GuardrailViolation.add_violations scores msg xs ;;
     GuardrailViolation.add_violations scores m ys).
Proof.
  revert msg. induction xs as [|x xs IH]; intros msg; [reflexivity|].
  cbn [app GuardrailViolation.add_violations].
  destruct (GuardrailViolation.violation_text scores x); cbn [bind];
    [apply IH | reflexivity].
Qed.

(** A violation that is not a [str] makes [__str__] raise:
    [AttributeError] when the value can be hashed, [TypeError] when it
    cannot; the violations before it do not matter. *)
Theorem rendering_fails_on_a_violation_that_is_no_text
    (g : guardrail_violation) (codes : list string) (v : pyval)
    (rest : list pyval) :
  violations g = (map PStr codes ++ v :: rest)%list ->
  Py.isinstance_str v = false ->
  float_scores (category_scores g) = true ->
  GuardrailViolation.str g =
    Raise (Exc (if Py.hashable v then AttributeError else TypeError)).
Proof.
  intros Hv Hstr Hscores. unfold GuardrailViolation.str. rewrite Hv.
  assert (Hadd : forall msg,
             GuardrailViolation.add_violations (category_scores g) msg
               (map PStr codes ++ v :: rest)
             = Raise (Exc (if Py.hashable v then AttributeError
                           else TypeError))).
  { intros msg. rewrite add_violations_app.
    rewrite add_violations_lines by assumption. cbn [bind].
    cbn [GuardrailViolation.add_violations].
    unfold GuardrailViolation.violation_text.
    assert (Hname : GuardrailViolation._format_violation_name v
                    = Raise (Exc (if Py.hashable v then AttributeError
                                  else TypeError))).
    { destruct v; try discriminate; cbn;
        try reflexivity; now destruct (forallb Py.hashable items). }
    now rewrite Hname. }
  destruct (map PStr codes ++ v :: rest)%list eqn:Hl.
  - destruct codes; discriminate.
  - cbv iota. now rewrite Hadd.
Qed.

(* ================================================================== *)
(** * More facts about [chat.py] *)
(* ================================================================== *)

Lemma assistant_text_is_truthy (response a : pyval) :
  ChatSession.assistant_text response = Return a -> Py.truthy a = true.
Proof.
  unfold ChatSession.assistant_text.
  destruct (Py.get response "choices" (PList [])) as [choices|]; cbn [bind];
    [|discriminate].
  destruct (Py.truthy choices); cbn [negb]; [|discriminate].
  destruct (Py.getitem0 choices) as [first|]; cbn [bind]; [|discriminate].
  destruct (Py.get first "message" (PDict [])) as [m|]; cbn [bind];
    [|discriminate].
  destruct (Py.get m "content" (PStr "")) as [c|]; cbn [bind];
    [|discriminate].
  destruct (Py.truthy c) eqn:Hc; cbn [negb]; [|discriminate].
  intros H. now injection H as <-.
Qed.

Lemma all_answered_with_exchange (ms : list pyval) (question answer : pyval) :
  ChatSession.all_answered ms = true ->
  ChatSession.all_answered
    (ms ++ [ChatSession.turn "user" question;
            ChatSession.turn "assistant" answer])%list = true.
Proof.
  induction ms as [|m ms IH]; [reflexivity|].
  cbn [ChatSession.all_answered app]. intros H.
  apply andb_true_iff in H as [Hm Hrest].
  rewrite (IH Hrest), andb_true_r.
  destruct (ChatSession.has_role "user" m); [|reflexivity].
  destruct ms; [discriminate | exact Hm].
Qed.

Lemma system_turns_app (ms : list pyval) (role : string) (content : pyval) :
  system_turns (ms ++ [ChatSession.turn role content])%list =
    (system_turns ms + if String.eqb role "system" then 1 else 0)%nat.
Proof.
  unfold system_turns. rewrite filter_app, length_app. f_equal.
  cbn [filter]. unfold ChatSession.has_role at 1. cbn.
  now destruct (String.eqb role "system").
Qed.

Lemma any_system_false (ms : list pyval) :
  ChatSession.any_system ms = Return false -> system_turns ms = 0%nat.
Proof.
  unfold system_turns.
  induction ms as [|m ms IH]; [reflexivity|].
  cbn [ChatSession.any_system filter]. unfold ChatSession.has_role.
  destruct (Py.get m "role" PNone) as [role|]; cbn [bind]; [|discriminate].
  destruct (Py.eq_str role "system"); [discriminate | exact IH].
Qed.

Section ChatPaths.

Variables json_loads literal_eval : string -> result pyval.
Variable requests_post :
  string -> pyval -> list (string * string) -> Z -> result response.

Let chat := ChatSession.chat json_loads literal_eval requests_post.
Let handle_response := ProxyClient.handle_response json_loads literal_eval.

(** The three ways [chat] ends once the user turn is in the history. *)
Lemma chat_paths (self : ChatSession.t) (user_message : string)
    (system_message : option string) :
  chat self user_message system_message =
    match ChatSession.with_system self system_message with
    | Raise e => (self, Raise e)
    | Return before =>
        let sent :=
          ChatSession.add_message before "user" (PStr user_message) in
        match (response <- chat_request requests_post sent ;;
               body <- handle_response response ;;
               ChatSession.assistant_text body) with
        | Return a =>
            (ChatSession.add_message sent "assistant" a, Return a)
        | Raise e =>
            if caught_by [GuardrailViolationError] e
            then (ChatSession.set_messages sent (ChatSession.messages before),
                  Raise e)
            else (sent, Raise e)
        end
    end.
Proof.
  unfold chat, ChatSession.chat.
  destruct (ChatSession.with_system self system_message) as [before|e];
    [|reflexivity].
  cbv zeta. unfold ProxyClient.chat_completion, chat_request.
  fold handle_response.
  destruct (requests_post _ _ _ _) as [response|e]; cbn [bind].
  - destruct (handle_response response) as [body|e]; cbn [bind].
    + destruct (ChatSession.assistant_text body) as [a|e]; [reflexivity|].
      destruct (caught_by [GuardrailViolationError] e); [|reflexivity].
      apply on_violation_pops_user_turn.
    + destruct (caught_by [GuardrailViolationError] e); [|reflexivity].
      apply on_violation_pops_user_turn.
  - destruct (caught_by [GuardrailViolationError] e); [|reflexivity].
    apply on_violation_pops_user_turn.
Qed.

(** When [chat] returns, the history has grown by the user turn and the
    assistant's answer, in this order, after the system message if this
    call put one in; the answer is what [chat] returns and is not
    empty; and a history in which every user turn was answered is still
    one. *)
Theorem chat_success_appends_the_exchange
    (self after : ChatSession.t) (user_message : string)
    (system_message : option string) (a : pyval) :
  chat self user_message system_message = (after, Return a) ->
  exists before,
    ChatSession.with_system self system_message = Return before /\
    ChatSession.messages after =
      (ChatSession.messages before
         ++ [ChatSession.turn "user" (PStr user_message);
             ChatSession.turn "assistant" a])%list /\
    Py.truthy a = true /\
    (ChatSession.all_answered (ChatSession.messages self) = true ->
     ChatSession.all_answered (ChatSession.messages after) = true).
Proof.
  rewrite chat_paths.
  destruct (ChatSession.with_system self system_message) as [before|e] eqn:Hw;
    [|discriminate].
  cbv zeta.
  destruct (chat_request requests_post _) as [response|e]; cbn [bind].
  2:{ destruct (caught_by _ e); discriminate. }
  destruct (handle_response response) as [body|e]; cbn [bind].
  2:{ destruct (caught_by _ e); discriminate. }
  destruct (ChatSession.assistant_text body) as [a'|e] eqn:Ha.
  2:{ destruct (caught_by _ e); discriminate. }
  intros H. injection H as <- <-. exists before.
  split; [reflexivity|]. split.
  { cbn [ChatSession.add_message ChatSession.messages
         ChatSession.set_messages].
    now rewrite <- app_assoc. }
  split; [exact (assistant_text_is_truthy _ Ha)|].
  intros Hall.
  cbn [ChatSession.add_message ChatSession.messages ChatSession.set_messages].
  rewrite <- app_assoc. cbn [app].
  apply all_answered_with_exchange.
  destruct (with_system_messages _ _ Hw) as [-> | (s & _ & ->)];
    [exact Hall | now apply all_answered_with_system].
Qed.

(** When [chat] raises anything but a guardrail violation, the user turn
    stays in the history, unanswered; only a failure of the look for a
    system message leaves the session untouched. *)
Theorem other_failure_keeps_the_user_turn
    (self after : ChatSession.t) (user_message : string)
    (system_message : option string) (e : exc) :
  chat self user_message system_message = (after, Raise e) ->
  caught_by [GuardrailViolationError] e = false ->
  (ChatSession.with_system self system_message = Raise e /\ after = self) \/
  exists before,
    ChatSession.with_system self system_message = Return before /\
    ChatSession.messages after =
      (ChatSession.messages before
         ++ [ChatSession.turn "user" (PStr user_message)])%list /\
    ChatSession.all_answered (ChatSession.messages after) = false.
Proof.
  rewrite chat_paths. intros H Hother.
  destruct (ChatSession.with_system self system_message) as [before|e'] eqn:Hw.
  2:{ injection H as <- <-. now left. }
  right. exists before. split; [reflexivity|].
  cbv zeta in H.
  destruct (bind _ _) as [a|e'] in H; [discriminate|].
  destruct (caught_by [GuardrailViolationError] e') eqn:Hc.
  - injection H as _ ->. congruence.
  - injection H as <- _. split; [reflexivity|].
    cbn [ChatSession.add_message ChatSession.messages
         ChatSession.set_messages].
    induction (ChatSession.messages before) as [|m ms IH]; [reflexivity|].
    cbn [app ChatSession.all_answered]. rewrite IH. apply andb_false_r.
Qed.

(** [chat] never puts a second system message in the history, and
    never changes the client, the model or the guardrails of the
    session. *)
Theorem chat_keeps_one_system_message
    (self : ChatSession.t) (user_message : string)
    (system_message : option string) :
  let after := fst (chat self user_message system_message) in
  ((system_turns (ChatSession.messages self) <= 1)%nat ->
   (system_turns (ChatSession.messages after) <= 1)%nat) /\
  (system_turns (ChatSession.messages self) = 1%nat ->
   system_turns (ChatSession.messages after) = 1%nat) /\
  ChatSession.client after = ChatSession.client self /\
  ChatSession.model after = ChatSession.model self /\
  ChatSession.guardrails after = ChatSession.guardrails self.
Proof.
  cbv zeta. rewrite chat_paths.
  assert (Hbefore : forall before,
             ChatSession.with_system self system_message = Return before ->
             (system_turns (ChatSession.messages before)
                = system_turns (ChatSession.messages self) \/
              (system_turns (ChatSession.messages self) = 0%nat /\
               system_turns (ChatSession.messages before) = 1%nat)) /\
             ChatSession.client before = ChatSession.client self /\
             ChatSession.model before = ChatSession.model self /\
             ChatSession.guardrails before = ChatSession.guardrails self).
  { intros before Hw. unfold ChatSession.with_system in Hw.
    destruct system_message as [[|c s]|];
      try (injection Hw as <-; split; [now left | now repeat split]).
    destruct (ChatSession.any_system (ChatSession.messages self))
      as [[|]|e] eqn:Hany; cbn [bind] in Hw; try discriminate;
      injection Hw as <-.
    - split; [now left | now repeat split].
    - split; [|now repeat split]. right.
      pose proof (any_system_false _ Hany) as H0. split; [exact H0|].
      cbn [ChatSession.add_message ChatSession.messages
           ChatSession.set_messages].
      rewrite system_turns_app, H0. reflexivity. }
  destruct (ChatSession.with_system self system_message) as [before|e].
  2:{ cbn [fst]. repeat split; auto. }
  destruct (Hbefore before eq_refl) as (Hcount & Hc & Hm & Hg).
  assert (Hafter : forall t : ChatSession.t * result pyval,
             (t = (ChatSession.add_message
                     (ChatSession.add_message before "user"
                                              (PStr user_message))
                     "assistant"
                     match snd t with Return a => a | Raise _ => PNone end,
                   snd t) \/
              t = (ChatSession.set_messages
                     (ChatSession.add_message before "user"
                                              (PStr user_message))
                     (ChatSession.messages before), snd t) \/
              t = (ChatSession.add_message before "user" (PStr user_message),
                   snd t)) ->
             system_turns (ChatSession.messages (fst t))
               = system_turns (ChatSession.messages before) /\
             ChatSession.client (fst t) = ChatSession.client before /\
             ChatSession.model (fst t) = ChatSession.model before /\
             ChatSession.guardrails (fst t) = ChatSession.guardrails before).
  { intros t [-> | [-> | ->]];
      cbn [fst ChatSession.add_message ChatSession.messages
           ChatSession.set_messages ChatSession.client ChatSession.model
           ChatSession.guardrails];
      rewrite ?system_turns_app; cbn; repeat split; lia. }
  cbv zeta.
  match goal with
  | |- context [fst ?t] =>
      assert (Hshape : system_turns (ChatSession.messages (fst t))
                         = system_turns (ChatSession.messages before) /\
                       ChatSession.client (fst t) = ChatSession.client before /\
                       ChatSession.model (fst t) = ChatSession.model before /\
                       ChatSession.guardrails (fst t)
                         = ChatSession.guardrails before)
  end.
  { apply Hafter. destruct (bind _ _) as [a|e].
    - now left.
    - destruct (caught_by _ e); [right; now left | right; now right]. }
  destruct Hshape as (Hs' & Hc' & Hm' & Hg').
  rewrite Hs', Hc', Hm', Hg'.
  repeat split; try congruence; destruct Hcount as [-> | [H0 H1]]; lia.
Qed.

End ChatPaths.

(** The list [chat_command] builds for [--no-guardrails] is empty, and
    [ChatSession] reads an empty list like no list at all: with or
    without the flag the session has the guardrail [lakera-guard], and
    a session with these guardrails names it in every request. *)
Theorem no_guardrails_flag_is_ignored
    (client : ProxyClient.t) (model : string) (no_guardrails : bool) :
  let session :=
    ChatSession.init client model
                     (Some (Cli.session_guardrails no_guardrails)) in
  ChatSession.guardrails session = ["lakera-guard"] /\
  forall sent : ChatSession.t,
    ChatSession.guardrails sent = ChatSession.guardrails session ->
    exists p,
      ProxyClient.build_payload (ChatSession.model sent)
        (ChatSession.messages sent) (Some (ChatSession.guardrails sent))
        false [] = PDict p /\
      Py.lookup p "guardrails" = Some (PList [PStr "lakera-guard"]).
Proof.
  cbv zeta.
  assert (H : ChatSession.guardrails
                (ChatSession.init client model
                   (Some (Cli.session_guardrails no_guardrails)))
              = ["lakera-guard"]) by now destruct no_guardrails.
  split; [exact H|]. intros sent Hsent. rewrite Hsent, H.
  eexists. split; reflexivity.
Qed.

Section ChatAnswers.

Variables json_loads literal_eval : string -> result pyval.
Variable requests_post :
  string -> pyval -> list (string * string) -> Z -> result response.

Let chat := ChatSession.chat json_loads literal_eval requests_post.

(** A 200 whose body has no choices, or whose first choice has no
    content, makes [chat] raise an [APIError] that says so, and the user
    turn stays in the history. *)
Theorem response_without_answer_is_an_api_error
    (self before : ChatSession.t) (user_message : string)
    (system_message : option string) (r : response)
    (d : list (pyval * pyval)) :
  let sent := ChatSession.add_message before "user" (PStr user_message) in
  ChatSession.with_system self system_message = Return before ->
  chat_request requests_post sent = Return r ->
  status_code r = 200 ->
  json r = Return (PDict d) ->
  (Py.truthy match Py.lookup d "choices" with
             | Some choices => choices
             | None => PList []
             end = false ->
   chat self user_message system_message =
     (sent, Raise (ExcAPIError "No response choices in API response"))) /\
  (forall first m others,
      Py.lookup d "choices" = Some (PList (PDict first :: others)) ->
      Py.lookup first "message" = Some (PDict m) ->
      Py.truthy match Py.lookup m "content" with
                | Some content => content
                | None => PStr ""
                end = false ->
      chat self user_message system_message =
        (sent, Raise (ExcAPIError "Empty response from assistant"))).
Proof.
  cbv zeta. intros Hw Hreq Hstatus Hjson.
  assert (Hpaths := chat_paths json_loads literal_eval requests_post
                               self user_message system_message).
  rewrite Hw in Hpaths. cbv zeta in Hpaths. rewrite Hreq in Hpaths.
  cbn [bind] in Hpaths.
  unfold ProxyClient.handle_response in Hpaths.
  apply Z.eqb_eq in Hstatus. rewrite Hstatus, Hjson in Hpaths.
  cbn [negb bind] in Hpaths.
  unfold chat. split.
  - intros Hnone. rewrite Hpaths. unfold ChatSession.assistant_text.
    cbn [Py.get].
    destruct (Py.lookup d "choices") as [choices|]; cbn [bind];
      now rewrite Hnone.
  - intros first m others Hchoices Hmessage Hcontent.
    rewrite Hpaths. unfold ChatSession.assistant_text.
    cbn [Py.get]. rewrite Hchoices. cbn [bind Py.truthy Py.getitem0].
    cbn [List.length Nat.eqb negb].
    rewrite (get_present _ _ _ Hmessage). cbn [bind Py.get].
    destruct (Py.lookup m "content") as [content|]; cbn [bind];
      now rewrite Hcontent.
Qed.

End ChatAnswers.

(* ================================================================== *)
(** * More facts about [proxy_manager.py] *)
(* ================================================================== *)

(** A run in an environment is one of the runs of the program. *)
Lemma run_exec {S A : Type} (h : env S) (p : prog A) (s : S) :
  exec p (fst (fst (run h p s))) (snd (run h p s)).
Proof.
  revert s. induction p as [a|e|X ev k IH]; intros s; cbn [run exec].
  - now split.
  - now split.
  - destruct (h X ev s) as [x s1]. specialize (IH x s1).
    destruct (run h (k x) s1) as [[calls s2] r]. cbn [fst snd] in *.
    now exists x, calls.
Qed.

Lemma post_run {S A : Type} (Q : list call -> result A -> Prop)
    (p : prog A) (h : env S) (s : S) :
  post Q p -> Q (fst (fst (run h p s))) (snd (run h p s)).
Proof. intros H. apply H, run_exec. Qed.

Lemma post_ret {A : Type} (Q : list call -> result A -> Prop) (a : A) :
  Q [] (Return a) -> post Q (Ret a).
Proof. intros H calls r [-> ->]. exact H. Qed.

Lemma post_throw {A : Type} (Q : list call -> result A -> Prop) (e : exc) :
  Q [] (Raise e) -> post Q (Throw e).
Proof. intros H calls r [-> ->]. exact H. Qed.

Lemma post_vis {A X : Type} (Q : list call -> result A -> Prop)
    (ev : event X) (k : X -> prog A) :
  (forall x, post (fun calls r => Q (Called ev :: calls) r) (k x)) ->
  post Q (Vis ev k).
Proof. intros H calls r (x & rest & -> & Hrest). exact (H x rest r Hrest). Qed.

Lemma post_bind {A B : Type} (Q : list call -> result B -> Prop)
    (p : prog A) (f : A -> prog B) :
  post (fun calls r =>
          match r with
          | Return a => post (fun calls' r' => Q (calls ++ calls')%list r') (f a)
          | Raise e => Q calls (Raise e)
          end) p ->
  post Q (pbind p f).
Proof.
  revert Q. induction p as [a|e|X ev k IH]; intros Q H; cbn [pbind].
  - specialize (H [] (Return a) (conj eq_refl eq_refl)). exact H.
  - apply post_throw. exact (H [] (Raise e) (conj eq_refl eq_refl)).
  - apply post_vis. intros x. apply IH.
    intros calls r Hexec.
    specialize (H (Called ev :: calls) r).
    cbn [exec] in H. specialize (H (ex_intro _ x (ex_intro _ calls
                                                   (conj eq_refl Hexec)))).
    destruct r; exact H.
Qed.

Lemma post_weaken {A : Type} (Q Q' : list call -> result A -> Prop)
    (p : prog A) :
  post Q p -> (forall calls r, Q calls r -> Q' calls r) -> post Q' p.
Proof. intros H HQ calls r Hexec. apply HQ, H, Hexec. Qed.

Lemma post_trigger {X : Type} (Q : list call -> result X -> Prop)
    (ev : event X) :
  (forall x, Q [Called ev] (Return x)) -> post Q (trigger ev).
Proof. intros H. apply post_vis. intros x. apply post_ret. apply H. Qed.

(** A health check is one [GET]; it returns a boolean or raises. *)
Lemma post_is_running (Q : list call -> result bool -> Prop) :
  (forall r : result bool,
      Q [Called (Get ProxyManager.PROXY_HEALTH_ENDPOINT 2)] r) ->
  post Q ProxyManager.is_running.
Proof.
  intros H. unfold ProxyManager.is_running, trigger. cbn [pbind].
  apply post_vis. intros got.
  destruct (try_except _ _); cbn [lift];
    [apply post_ret | apply post_throw]; apply H.
Qed.

Lemma spawns_app (a b : list call) :
  spawns (a ++ b) = (spawns a + spawns b)%nat.
Proof. unfold spawns. now rewrite filter_app, length_app. Qed.

Lemma stops_app (a b : list call) :
  stops (a ++ b) = (stops a + stops b)%nat.
Proof. unfold stops. now rewrite filter_app, length_app. Qed.

Lemma gets_app (a b : list call) :
  gets (a ++ b) = (gets a + gets b)%nat.
Proof. unfold gets. now rewrite filter_app, length_app. Qed.

Lemma quiet_app (a b : list call) : quiet a -> quiet b -> quiet (a ++ b).
Proof.
  unfold quiet. rewrite spawns_app, stops_app, gets_app. lia.
Qed.

Lemma quiet_nil : quiet [].
Proof. now repeat split. Qed.

Lemma post_print_lines (lines : list string) :
  post (fun calls r => quiet calls /\ r = Return tt)
       (ProxyManager.print_lines lines).
Proof.
  induction lines as [|line lines IH]; cbn [ProxyManager.print_lines].
  - apply post_ret. split; [apply quiet_nil | reflexivity].
  - apply post_bind.
    assert (Hline : post (fun calls (r : result unit) =>
                            quiet calls /\ r = Return tt)
                         match line with
                         | "" => Ret tt
                         | String _ _ => trigger (Print ("  " ++ line))
                         end).
    { destruct line.
      - apply post_ret. split; [apply quiet_nil | reflexivity].
      - apply post_trigger. intros []. now repeat split. }
    eapply post_weaken; [exact Hline|]. intros calls r [Hq ->].
    eapply post_weaken; [exact IH|]. intros calls' r' [Hq' ->].
    split; [now apply quiet_app | reflexivity].
Qed.

Lemma post_read_line (p : popen) (lines : list string) :
  post (fun calls r => quiet calls /\ exists lines', r = Return lines')
       (ProxyManager.read_line p lines).
Proof.
  unfold ProxyManager.read_line. apply post_bind. apply post_trigger.
  intros got. cbn [app].
  assert (Hdone : forall l : list string,
             post (fun calls' (r' : result (list string)) =>
                     quiet (Called (ReadLine p) :: calls') /\
                     exists lines', r' = Return lines') (Ret l)).
  { intros l. apply post_ret. split; [now repeat split | now eexists]. }
  destruct got as [[|c line]|e]; try apply Hdone.
  apply post_bind.
  destruct (ProxyManager.mentions _ _);
    [|destruct (ProxyManager.mentions _ _)];
    try (apply post_trigger; intros []; apply post_ret;
         split; [now repeat split | now eexists]).
  apply post_ret. apply post_ret. split; [now repeat split | now eexists].
Qed.

(** The waiting loop neither spawns nor stops anything; when it ends
    with [return True], its last two events are a health check and the
    line that says the proxy is running. *)
Lemma post_wait_ready (fuel : nat) (p : popen) (timeout : Z)
    (start_time : Q) (lines : list string) :
  post (fun calls r =>
          spawns calls = 0%nat /\ stops calls = 0%nat /\
          forall b, r = Return (Some (inl b)) ->
            b = true /\
            exists before,
              calls =
                (before ++
                 [Called (Get ProxyManager.PROXY_HEALTH_ENDPOINT 2);
                  Called (Print ("✓ LiteLLM proxy is running at "
                                 ++ ProxyManager.PROXY_URL))])%list)
       (ProxyManager.wait_ready fuel p timeout start_time lines).
Proof.
  revert lines. induction fuel as [|fuel IH]; intros lines;
    cbn [ProxyManager.wait_ready].
  { apply post_ret. split; [reflexivity|]; split; [reflexivity|]; intros b Hb; discriminate. }
  apply post_bind. apply post_trigger. intros now.
  destruct (Qlt_le_dec _ _).
  2:{ apply post_ret. split; [reflexivity|]; split; [reflexivity|]; intros b Hb; discriminate. }
  apply post_bind. apply post_trigger. intros exited.
  destruct exited as [code|].
  { apply post_bind. apply post_trigger. intros remaining.
    apply post_ret. split; [reflexivity|]; split; [reflexivity|]; intros b Hb; discriminate. }
  apply post_bind.
  eapply post_weaken; [apply post_read_line|].
  intros calls r [(Hs & Ht & Hg) [lines' ->]].
  apply post_bind. apply post_is_running. intros [running|e].
  2:{ rewrite !spawns_app, !stops_app, Hs, Ht. split; [reflexivity|]; split; [reflexivity|]; intros b Hb; discriminate. }
  destruct running.
  - apply post_bind. apply post_trigger. intros [].
    apply post_ret. rewrite !spawns_app, !stops_app, Hs, Ht.
    split; [reflexivity|]. split; [reflexivity|].
    intros b Hb. injection Hb as <-. split; [reflexivity|].
    exists ([Called Now] ++ [Called (Poll p)] ++ calls)%list.
    rewrite <- !app_assoc. reflexivity.
  - apply post_bind. apply post_trigger. intros [].
    eapply post_weaken; [apply IH|].
    intros calls' r' (Hs' & Ht' & Hend).
    rewrite !spawns_app, !stops_app, Hs, Ht, Hs', Ht'.
    split; [reflexivity|]. split; [reflexivity|].
    intros b Hb. destruct (Hend b Hb) as [-> [before ->]].
    split; [reflexivity|].
    exists ([Called Now] ++ [Called (Poll p)] ++ calls
            ++ [Called (Get ProxyManager.PROXY_HEALTH_ENDPOINT 2)]
            ++ [Called (Sleep (1 # 2))] ++ before)%list.
    rewrite <- !app_assoc. reflexivity.
Qed.

(** Reporting the failure spawns nothing and ends with [stop], which
    leaves the manager without a process. *)
Lemma post_report_failure (self : ProxyManager.t) (p : popen) (timeout : Z)
    (lines : list string) :
  post (fun calls r =>
          spawns calls = 0%nat /\
          r = Return (ProxyManager.set_process self None, false) /\
          exists before,
            calls = (before ++ [Called (StopSweep (ProxyManager.process self))])%list)
       (ProxyManager.report_failure self p timeout lines).
Proof.
  unfold ProxyManager.report_failure, ProxyManager.stop.
  apply post_bind. apply post_trigger. intros [].
  apply post_bind.
  assert (Hlines : post (fun calls (r : result unit) =>
                           quiet calls /\ r = Return tt)
                        match lines with
                        | [] => Ret tt
                        | _ :: _ =>
                            pbind (trigger (Print (Text.nl ++ "Proxy output:")))
                              (fun _ => ProxyManager.print_lines
                                          (ProxyManager.last20 lines))
                        end).
  { destruct lines as [|l lines].
    - apply post_ret. split; [apply quiet_nil | reflexivity].
    - apply post_bind. apply post_trigger. intros [].
      eapply post_weaken; [apply post_print_lines|].
      intros calls r [Hq ->]. split; [|reflexivity].
      apply (@quiet_app [Called (Print (Text.nl ++ "Proxy output:"))] calls);
        [now repeat split | exact Hq]. }
  eapply post_weaken; [exact Hlines|].
  intros calls r [(Hs & Ht & Hg) ->].
  apply post_bind. apply post_trigger. intros exited.
  apply post_bind.
  assert (Hcode : post (fun calls (r : result unit) =>
                          quiet calls /\ r = Return tt)
                       match exited with
                       | Some exit_code =>
                           trigger (Print (Text.nl
                                           ++ "Proxy process exited with code: "
                                           ++ Text.str_of_Z exit_code))
                       | None => Ret tt
                       end).
  { destruct exited.
    - apply post_trigger. intros []. now repeat split.
    - apply post_ret. split; [apply quiet_nil | reflexivity]. }
  eapply post_weaken; [exact Hcode|].
  intros calls' r' [(Hs' & Ht' & Hg') ->].
  apply post_bind. apply post_bind. apply post_trigger. intros [].
  apply post_ret. apply post_ret.
  rewrite !spawns_app, Hs, Hs'. split; [reflexivity|]. split; [reflexivity|].
  eexists. rewrite !app_assoc. rewrite app_nil_r. rewrite app_nil_r.
  reflexivity.
Qed.

(** What every run of [start] looks like. *)
Lemma post_start (sys_executable : string) (fuel : nat)
    (self : ProxyManager.t) (wait_for_ready : bool) (timeout : Z) :
  post (fun calls r =>
          (spawns calls <= 1)%nat /\
          (forall self',
              r = Return (Some (self', false)) ->
              (spawns calls = 0%nat /\ stops calls = 0%nat /\ self' = self) \/
              (spawns calls = 1%nat /\
               self' = ProxyManager.set_process self None /\
               exists before p,
                 calls = (before ++ [Called (StopSweep (Some p))])%list)) /\
          (forall self',
              r = Return (Some (self', true)) ->
              stops calls = 0%nat /\
              ((spawns calls = 0%nat /\ self' = self) \/
               (spawns calls = 1%nat /\
                (exists p, self' = ProxyManager.set_process self (Some p)) /\
                if wait_for_ready
                then exists before,
                    calls =
                      (before ++
                       [Called (Get ProxyManager.PROXY_HEALTH_ENDPOINT 2);
                        Called (Print ("✓ LiteLLM proxy is running at "
                                       ++ ProxyManager.PROXY_URL))])%list
                else exists before cmd,
                    calls = (before ++ [Called (Popen cmd)])%list /\
                    gets calls = 1%nat))))
       (ProxyManager.start sys_executable fuel self wait_for_ready timeout).
Proof.
  unfold ProxyManager.start.
  apply post_bind. apply post_is_running. intros [running|e].
  2:{ split; [cbn; lia|]. split; intros self' H; discriminate. }
  destruct running.
  { apply post_bind. apply post_trigger. intros []. apply post_ret.
    split; [cbn; lia|]. split; intros self' H; [discriminate|].
    injection H as <-. split; [reflexivity|]. left. now split. }
  apply post_bind. apply post_trigger. intros config_exists.
  destruct config_exists; cbn [negb].
  2:{ apply post_bind. apply post_trigger. intros []. apply post_ret.
      split; [cbn; lia|]. split; intros self' H; [|discriminate].
      injection H as <-. left. now repeat split. }
  apply post_bind.
  assert (Hsource : post (fun calls (r : result bool) =>
                            quiet calls /\ exists b, r = Return b)
                         match ProxyManager.litellm_path self with
                         | Some path => trigger (PathExists path)
                         | None => Ret false
                         end).
  { destruct (ProxyManager.litellm_path self).
    - apply post_trigger. intros b. split; [now repeat split | now eexists].
    - apply post_ret. split; [apply quiet_nil | now eexists]. }
  eapply post_weaken; [exact Hsource|].
  intros calls r [(Hs & Ht & Hg) [from_source ->]].
  apply post_bind. apply post_trigger. intros [].
  apply post_bind. apply post_trigger. intros [].
  apply post_bind. apply post_trigger. intros p.
  destruct wait_for_ready.
  2:{ apply post_ret.
      rewrite !spawns_app, !stops_app, Hs, Ht.
      split; [cbn; lia|]. split; intros self' H; [discriminate|].
      injection H as <-. split; [reflexivity|]. right.
      split; [reflexivity|]. split; [now eexists|].
      eexists. eexists. split.
      - rewrite app_nil_r, !app_assoc. reflexivity.
      - rewrite !gets_app, Hg. reflexivity. }
  apply post_bind. apply post_trigger. intros [].
  apply post_bind. apply post_trigger. intros start_time.
  apply post_bind.
  eapply post_weaken; [apply post_wait_ready|].
  intros calls' r' (Hs' & Ht' & Hend).
  destruct r' as [[[b|lines]|]|e].
  - apply post_ret.
    rewrite !spawns_app, !stops_app, Hs, Ht, Hs', Ht'.
    destruct (Hend b eq_refl) as [-> [before ->]].
    split; [cbn; lia|]. split; intros self' H; [discriminate|].
    injection H as <-. split; [reflexivity|]. right.
    split; [reflexivity|]. split; [now eexists|].
    eexists. rewrite app_nil_r, !app_assoc. reflexivity.
  - apply post_bind.
    eapply post_weaken; [apply post_report_failure|].
    intros calls'' r'' (Hs'' & -> & [before Hstop]).
    apply post_ret. subst calls''.
    rewrite !spawns_app in *. rewrite Hs, Hs'.
    cbn [ProxyManager.process ProxyManager.set_process] in *.
    split; [cbn in *; lia|]. split; intros self' H; [|discriminate].
    injection H as <-. right.
    split; [cbn in *; lia|]. split; [reflexivity|].
    eexists. exists p. rewrite app_nil_r, !app_assoc. reflexivity.
  - apply post_ret. rewrite !spawns_app, Hs, Hs'.
    split; [cbn; lia|]. split; intros self' H; discriminate.
  - rewrite !spawns_app, Hs, Hs'.
    split; [cbn; lia|]. split; intros self' H; discriminate.
Qed.

(** [start] spawns at most one process. When it returns [False] it
    either spawned nothing and stopped nothing (the settings file is
    missing) or its last act was [stop] on the process it had spawned,
    and it holds no process. *)
Theorem start_fails_only_after_cleaning_up {S : Type} (h : env S) (s : S)
    (sys_executable : string) (fuel : nat) (self : ProxyManager.t)
    (wait_for_ready : bool) (timeout : Z) :
  let out := run h (ProxyManager.start sys_executable fuel self
                                       wait_for_ready timeout) s in
  let calls := fst (fst out) in
  (spawns calls <= 1)%nat /\
  forall self',
    snd out = Return (Some (self', false)) ->
    (spawns calls = 0%nat /\ stops calls = 0%nat /\ self' = self) \/
    (spawns calls = 1%nat /\
     self' = ProxyManager.set_process self None /\
     exists before p, calls = (before ++ [Called (StopSweep (Some p))])%list).
Proof.
  cbv zeta.
  pose proof (post_run h s (@post_start sys_executable fuel self
                                       wait_for_ready timeout)) as H.
  cbv beta in H. tauto.
Qed.

(** When [start] returns [True], nothing was stopped, and either
    nothing was spawned and the manager is as it was (the proxy was
    running already), or one process was spawned and the manager holds
    it; in that case, if [start] was to wait, its last two events are
    a health check and the line that says the proxy is running. *)
Theorem start_succeeds_holding_the_process {S : Type} (h : env S) (s : S)
    (sys_executable : string) (fuel : nat) (self : ProxyManager.t)
    (timeout : Z) (self' : ProxyManager.t) :
  let out := run h (ProxyManager.start sys_executable fuel self
                                       true timeout) s in
  let calls := fst (fst out) in
  snd out = Return (Some (self', true)) ->
  stops calls = 0%nat /\
  ((spawns calls = 0%nat /\ self' = self) \/
   (spawns calls = 1%nat /\
    (exists p, self' = ProxyManager.set_process self (Some p)) /\
    exists before,
      calls =
        (before ++
         [Called (Get ProxyManager.PROXY_HEALTH_ENDPOINT 2);
          Called (Print ("✓ LiteLLM proxy is running at "
                         ++ ProxyManager.PROXY_URL))])%list)).
Proof.
  cbv zeta.
  pose proof (post_run h s (@post_start sys_executable fuel self
                                       true timeout)) as H.
  cbv beta in H. destruct H as (_ & _ & H). exact (H self').
Qed.

(** Without [wait_for_ready], a [start] that spawns returns [True] at
    once: the spawn is its last event and the first health check is the
    only one, so whether the new process ever answers is not looked
    at. *)
Theorem start_without_waiting_never_checks_the_new_process
    {S : Type} (h : env S) (s : S)
    (sys_executable : string) (fuel : nat) (self : ProxyManager.t)
    (timeout : Z) (self' : ProxyManager.t) :
  let out := run h (ProxyManager.start sys_executable fuel self
                                       false timeout) s in
  let calls := fst (fst out) in
  snd out = Return (Some (self', true)) ->
  spawns calls = 1%nat ->
  stops calls = 0%nat /\
  (exists p, self' = ProxyManager.set_process self (Some p)) /\
  exists before cmd,
    calls = (before ++ [Called (Popen cmd)])%list /\ gets calls = 1%nat.
Proof.
  cbv zeta.
  pose proof (post_run h s (@post_start sys_executable fuel self
                                       false timeout)) as H.
  cbv beta in H. destruct H as (_ & _ & H).
  intros Hout Hspawn. destruct (H self' Hout) as [Hstop [[H0 _] | [_ H1]]].
  - rewrite H0 in Hspawn. discriminate.
  - split; [exact Hstop | exact H1].
Qed.

(** Without the settings file [start] fails fast: after the health check
    it looks for the file, prints the error and returns [False]; nothing
    is spawned and the manager is as it was. *)
Theorem start_without_settings_file_fails_fast {S : Type} (h : env S)
    (s s1 : S) (calls : list call) (sys_executable : string) (fuel : nat)
    (self : ProxyManager.t) (wait_for_ready : bool) (timeout : Z) :
  run h ProxyManager.is_running s = (calls, s1, Return false) ->
  fst (h _ (PathExists (ProxyManager.config_path self)) s1) = false ->
  exists s2,
    run h (ProxyManager.start sys_executable fuel self wait_for_ready timeout) s
    = ([Called (Get ProxyManager.PROXY_HEALTH_ENDPOINT 2);
        Called (PathExists (ProxyManager.config_path self));
        Called (Print ("Error: Config file not found: "
                       ++ ProxyManager.config_path self))],
       s2, Return (Some (self, false))).
Proof.
  intros Hrunning Hmissing. pose proof (run_is_running h s) as Hcheck.
  rewrite Hrunning in Hcheck. injection Hcheck as -> -> Hfalse.
  unfold ProxyManager.start. rewrite run_pbind, run_is_running, <- Hfalse.
  unfold trigger. cbn [pbind run].
  destruct (h _ (PathExists (ProxyManager.config_path self)) _)
    as [exists_ s2]. cbn [fst] in Hmissing. subst exists_.
  cbn [negb pbind run].
  destruct (h _ (Print _) s2) as [[] s3]. now exists s3.
Qed.

(** [ensure_running] is one health check and, only when that one fails,
    [start] with its defaults: with the proxy running it does nothing
    else, not even print. *)
Theorem ensure_running_checks_then_starts {S : Type} (h : env S) (s s1 : S)
    (calls : list call) (running : bool) (sys_executable : string)
    (fuel : nat) (self : ProxyManager.t) :
  run h ProxyManager.is_running s = (calls, s1, Return running) ->
  run h (ProxyManager.ensure_running sys_executable fuel self) s =
    if running then (calls, s1, Return (Some (self, true)))
    else
      let '(calls', s2, r) :=
        run h (ProxyManager.start sys_executable fuel self true 30) s1 in
      ((calls ++ calls')%list, s2, r).
Proof.
  intros Hrunning. unfold ProxyManager.ensure_running.
  rewrite run_pbind, Hrunning. destruct running; cbn [negb run].
  - now rewrite app_nil_r.
  - reflexivity.
Qed.

(* ================================================================== *)
(** * Facts about [cli.py] *)
(* ================================================================== *)

Section CliFacts.

Variable getenv : string -> option string.
Variable absolute : string -> string.
Variable sys_executable : string.

Lemma post_print_missing (missing : list string) :
  post (fun calls r =>
          calls = map (fun var => Called (Print ("  - " ++ var))) missing /\
          r = Return tt)
       (Cli.print_missing missing).
Proof.
  induction missing as [|var missing IH]; cbn [Cli.print_missing].
  - apply post_ret. now split.
  - apply post_bind. apply post_trigger. intros [].
    eapply post_weaken; [exact IH|]. intros calls r [-> ->]. now split.
Qed.

(** What [check_env_vars] returns and prints, by the keys its own test
    finds missing. *)
Lemma check_env_vars_trace {S : Type} (h : env S) (s : S) :
  let out := run h (Cli.check_env_vars getenv) s in
  let missing := filter (Cli.unset getenv)
                        ["OPENAI_API_KEY"; "LAKERA_API_KEY"] in
  snd out = Return match missing with [] => true | _ => false end /\
  fst (fst out) =
    match missing with
    | [] => []
    | _ =>
        ([Called (Print "Error: Missing required environment variables:")]
         ++ map (fun var => Called (Print ("  - " ++ var))) missing
         ++ [Called (Print (Text.nl
                            ++ "Please set these in your .env file or environment."));
             Called (Print "See .env.example for reference.")])%list
    end.
Proof.
  cbv zeta.
  apply (@post_run S bool
           (fun calls r =>
              r = Return match filter (Cli.unset getenv)
                                      ["OPENAI_API_KEY"; "LAKERA_API_KEY"] with
                         | [] => true | _ => false end /\
              calls =
                match filter (Cli.unset getenv)
                             ["OPENAI_API_KEY"; "LAKERA_API_KEY"] with
                | [] => []
                | _ =>
                    ([Called (Print "Error: Missing required environment variables:")]
                     ++ map (fun var => Called (Print ("  - " ++ var)))
                            (filter (Cli.unset getenv)
                                    ["OPENAI_API_KEY"; "LAKERA_API_KEY"])
                     ++ [Called (Print (Text.nl
                                        ++ "Please set these in your .env file or environment."));
                         Called (Print "See .env.example for reference.")])%list
                end)).
  unfold Cli.check_env_vars.
  destruct (filter (Cli.unset getenv) ["OPENAI_API_KEY"; "LAKERA_API_KEY"])
    as [|var missing] eqn:Hmissing.
  - apply post_ret. now split.
  - apply post_bind. apply post_trigger. intros [].
    apply post_bind.
    eapply post_weaken; [apply post_print_missing|]. intros calls r [-> ->].
    apply post_bind. apply post_trigger. intros [].
    apply post_bind. apply post_trigger. intros [].
    apply post_ret. split; [reflexivity|].
    rewrite app_nil_r. reflexivity.
Qed.

Lemma unset_is_not_set (var : string) :
  Cli.unset getenv var = negb (is_set getenv var).
Proof.
  unfold Cli.unset, is_set. now destruct (getenv var) as [[|c value]|].
Qed.

(** [check_env_vars] returns [True] exactly when both keys are set to a
    text that is not empty, and then prints nothing; otherwise it
    prints the heading, one line for each key that is missing, in the
    order OPENAI, LAKERA, and the two lines of advice. *)
Theorem check_env_vars_names_what_is_missing {S : Type} (h : env S) (s : S) :
  let out := run h (Cli.check_env_vars getenv) s in
  let openai := is_set getenv "OPENAI_API_KEY" in
  let lakera := is_set getenv "LAKERA_API_KEY" in
  snd out = Return (openai && lakera)%bool /\
  fst (fst out) =
    if (openai && lakera)%bool then []
    else
      ([Called (Print "Error: Missing required environment variables:")]
       ++ (if openai then [] else [Called (Print "  - OPENAI_API_KEY")])
       ++ (if lakera then [] else [Called (Print "  - LAKERA_API_KEY")])
       ++ [Called (Print (Text.nl
                          ++ "Please set these in your .env file or environment."));
           Called (Print "See .env.example for reference.")])%list.
Proof.
  clear absolute sys_executable.
  pose proof (check_env_vars_trace h s) as H. cbv zeta in H. cbv zeta.
  cbn [filter] in H. rewrite !unset_is_not_set in H.
  destruct (is_set getenv "OPENAI_API_KEY");
    destruct (is_set getenv "LAKERA_API_KEY"); exact H.
Qed.

Lemma post_make_manager (config : option string) :
  post (fun calls r =>
          quiet calls /\
          exists m, r = Return m /\ ProxyManager.process m = None /\
                    ProxyManager.config_path m
                      = absolute (Cli.or_default config "config.yaml"))
       (Cli.make_manager absolute config).
Proof.
  unfold Cli.make_manager. apply post_bind. apply post_trigger. intros here.
  apply post_ret. split; [now repeat split|].
  eexists. split; [reflexivity|]. now split.
Qed.

(** [proxy restart] stops first, without asking whether anything runs
    and without a process of its own to terminate; it spawns at most
    one process, and its exit code is 0 or 1. *)
Theorem restart_stops_before_it_starts {S : Type} (h : env S) (s : S)
    (fuel : nat) (config : option string) :
  let out :=
    run h (Cli.proxy_command absolute sys_executable fuel
             {| Cli.proxy_action := Some "restart"; Cli.config := config |})
        s in
  let calls := fst (fst out) in
  (exists before after,
      calls = (before ++ Called (StopSweep None) :: after)%list /\
      quiet before) /\
  (spawns calls <= 1)%nat /\
  forall code, snd out = Return (Some code) -> code = 0 \/ code = 1.
Proof.
  cbv zeta.
  apply (@post_run S (option Z)
           (fun calls r =>
              (exists before after,
                  calls = (before ++ Called (StopSweep None) :: after)%list /\
                  quiet before) /\
              (spawns calls <= 1)%nat /\
              forall code, r = Return (Some code) -> code = 0 \/ code = 1)).
  unfold Cli.proxy_command. cbn [Cli.proxy_action Cli.config].
  apply post_bind.
  eapply post_weaken; [apply post_make_manager|].
  intros calls r [Hq (m & -> & Hnone & _)].
  apply post_bind. apply post_trigger. intros [].
  apply post_bind. unfold ProxyManager.stop. rewrite Hnone.
  apply post_bind. apply post_trigger. intros []. apply post_ret.
  apply post_bind. apply post_trigger. intros [].
  apply post_bind.
  eapply post_weaken; [apply post_start|].
  intros calls' r' (Hspawn & _ & _).
  assert (Hfront : quiet (calls ++ [Called (Print "Restarting LiteLLM proxy server...")])).
  { apply quiet_app; [exact Hq | now repeat split]. }
  assert (Hshape : forall tail,
             exists before after,
               (calls ++ [Called (Print "Restarting LiteLLM proxy server...")]
                ++ ([Called (StopSweep None)] ++ [])
                ++ [Called (Sleep 1)] ++ calls' ++ tail)%list
               = (before ++ Called (StopSweep None) :: after)%list /\
               quiet before).
  { intros tail. eexists. eexists. split; [|exact Hfront].
    rewrite <- !app_assoc. reflexivity. }
  assert (Hcount : forall tail,
             spawns tail = 0%nat ->
             (spawns (calls ++ [Called (Print "Restarting LiteLLM proxy server...")]
                      ++ ([Called (StopSweep None)] ++ [])
                      ++ [Called (Sleep 1)] ++ calls' ++ tail) <= 1)%nat).
  { intros tail Htail. destruct Hq as (Hs & _ & _).
    rewrite !spawns_app, Hs, Htail. cbn. lia. }
  destruct r' as [[[m' [|]]|]|e].
  - apply post_bind. apply post_trigger. intros [].
    apply post_bind. apply post_trigger. intros [].
    apply post_ret. split; [apply Hshape|]. split; [now apply Hcount|].
    intros code H. injection H as <-. now left.
  - apply post_bind. apply post_trigger. intros [].
    apply post_ret. split; [apply Hshape|]. split; [now apply Hcount|].
    intros code H. injection H as <-. now right.
  - apply post_ret. split; [apply Hshape|]. split; [now apply Hcount|].
    intros code H. discriminate.
  - split; [|split; [|intros code H; discriminate]].
    + eexists. eexists. split; [|exact Hfront].
      rewrite <- !app_assoc. reflexivity.
    + destruct Hq as (Hs & _ & _). rewrite !spawns_app, Hs. cbn. lia.
Qed.

(** [proxy stop] and [proxy status] look for the [litellm] directory,
    make one health check and act on its answer, and spawn nothing.
    [stop] calls [stop], on a manager that holds no process, when the
    check says the proxy runs, prints that it is not running
    otherwise, and exits with 0 either way; [status] prints one line
    and exits with 0 when the proxy runs, with 1 when it does not. *)
Theorem stop_and_status_follow_the_health_check {S : Type} (h : env S)
    (s s2 : S) (calls : list call) (running : bool) (fuel : nat)
    (config : option string) :
  run h ProxyManager.is_running (snd (h _ (PathExists "litellm") s))
    = (calls, s2, Return running) ->
  let command action :=
    run h (Cli.proxy_command absolute sys_executable fuel
             {| Cli.proxy_action := Some action; Cli.config := config |}) s in
  (fst (fst (command "stop")) =
     (Called (PathExists "litellm") :: calls
      ++ [Called (if running then StopSweep None
                  else Print "Proxy is not running")])%list /\
   snd (command "stop") = Return (Some 0)) /\
  (fst (fst (command "status")) =
     (Called (PathExists "litellm") :: calls
      ++ [Called (Print (if running
                         then "✓ Proxy is running at " ++ ProxyManager.PROXY_URL
                         else "✗ Proxy is not running"))])%list /\
   snd (command "status") = Return (Some (if running then 0 else 1))).
Proof.
  intros Hrunning. cbv zeta.
  unfold Cli.proxy_command, Cli.make_manager, ProxyManager.stop, trigger.
  cbn [Cli.proxy_action Cli.config pbind run].
  destruct (h _ (PathExists "litellm") s) as [here s1].
  cbn [snd] in Hrunning. cbn [pbind run]. rewrite !run_pbind, Hrunning.
  destruct running; cbn [pbind run ProxyManager.process ProxyManager.init].
  - destruct (h unit (StopSweep None) s2) as [[] s3].
    destruct (h unit (Print _) s2) as [[] s4]. now repeat split.
  - destruct (h unit (Print "Proxy is not running") s2) as [[] s3].
    destruct (h unit (Print _) s2) as [[] s4]. now repeat split.
Qed.

(** [proxy] without an action, or with one that is none of [restart],
    [stop] and [status], only looks for the [litellm] directory, prints
    the usage line and exits with 1: no health check, nothing spawned,
    nothing stopped. *)
Theorem unknown_proxy_action_touches_nothing {S : Type} (h : env S) (s : S)
    (fuel : nat) (config action : option string) :
  ~ In action [Some "restart"; Some "stop"; Some "status"] ->
  let out :=
    run h (Cli.proxy_command absolute sys_executable fuel
             {| Cli.proxy_action := action; Cli.config := config |}) s in
  fst (fst out) =
    [Called (PathExists "litellm");
     Called (Print "Unknown proxy action. Use: restart, stop, or status")] /\
  snd out = Return (Some 1).
Proof.
  clear getenv. intros Hother.
  assert (H : exists s2,
             run h (Cli.proxy_command absolute sys_executable fuel
                      {| Cli.proxy_action := action; Cli.config := config |}) s
             = ([Called (PathExists "litellm");
                 Called (Print "Unknown proxy action. Use: restart, stop, or status")],
                s2, Return (Some 1))).
  { unfold Cli.proxy_command, Cli.make_manager. unfold trigger at 1.
    cbn [Cli.proxy_action Cli.config pbind run].
    destruct (h _ (PathExists "litellm") s) as [here s1]. cbn [pbind].
    assert (Hrun :
              run h (trigger (Print "Unknown proxy action. Use: restart, stop, or status") ;;;
                     Ret (Some 1))%prog s1
              = ([Called (Print "Unknown proxy action. Use: restart, stop, or status")],
                 snd (h _ (Print "Unknown proxy action. Use: restart, stop, or status") s1),
                 Return (Some 1))).
    { unfold trigger. cbn [pbind run].
      now destruct (h _ (Print _) s1) as [[] s2]. }
    destruct action as [a|]; [|rewrite Hrun; eexists; reflexivity].
    repeat (destruct a as [|[b0 b1 b2 b3 b4 b5 b6 b7] a];
            [first [rewrite Hrun; eexists; reflexivity
                   | exfalso; apply Hother; cbn; tauto]
            |destruct b0; try (rewrite Hrun; eexists; reflexivity);
             destruct b1; try (rewrite Hrun; eexists; reflexivity);
             destruct b2; try (rewrite Hrun; eexists; reflexivity);
             destruct b3; try (rewrite Hrun; eexists; reflexivity);
             destruct b4; try (rewrite Hrun; eexists; reflexivity);
             destruct b5; try (rewrite Hrun; eexists; reflexivity);
             destruct b6; try (rewrite Hrun; eexists; reflexivity);
             destruct b7; try (rewrite Hrun; eexists; reflexivity)]). }
  destruct H as [s2 H]. cbv zeta. rewrite H. now split.
Qed.

End CliFacts.

(* ================================================================== *)
(** * The further properties on worked examples *)
(* ================================================================== *)

Lemma decoder_is_library (table : list (string * pyval)) (c : exc_class) :
  library_decoder (Examples.decoder table c).
Proof.
  intros s. unfold Examples.decoder.
  destruct (find _ table); cbn; eauto.
Qed.

(** One entry without [detected], one detected without a type, one
    whose [detected] is the number 1. *)
Lemma direct_form_defaults_example :
  ProxyClient.find_violations Examples.json_loads Examples.literal_eval
    (obj [(ProxyClient.GUARD_KEY,
           obj [("breakdown",
                 PList [obj [("detector_type", PStr "pii/name")];
                        obj [("detected", PBool true)];
                        obj [("detector_type", PStr "jailbreak");
                             ("detected", PInt 1)]])])])
  = Return {| ProxyClient.found := [PStr "unknown"; PStr "jailbreak"];
              ProxyClient.lakera :=
                obj [("breakdown",
                      PList [obj [("detector_type", PStr "pii/name")];
                             obj [("detected", PBool true)];
                             obj [("detector_type", PStr "jailbreak");
                                  ("detected", PInt 1)]])];
              ProxyClient.scores := None |}.
Proof.
  apply (@direct_form_uses_defaults
           Examples.json_loads Examples.literal_eval
           [(PStr ProxyClient.GUARD_KEY,
             obj [("breakdown",
                   PList [obj [("detector_type", PStr "pii/name")];
                          obj [("detected", PBool true)];
                          obj [("detector_type", PStr "jailbreak");
                               ("detected", PInt 1)]])])]
           [(PStr "breakdown",
             PList [obj [("detector_type", PStr "pii/name")];
                    obj [("detected", PBool true)];
                    obj [("detector_type", PStr "jailbreak");
                         ("detected", PInt 1)]])]
           [[(PStr "detector_type", PStr "pii/name")];
            [(PStr "detected", PBool true)];
            [(PStr "detector_type", PStr "jailbreak");
             (PStr "detected", PInt 1)]]).
  - reflexivity.
  - reflexivity.
Defined.

(** A detected entry followed by a text where an entry should be. *)
Lemma malformed_breakdown_example :
  let body :=
    obj [(ProxyClient.GUARD_KEY,
          obj [("breakdown",
                PList [Examples.entry "pii/email" true; PStr "oops"])])] in
  ProxyClient.handle_response Examples.json_loads Examples.literal_eval
    (Examples.error_response 400 body "raw text")
  = Raise (ExcAPIError "API error (400): raw text").
Proof.
  cbv zeta.
  apply (proj1 (@malformed_breakdown_outcomes
                  Examples.json_loads Examples.literal_eval
                  (Examples.error_response 400
                     (obj [(ProxyClient.GUARD_KEY,
                            obj [("breakdown",
                                  PList [Examples.entry "pii/email" true;
                                         PStr "oops"])])]) "raw text")
                  [(PStr ProxyClient.GUARD_KEY,
                    obj [("breakdown",
                          PList [Examples.entry "pii/email" true;
                                 PStr "oops"])])]
                  [(PStr "breakdown",
                    PList [Examples.entry "pii/email" true; PStr "oops"])]
                  (PList [Examples.entry "pii/email" true; PStr "oops"])
                  ltac:(simpl; lia) eq_refl eq_refl eq_refl)
               [[(PStr "detector_type", PStr "pii/email");
                 (PStr "detected", PBool true)]]
               (PStr "oops") []).
  - reflexivity.
  - reflexivity.
Defined.

(** Status 500 with [{"error": "internal failure"}]: the generic error
    names the status and the failure. *)
Lemma generic_error_example :
  let body := obj [("error", PStr "internal failure")] in
  let r := Examples.error_response 500 body "" in
  ProxyClient.handle_response Examples.json_loads Examples.literal_eval r
    = Raise (ExcAPIError "API error (500): internal failure") /\
  exists detail,
    ProxyClient.handle_response Examples.json_loads Examples.literal_eval r
      = Raise (ExcAPIError ("API error (" ++ Text.str_of_Z 500
                            ++ "): " ++ detail)) /\
    Text.contains ("API error (" ++ Text.str_of_Z 500 ++ "): " ++ detail)
                  (Text.str_of_Z 500) /\
    (forall d error,
        body = PDict d -> Py.lookup d "error" = Some error ->
        detail = error_detail error) /\
    ((forall d, body <> PDict d) -> detail = "").
Proof.
  cbv zeta. split; [reflexivity|].
  apply (@generic_error_carries_status
           Examples.json_loads Examples.literal_eval
           (Examples.error_response 500
              (obj [("error", PStr "internal failure")]) "")
           (obj [("error", PStr "internal failure")])).
  - simpl. lia.
  - reflexivity.
  - split; [reflexivity|]. intros error Herror. injection Herror as <-.
    split.
    + intros s Hs. injection Hs as <-. left.
      exists (Exc JSONDecodeError), (Exc SyntaxError). now repeat split.
    + intros eo legacy Heo. discriminate.
Defined.

(** [{"error": {"message": "internal failure"}}] with status 503. *)
Lemma plain_error_text_example :
  ProxyClient.handle_response Examples.json_loads Examples.literal_eval
    (Examples.error_response 503
       (obj [("error", obj [("message", PStr "internal failure")])]) "")
  = Raise (ExcAPIError "API error (503): internal failure").
Proof.
  apply (@plain_error_text_passes_through
           Examples.json_loads Examples.literal_eval
           (Examples.error_response 503
              (obj [("error", obj [("message", PStr "internal failure")])]) "")
           [(PStr "error", obj [("message", PStr "internal failure")])]
           "internal failure").
  - simpl. lia.
  - reflexivity.
  - reflexivity.
  - right. exists [(PStr "message", PStr "internal failure")].
    repeat split.
  - left. exists (Exc JSONDecodeError), (Exc SyntaxError). now repeat split.
Defined.

(** A body with the key and nothing detected, whose [error] field the
    other forms would read violations from: the generic error. *)
Lemma quiet_direct_form_example :
  let r := Examples.error_response 400 Examples.quiet_direct_body "" in
  exists detail,
    ProxyClient.handle_response Examples.json_loads Examples.literal_eval r =
      Raise (ExcAPIError ("API error (" ++ Text.str_of_Z 400
                          ++ "): " ++ detail)) /\
    ProxyClient.handle_response
      (fun _ => Return Examples.attack_payload)
      (fun _ => Return Examples.attack_payload) r =
    ProxyClient.handle_response Examples.json_loads Examples.literal_eval r /\
    forall error,
      Py.lookup
        [(PStr ProxyClient.GUARD_KEY,
          obj [("breakdown", PList [Examples.entry "pii/email" false])]);
         (PStr "error",
          obj [("message", PStr Examples.attack_json);
               ("lakera_ai_response", Examples.moderation true)])]
        "error" = Some error ->
      detail = error_detail error.
Proof.
  cbv zeta.
  apply (@quiet_direct_form_is_generic
           Examples.json_loads Examples.literal_eval
           (fun _ => Return Examples.attack_payload)
           (fun _ => Return Examples.attack_payload)
           (Examples.error_response 400 Examples.quiet_direct_body "")
           [(PStr ProxyClient.GUARD_KEY,
             obj [("breakdown", PList [Examples.entry "pii/email" false])]);
            (PStr "error",
             obj [("message", PStr Examples.attack_json);
                  ("lakera_ai_response", Examples.moderation true)])]
           [(PStr "breakdown", PList [Examples.entry "pii/email" false])]).
  - simpl. lia.
  - reflexivity.
  - reflexivity.
  - reflexivity.
Defined.

(** [{"error": "<the payload as a Python literal>"}]. *)
Lemma string_error_example :
  exists lr,
    ProxyClient.find_violations Examples.json_loads Examples.literal_eval
      (obj [("error", PStr Examples.attack_literal)])
    = Return {| ProxyClient.found :=
                  detected_types [Examples.entry "prompt_attack" true];
                ProxyClient.lakera := lr;
                ProxyClient.scores := None |}.
Proof.
  apply (@string_error_carries_the_payload
           Examples.json_loads Examples.literal_eval
           [(PStr "error", PStr Examples.attack_literal)]
           Examples.attack_literal Examples.attack_payload).
  - reflexivity.
  - reflexivity.
  - reflexivity.
  - reflexivity.
Defined.

Lemma legacy_form_example :
  exists g,
    ProxyClient.handle_response Examples.json_loads Examples.literal_eval
      (Examples.error_response 400 Examples.legacy_body "")
      = Raise (ExcGuardrailViolation g) /\
    violations g = [PStr "hate"] /\
    category_scores g = [] /\
    lakera_response g = Examples.moderation true.
Proof.
  change [PStr "hate"]
    with (true_categories
            [(PStr "hate", PBool true); (PStr "violence", PBool false)]).
  eapply (@legacy_form_raises_flagged_categories
            Examples.json_loads Examples.literal_eval
            (Examples.error_response 400 Examples.legacy_body "")
            [(PStr "error",
              obj [("lakera_ai_response", Examples.moderation true)])]
            [(PStr "lakera_ai_response", Examples.moderation true)]).
  - simpl. lia.
  - reflexivity.
  - reflexivity.
  - reflexivity.
  - intros s Hs. injection Hs as <-. left.
    exists (Exc JSONDecodeError), (Exc SyntaxError). now repeat split.
  - reflexivity.
  - reflexivity.
  - reflexivity.
  - reflexivity.
  - reflexivity.
  - discriminate.
Defined.

Lemma raised_violation_example :
  let r := Examples.error_response 400 Examples.direct_body "" in
  status_code r <> 200 /\
  exists body p,
    json r = Return body /\
    ProxyClient.find_violations Examples.json_loads Examples.literal_eval body
      = Return p /\
    violations
      (GuardrailViolation.init
         "LiteLLM has flagged this message due to policy violations"
         (Some [PStr "pii/email"]) None None
         (obj [("breakdown", PList [Examples.entry "pii/email" true;
                                    Examples.entry "jailbreak" false])]))
      = ProxyClient.found p /\
    violations
      (GuardrailViolation.init
         "LiteLLM has flagged this message due to policy violations"
         (Some [PStr "pii/email"]) None None
         (obj [("breakdown", PList [Examples.entry "pii/email" true;
                                    Examples.entry "jailbreak" false])]))
      <> [] /\
    args0
      (GuardrailViolation.init
         "LiteLLM has flagged this message due to policy violations"
         (Some [PStr "pii/email"]) None None
         (obj [("breakdown", PList [Examples.entry "pii/email" true;
                                    Examples.entry "jailbreak" false])]))
      = "LiteLLM has flagged this message due to policy violations" /\
    categories
      (GuardrailViolation.init
         "LiteLLM has flagged this message due to policy violations"
         (Some [PStr "pii/email"]) None None
         (obj [("breakdown", PList [Examples.entry "pii/email" true;
                                    Examples.entry "jailbreak" false])]))
      = [] /\
    category_scores
      (GuardrailViolation.init
         "LiteLLM has flagged this message due to policy violations"
         (Some [PStr "pii/email"]) None None
         (obj [("breakdown", PList [Examples.entry "pii/email" true;
                                    Examples.entry "jailbreak" false])]))
      = [] /\
    lakera_response
      (GuardrailViolation.init
         "LiteLLM has flagged this message due to policy violations"
         (Some [PStr "pii/email"]) None None
         (obj [("breakdown", PList [Examples.entry "pii/email" true;
                                    Examples.entry "jailbreak" false])]))
      = ProxyClient.lakera p.
Proof.
  cbv zeta.
  apply (@raised_violation_is_never_empty
           Examples.json_loads Examples.literal_eval
           (decoder_is_library _ _) (decoder_is_library _ _)
           (Examples.error_response 400 Examples.direct_body "")).
  - exact I.
  - reflexivity.
Defined.

Lemma payload_fields_example :
  exists p,
    ProxyClient.build_payload "gpt-4o" [ChatSession.turn "user" (PStr "hi")]
      (Some ["lakera-guard"]) false [("temperature", PInt 0)] = PDict p /\
    Py.lookup p "model" = Some (PStr "gpt-4o") /\
    Py.lookup p "messages"
      = Some (PList [ChatSession.turn "user" (PStr "hi")]) /\
    Py.lookup p "stream" = Some (PBool false) /\
    Py.lookup p "guardrails" = Some (PList (map PStr ["lakera-guard"])) /\
    (NoDup (map fst [("temperature", PInt 0)]) ->
     forall k v, In (k, v) [("temperature", PInt 0)] ->
                 Py.lookup p k = Some v).
Proof.
  apply (@payload_fields "gpt-4o" [ChatSession.turn "user" (PStr "hi")]
           (Some ["lakera-guard"]) false [("temperature", PInt 0)]).
  intros k [<- | []]. cbn. intuition discriminate.
Defined.

Lemma other_failures_example :
  let get := fun (_ : string) (_ : Z) =>
               @Raise response (Exc KeyboardInterrupt) in
  ProxyClient.health_check get (ProxyClient.init "http://localhost:4000" "k")
    = Raise (Exc KeyboardInterrupt) /\
  snd (run (Examples.steady (Raise (Exc KeyboardInterrupt)))
           ProxyManager.is_running tt)
    = Raise (Exc KeyboardInterrupt).
Proof.
  cbv zeta.
  destruct (@health_checks_let_other_failures_through unit
              (fun (_ : string) (_ : Z) =>
                 @Raise response (Exc KeyboardInterrupt))
              (ProxyClient.init "http://localhost:4000" "k")
              (Examples.steady (Raise (Exc KeyboardInterrupt))) tt
              (Exc KeyboardInterrupt) eq_refl) as [Hclient Hmanager].
  split; [apply Hclient | apply Hmanager]; reflexivity.
Defined.

Lemma rendering_failure_example :
  GuardrailViolation.str
    (GuardrailViolation.init "Blocked"
       (Some [PStr "pii/email"; PInt 7; PStr "jailbreak"]) None None PNone)
  = Raise (Exc AttributeError).
Proof.
  apply (@rendering_fails_on_a_violation_that_is_no_text
           (GuardrailViolation.init "Blocked"
              (Some [PStr "pii/email"; PInt 7; PStr "jailbreak"])
              None None PNone)
           ["pii/email"] (PInt 7) [PStr "jailbreak"]).
  - reflexivity.
  - reflexivity.
  - reflexivity.
Defined.

(** A first message with a system message, answered by the gateway. *)
Lemma chat_success_example :
  let chat :=
    ChatSession.chat Examples.json_loads Examples.literal_eval
      (Examples.gateway (Cases.answer "Hello!")) in
  let after := fst (chat Examples.session "hi" (Some "Be brief.")) in
  exists before,
    ChatSession.with_system Examples.session (Some "Be brief.")
      = Return before /\
    ChatSession.messages after =
      (ChatSession.messages before
         ++ [ChatSession.turn "user" (PStr "hi");
             ChatSession.turn "assistant" (PStr "Hello!")])%list /\
    Py.truthy (PStr "Hello!") = true /\
    (ChatSession.all_answered (ChatSession.messages Examples.session) = true ->
     ChatSession.all_answered (ChatSession.messages after) = true).
Proof.
  cbv zeta.
  apply (@chat_success_appends_the_exchange
           Examples.json_loads Examples.literal_eval
           (Examples.gateway (Cases.answer "Hello!"))
           Examples.session
           (fst (ChatSession.chat Examples.json_loads Examples.literal_eval
                   (Examples.gateway (Cases.answer "Hello!"))
                   Examples.session "hi" (Some "Be brief.")))
           "hi" (Some "Be brief.") (PStr "Hello!")).
  reflexivity.
Defined.

(** The gateway answers 502 with a page that is no JSON. *)
Lemma other_failure_example :
  let chat :=
    ChatSession.chat Examples.json_loads Examples.literal_eval
      (Examples.gateway Cases.html_error) in
  let after := fst (chat Examples.session "hi" None) in
  (ChatSession.with_system Examples.session None
     = Raise (ExcAPIError "API error (502): <html>Bad Gateway</html>") /\
   after = Examples.session) \/
  exists before,
    ChatSession.with_system Examples.session None = Return before /\
    ChatSession.messages after =
      (ChatSession.messages before
         ++ [ChatSession.turn "user" (PStr "hi")])%list /\
    ChatSession.all_answered (ChatSession.messages after) = false.
Proof.
  cbv zeta.
  apply (@other_failure_keeps_the_user_turn
           Examples.json_loads Examples.literal_eval
           (Examples.gateway Cases.html_error)
           Examples.session
           (fst (ChatSession.chat Examples.json_loads Examples.literal_eval
                   (Examples.gateway Cases.html_error)
                   Examples.session "hi" None))
           "hi" None
           (ExcAPIError "API error (502): <html>Bad Gateway</html>")).
  - reflexivity.
  - reflexivity.
Defined.

(** A 200 whose [choices] list is empty. *)
Lemma response_without_answer_example :
  ChatSession.chat Examples.json_loads Examples.literal_eval
    (Examples.gateway Cases.no_choices) Examples.session "hi" None
  = (ChatSession.add_message Examples.session "user" (PStr "hi"),
     Raise (ExcAPIError "No response choices in API response")).
Proof.
  apply (proj1 (@response_without_answer_is_an_api_error
                  Examples.json_loads Examples.literal_eval
                  (Examples.gateway Cases.no_choices)
                  Examples.session Examples.session "hi" None
                  Cases.no_choices [(PStr "choices", PList [])]
                  eq_refl eq_refl eq_refl eq_refl)).
  reflexivity.
Defined.

(** The first health check is refused, the second one, after the spawn,
    answers 200. *)
Lemma start_succeeds_example :
  let out :=
    run Examples.scripted
        (ProxyManager.start "python3" 5 Examples.manager true 30)
        ([Raise (Exc ConnectionError); Return Examples.ok_response], 0%Q) in
  let calls := fst (fst out) in
  let self' := ProxyManager.set_process Examples.manager (Some 1%nat) in
  stops calls = 0%nat /\
  ((spawns calls = 0%nat /\ self' = Examples.manager) \/
   (spawns calls = 1%nat /\
    (exists p, self' = ProxyManager.set_process Examples.manager (Some p)) /\
    exists before,
      calls =
        (before ++
         [Called (Get ProxyManager.PROXY_HEALTH_ENDPOINT 2);
          Called (Print ("✓ LiteLLM proxy is running at "
                         ++ ProxyManager.PROXY_URL))])%list)).
Proof.
  cbv zeta.
  apply (@start_succeeds_holding_the_process _
           Examples.scripted
           ([Raise (Exc ConnectionError); Return Examples.ok_response], 0%Q)
           "python3" 5%nat Examples.manager 30
           (ProxyManager.set_process Examples.manager (Some 1%nat))).
  vm_compute. reflexivity.
Defined.

(** Nothing answers the health checks, and [start] does not wait. *)
Lemma start_without_waiting_example :
  let out :=
    run Cases.idle
        (ProxyManager.start "python3" 5 Examples.manager false 30) tt in
  let calls := fst (fst out) in
  let self' := ProxyManager.set_process Examples.manager (Some 7%nat) in
  stops calls = 0%nat /\
  (exists p, self' = ProxyManager.set_process Examples.manager (Some p)) /\
  exists before cmd,
    calls = (before ++ [Called (Popen cmd)])%list /\ gets calls = 1%nat.
Proof.
  cbv zeta.
  apply (@start_without_waiting_never_checks_the_new_process _
           Cases.idle tt "python3" 5%nat Examples.manager 30
           (ProxyManager.set_process Examples.manager (Some 7%nat))).
  - vm_compute. reflexivity.
  - vm_compute. reflexivity.
Defined.

Lemma start_without_settings_file_example :
  exists s2,
    run Cases.down
        (ProxyManager.start "python3" 5 Examples.manager true 30) tt
    = ([Called (Get ProxyManager.PROXY_HEALTH_ENDPOINT 2);
        Called (PathExists (ProxyManager.config_path Examples.manager));
        Called (Print ("Error: Config file not found: "
                       ++ ProxyManager.config_path Examples.manager))],
       s2, Return (Some (Examples.manager, false))).
Proof.
  apply (@start_without_settings_file_fails_fast unit Cases.down tt tt
           [Called (Get ProxyManager.PROXY_HEALTH_ENDPOINT 2)]
           "python3" 5%nat Examples.manager true 30).
  - reflexivity.
  - reflexivity.
Defined.

(** With the proxy answering, [ensure_running] is the one check. *)
Lemma ensure_running_example :
  run (Examples.steady (Return Examples.ok_response))
      (ProxyManager.ensure_running "python3" 5 Examples.manager) tt
  = ([Called (Get ProxyManager.PROXY_HEALTH_ENDPOINT 2)], tt,
     Return (Some (Examples.manager, true))).
Proof.
  apply (@ensure_running_checks_then_starts unit
           (Examples.steady (Return Examples.ok_response)) tt tt
           [Called (Get ProxyManager.PROXY_HEALTH_ENDPOINT 2)] true
           "python3" 5%nat Examples.manager).
  reflexivity.
Defined.

(** [proxy stop] and [proxy status] while nothing answers. *)
Lemma stop_and_status_example :
  let command action :=
    run Cases.idle
        (Cli.proxy_command (fun path => "/srv/" ++ path) "python3" 5
           {| Cli.proxy_action := Some action; Cli.config := None |}) tt in
  (fst (fst (command "stop")) =
     [Called (PathExists "litellm");
      Called (Get ProxyManager.PROXY_HEALTH_ENDPOINT 2);
      Called (Print "Proxy is not running")] /\
   snd (command "stop") = Return (Some 0)) /\
  (fst (fst (command "status")) =
     [Called (PathExists "litellm");
      Called (Get ProxyManager.PROXY_HEALTH_ENDPOINT 2);
      Called (Print "✗ Proxy is not running")] /\
   snd (command "status") = Return (Some 1)).
Proof.
  cbv zeta.
  apply (@stop_and_status_follow_the_health_check
           (fun path => "/srv/" ++ path) "python3" unit Cases.idle tt tt
           [Called (Get ProxyManager.PROXY_HEALTH_ENDPOINT 2)] false
           5%nat None).
  reflexivity.
Defined.

(** [proxy] alone, and [proxy start], which is no action of this
    command. *)
Lemma unknown_proxy_action_example :
  let out :=
    run Cases.idle
        (Cli.proxy_command (fun path => "/srv/" ++ path) "python3" 5
           {| Cli.proxy_action := Some "start"; Cli.config := None |}) tt in
  fst (fst out) =
    [Called (PathExists "litellm");
     Called (Print "Unknown proxy action. Use: restart, stop, or status")] /\
  snd out = Return (Some 1).
Proof.
  cbv zeta.
  apply (@unknown_proxy_action_touches_nothing
           (fun path => "/srv/" ++ path) "python3" unit Cases.idle tt
           5%nat None (Some "start")).
  cbn. intuition discriminate.
Defined.

(** Both keys set; and only the first of the two. *)
Lemma check_env_vars_example :
  (let out := run Cases.idle (Cli.check_env_vars Cases.both_keys) tt in
   snd out = Return true /\ fst (fst out) = []) /\
  (let out := run Cases.idle (Cli.check_env_vars Cases.only_openai) tt in
   snd out = Return false /\
   fst (fst out) =
     [Called (Print "Error: Missing required environment variables:");
      Called (Print "  - LAKERA_API_KEY");
      Called (Print (Text.nl
                     ++ "Please set these in your .env file or environment."));
      Called (Print "See .env.example for reference.")]).
Proof.
  split.
  - exact (@check_env_vars_names_what_is_missing Cases.both_keys unit
             Cases.idle tt).
  - exact (@check_env_vars_names_what_is_missing Cases.only_openai unit
             Cases.idle tt).
Defined.
